(** * Delta-neutral hedger: sizing reconciliation and two-leg placement

    A shallow embedding of [src/hedger.py], [src/utils.py] and
    [src/exceptions.py], together with the parts of
    [src/exchanges/paradex/api.py] and [src/exchanges/bitget/api.py] that
    [HedgeManager] calls while placing and compensating orders, the side
    and sign helpers of [src/exchanges/paradex/types.py], the preparation
    of the two accounts, and the requests of a Paradex session with the
    refresh of its token.

    Modelling conventions.
    - A finite [decimal.Decimal] is the rational it denotes ([Q]); its
      exponent is not kept, since the program only computes and compares.
      Arithmetic is that of the default context: a sum, difference, product
      or quotient is rounded to 28 significant digits, ties to even, and
      [%] and [//] signal [InvalidOperation] when the integer quotient has
      more than 28 digits.  Comparisons, [min], [max] and the conversion of
      a string or of a float to a decimal are exact.  The exponent limits of
      the context (results beyond 10^999999 or below 10^-999999), NaN and
      infinities are not modelled.
    - A binary float is the rational it denotes; float arithmetic rounds
      to 53 significant bits, ties to even.  Subnormal and infinite floats
      are not modelled.
    - An exception is a value of [exn]; only subclasses of [Exception] are
      modelled (task cancellation and interpreter exit are outside the model).
    - A [while] loop is a function with a fuel argument; running out of fuel
      is its own outcome, so that termination is a statement to prove.
    - Network calls go through an oracle that answers every request from the
      requests issued before it; the requests are recorded in a trace. *)

From Stdlib Require Import QArith Qround Qabs Qpower Qreduction Qminmax Lqa ZArith
  Lia List String Bool Morphisms.
Import ListNotations.
Local Open Scope Q_scope.

(** ** Exceptions ([src/exceptions.py] and the built-in ones the code meets) *)

Inductive exn_class : Set :=
| ValueError
| KeyError
| InvalidOperation          (* decimal.InvalidOperation *)
| DivisionByZero            (* decimal.DivisionByZero *)
| ParadexAPIError           (* exchanges/paradex/exceptions.py *)
| BitgetAPIError            (* exchanges/bitget/exceptions.py *)
| ExchangeError
| InsufficientFundsError
| OrderSizeError
| OrderSizeTooSmallError
| OrderSizeTooLargeError
| OrderCancelledError
| HedgeError
| ParadexError
| BitgetError
| HedgePositionMismatchError
| OtherException (name : string).   (* any other subclass of Exception *)

Record exn : Set := Exn { exn_kind : exn_class; exn_message : string }.

(** The direct base class inside the hierarchy of [src/exceptions.py];
    [None] stands for a class deriving from [Exception] directly or through
    built-in classes only. *)
Definition base_class (c : exn_class) : option exn_class :=
  match c with
  | InsufficientFundsError | OrderSizeError | OrderCancelledError | HedgeError =>
      Some ExchangeError
  | OrderSizeTooSmallError | OrderSizeTooLargeError => Some OrderSizeError
  | ParadexError | BitgetError | HedgePositionMismatchError => Some HedgeError
  | _ => None
  end.

Definition exn_class_eqb (c d : exn_class) : bool :=
  match c, d with
  | ValueError, ValueError | KeyError, KeyError
  | InvalidOperation, InvalidOperation | DivisionByZero, DivisionByZero
  | ParadexAPIError, ParadexAPIError | BitgetAPIError, BitgetAPIError
  | ExchangeError, ExchangeError
  | InsufficientFundsError, InsufficientFundsError
  | OrderSizeError, OrderSizeError
  | OrderSizeTooSmallError, OrderSizeTooSmallError
  | OrderSizeTooLargeError, OrderSizeTooLargeError
  | OrderCancelledError, OrderCancelledError
  | HedgeError, HedgeError | ParadexError, ParadexError
  | BitgetError, BitgetError
  | HedgePositionMismatchError, HedgePositionMismatchError => true
  | OtherException n, OtherException m => String.eqb n m
  | _, _ => false
  end.

(** [issubclass c d]: the hierarchy is three levels deep. *)
Definition issubclass (c d : exn_class) : bool :=
  exn_class_eqb c d ||
  match base_class c with
  | Some p =>
      exn_class_eqb p d ||
      match base_class p with
      | Some g => exn_class_eqb g d
      | None => false
      end
  | None => false
  end.

Definition isinstance (e : exn) (d : exn_class) : bool :=
  issubclass (exn_kind e) d.

(** [str(error)] for the exception classes of the model. *)
Definition str_exn (e : exn) : string := exn_message e.

(** ** Outcomes

    What running a piece of code can end in: it is still running when the
    fuel is gone, it raises, or it returns. *)
Inductive outcome (A : Type) : Type :=
| OutOfFuel
| Raises (e : exn)
| Returns (a : A).
Arguments OutOfFuel {A}.
Arguments Raises {A} e.
Arguments Returns {A} a.

Definition obind {A B : Type} (m : outcome A) (k : A -> outcome B) : outcome B :=
  match m with
  | OutOfFuel => OutOfFuel
  | Raises e => Raises e
  | Returns a => k a
  end.

Notation "'let*' x ':=' m 'in' k" := (obind m (fun x => k))
  (at level 10, x name, m at level 100, k at level 200).

(** ** Decimal arithmetic *)

Definition Decimal := Q.

Definition Qlt_bool (a b : Q) : bool := negb (Qle_bool b a).

(** Python's [min(a, b)] and [max(a, b)] keep the first argument on a tie. *)
Definition pymin (a b : Decimal) : Decimal := if Qlt_bool b a then b else a.
Definition pymax (a b : Decimal) : Decimal := if Qlt_bool a b then b else a.
Definition pymin3 (a b c : Decimal) : Decimal := pymin (pymin a b) c.

(** Integer part, rounding toward zero. *)
Definition Qtrunc (x : Q) : Z := if Qle_bool 0 x then Qfloor x else Qceiling x.

(** Rounding away from zero ([ROUND_UP]). *)
Definition Qround_up (x : Q) : Z := if Qle_bool 0 x then Qceiling x else Qfloor x.

Definition is_zero (x : Decimal) : bool := Qeq_bool x 0.

(** Rounding to the nearest integer, ties to the even one. *)
Definition Qround_half_even (x : Q) : Z :=
  let f := Qfloor x in
  let d := x - inject_Z f in
  if Qlt_bool d (1 # 2) then f
  else if Qlt_bool (1 # 2) d then (f + 1)%Z
  else if Z.even f then f else (f + 1)%Z.

Fixpoint digits_aux (beta : Z) (fuel : nat) (n : Z) : Z :=
  match fuel with
  | O => 0
  | S fuel' =>
      if (n <? beta)%Z then 1 else (1 + digits_aux beta fuel' (n / beta))%Z
  end.

(** The number of digits of a positive integer in base [beta]. *)
Definition digits (beta n : Z) : Z :=
  digits_aux beta (S (Z.to_nat (Z.log2 n))) n.

(** For [q] other than zero, the exponent [e] with
    [beta ^ e <= |q| < beta ^ (e + 1)]. *)
Definition magnitude (beta : Z) (q : Q) : Z :=
  let e := (digits beta (Z.abs (Qnum q)) - digits beta (Zpos (Qden q)))%Z in
  if Qle_bool (inject_Z beta ^ e) (Qabs q) then e else (e - 1)%Z.

(** Rounding to [prec] significant digits in base [beta], ties to even. *)
Definition round_to (beta prec : Z) (q : Q) : Q :=
  if Qeq_bool q 0 then 0
  else
    let quantum := inject_Z beta ^ (magnitude beta q - prec + 1) in
    Qred (inject_Z (Qround_half_even (q / quantum)) * quantum).

(** The precision of the default context. *)
Definition prec : Z := 28.

(** The rounding every arithmetic result goes through ([ROUND_HALF_EVEN]). *)
Definition context_round (q : Q) : Decimal := round_to 10 prec q.

(** [a + b], [a - b] and [a * b]. *)
Definition dadd (a b : Decimal) : Decimal := context_round (a + b).
Definition dsub (a b : Decimal) : Decimal := context_round (a - b).
Definition dmul (a b : Decimal) : Decimal := context_round (a * b).

(** The integer quotient of [%] and [//] has more than [prec] digits. *)
Definition quotient_too_large (q : Z) : bool := (10 ^ prec <=? Z.abs q)%Z.

Definition DivisionImpossible : exn :=
  Exn InvalidOperation "[<class 'decimal.DivisionImpossible'>]".

(** What a remainder by zero signals: [InvalidOperation] in both cases,
    with the message of [DivisionUndefined] for [0 % 0]. *)
Definition remainder_by_zero (a : Decimal) : exn :=
  if is_zero a
  then Exn InvalidOperation "[<class 'decimal.DivisionUndefined'>]"
  else Exn InvalidOperation "[<class 'decimal.InvalidOperation'>]".

(** [a % b]: the remainder has the sign of the dividend; a zero divisor
    signals [InvalidOperation], and so does an integer quotient of more than
    28 digits. *)
Definition dmod (a b : Decimal) : outcome Decimal :=
  if is_zero b then Raises (remainder_by_zero a)
  else
    let q := Qtrunc (a / b) in
    if quotient_too_large q then Raises DivisionImpossible
    else Returns (context_round (a - b * inject_Z q)).

(** What a division by zero signals. *)
Definition division_by_zero (a : Decimal) : exn :=
  if is_zero a
  then Exn InvalidOperation "[<class 'decimal.DivisionUndefined'>]"
  else Exn DivisionByZero "[<class 'decimal.DivisionByZero'>]".

(** [a / b]. *)
Definition ddiv (a b : Decimal) : outcome Decimal :=
  if is_zero b then Raises (division_by_zero a)
  else Returns (context_round (a / b)).

(** [a // b]: the integer part of the quotient, truncated toward zero. *)
Definition dfloordiv (a b : Decimal) : outcome Decimal :=
  if is_zero b then Raises (division_by_zero a)
  else
    let q := Qtrunc (a / b) in
    if quotient_too_large q then Raises DivisionImpossible
    else Returns (inject_Z q).

(** [x.to_integral_value(rounding=ROUND_UP)]. *)
Definition to_integral_value_ROUND_UP (x : Decimal) : Decimal :=
  inject_Z (Qround_up x).

(** ** The common-size search ([HedgeManager._find_common_size]) *)

(** What running a loop can end in. *)
Inductive loop_result : Type :=
| LoopFuel                       (* the fuel ran out: the loop is still running *)
| LoopRaise (e : exn)            (* an exception left the loop *)
| LoopReturn (v : Decimal)       (* a [return] inside the body *)
| LoopExit.                      (* the condition became false *)

(** [(current_size % paradex_increment == 0) and
     (current_size % bitget_multiplier == 0)], evaluated left to right with
    the short cut of [and]. *)
Definition divisible_by_both
  (current_size paradex_increment bitget_multiplier : Decimal) : outcome bool :=
  let* r1 := dmod current_size paradex_increment in
  if is_zero r1 then
    let* r2 := dmod current_size bitget_multiplier in
    Returns (is_zero r2)
  else Returns false.

Section FindCommonSize.

Variables (paradex_increment bitget_multiplier : Decimal).
Variables (upper_limit min_size increment_step target_size : Decimal).

(** The first loop: [while current_size <= upper_limit]. *)
Fixpoint scan_up (fuel : nat) (current_size : Decimal) : loop_result :=
  match fuel with
  | O => LoopFuel
  | S fuel' =>
      if Qle_bool current_size upper_limit then
        match divisible_by_both current_size paradex_increment bitget_multiplier with
        | OutOfFuel => LoopFuel
        | Raises e => LoopRaise e
        | Returns true =>
            if Qle_bool target_size current_size
            then LoopReturn current_size
            else scan_up fuel' (dadd current_size increment_step)
        | Returns false => scan_up fuel' (dadd current_size increment_step)
        end
      else LoopExit
  end.

(** The second loop: [while current_size >= min_size]. *)
Fixpoint scan_down (fuel : nat) (current_size : Decimal) : loop_result :=
  match fuel with
  | O => LoopFuel
  | S fuel' =>
      if Qle_bool min_size current_size then
        match divisible_by_both current_size paradex_increment bitget_multiplier with
        | OutOfFuel => LoopFuel
        | Raises e => LoopRaise e
        | Returns true => LoopReturn current_size
        | Returns false => scan_down fuel' (dsub current_size increment_step)
        end
      else LoopExit
  end.

End FindCommonSize.

(** [_find_common_size]; [Returns None] is Python's [return None].  Each of
    the two loops may take up to [fuel] iterations. *)
Definition _find_common_size (fuel : nat)
  (paradex_size bitget_size paradex_increment bitget_multiplier
   min_paradex_size min_bitget_size
   max_affordable_paradex_size max_affordable_bitget_size : Decimal)
  : outcome (option Decimal) :=
  let upper_limit := pymin max_affordable_paradex_size max_affordable_bitget_size in
  let min_size := pymax min_paradex_size min_bitget_size in
  let increment_step := pymin paradex_increment bitget_multiplier in
  let target_size := pymax paradex_size bitget_size in
  match scan_up paradex_increment bitget_multiplier upper_limit
                increment_step target_size fuel min_size with
  | LoopFuel => OutOfFuel
  | LoopRaise e => Raises e
  | LoopReturn v => Returns (Some v)
  | LoopExit =>
      match scan_down paradex_increment bitget_multiplier min_size
                      increment_step fuel upper_limit with
      | LoopFuel => OutOfFuel
      | LoopRaise e => Raises e
      | LoopReturn v => Returns (Some v)
      | LoopExit => Returns None
      end
  end.

(** ** Size bounds and validation ([src/hedger.py], lines 245-274 and 311-339) *)

(** [Decimal(1.05)] and [Decimal(0.95)] convert the binary floats exactly;
    [Decimal("0.95")] is the decimal fraction. *)
Definition Decimal_float_1_05 : Decimal := 4728779608739021 # 4503599627370496.
Definition Decimal_float_0_95 : Decimal := 4278419646001971 # 4503599627370496.
Definition Decimal_str_0_95 : Decimal := 95 # 100.

Definition _calculate_min_paradex_size (min_notional price increment : Decimal)
  : outcome Decimal :=
  let* q := ddiv min_notional price in
  let min_size_from_notional := dmul q Decimal_float_1_05 in
  let* lots := ddiv min_size_from_notional increment in
  Returns (dmul (to_integral_value_ROUND_UP lots) increment).

Definition _calculate_max_bitget_size (position_limit open_interest multiplier : Decimal)
  : outcome Decimal :=
  let* lots :=
    dfloordiv (dmul (dmul position_limit open_interest) Decimal_str_0_95) multiplier in
  Returns (dmul lots multiplier).

(** The messages of the two [ValueError]s are the f-strings of the source
    without the interpolated numbers. *)
Definition _validate_size_constraints
  (min_paradex_size max_paradex_size min_bitget_size max_bitget_size : Decimal)
  : outcome unit :=
  if Qlt_bool max_paradex_size min_paradex_size then
    Raises (Exn ValueError "Paradex max order size is less than min order size")
  else if Qlt_bool max_bitget_size min_bitget_size then
    Raises (Exn ValueError "Bitget max order size is less than min order size")
  else Returns tt.

(** Messages as above, without the interpolated numbers. *)
Definition _validate_final_sizes
  (paradex_size bitget_size min_paradex_size min_bitget_size
   paradex_price bitget_price paradex_balance bitget_balance : Decimal)
  : outcome unit :=
  if Qlt_bool paradex_size min_paradex_size then
    Raises (Exn ValueError "Calculated Paradex size is less than minimum")
  else if Qlt_bool bitget_size min_bitget_size then
    Raises (Exn ValueError "Calculated Bitget size is less than minimum")
  else
    let paradex_cost := dmul paradex_size paradex_price in
    let bitget_cost := dmul bitget_size bitget_price in
    if Qlt_bool paradex_balance paradex_cost || Qlt_bool bitget_balance bitget_cost then
      Raises (Exn InsufficientFundsError "Calculated size exceeds available balance.")
    else Returns tt.

(** ** [src/utils.py] and [src/config.py] *)

(** The random source of one attempt: [random.choice([True, False])] and the
    [random.random()] draw behind [random.uniform]. *)
Record Random : Type := { choice_True_False : bool; random_random : Q }.

(** *** Binary floats *)

(** The rounding of float arithmetic, and of [float(d)] for a decimal. *)
Definition float_round (q : Q) : Q := round_to 2 53 q.

(** [str(x)] read back by [Decimal(...)]: the shortest decimal that rounds
    to the float [x], the nearest to [x] when there are several, the one
    with an even last digit when two are as near.  Seventeen digits always
    suffice. *)
Fixpoint shortest_repr (fuel : nat) (digits : Z) (x : Q) : Q :=
  match fuel with
  | O => x
  | S fuel' =>
      let quantum := inject_Z 10 ^ (magnitude 10 x - digits + 1) in
      let below := Qfloor (x / quantum) in
      let above := Qceiling (x / quantum) in
      let nearest := Qround_half_even (x / quantum) in
      let reads_back (c : Z) := Qeq_bool (float_round (inject_Z c * quantum)) x in
      if reads_back nearest then inject_Z nearest * quantum
      else if reads_back below then inject_Z below * quantum
      else if reads_back above then inject_Z above * quantum
      else shortest_repr fuel' (digits + 1) x
  end.

Definition Decimal_str_float (x : Q) : Decimal :=
  if Qeq_bool x 0 then 0 else Qred (shortest_repr 17 1 x).

(** [random.uniform(a, b)] is [a + (b - a) * self.random()] on floats;
    [r] is the value of [random()], a multiple of 2^-53 in [[0, 1)]. *)
Definition uniform (r a b : Q) : Q :=
  float_round (a + float_round (float_round (b - a) * r)).

Definition POSITION_USD_LIMITS : Decimal * Decimal := (50, 1000).

Definition calculate_position_value (r : Q)
  (min_trade_amount : Decimal) (position_usd_limits : Decimal * Decimal)
  (available_balance : Decimal) : option Decimal :=
  let min_limit := fst position_usd_limits in
  let max_limit := snd position_usd_limits in
  let min_position := pymax min_trade_amount min_limit in
  let max_position := pymin max_limit available_balance in
  if Qlt_bool max_position min_position then None
  else
    Some (Decimal_str_float
            (uniform r (float_round min_position) (float_round max_position))).

Definition get_random_order_side (choice : bool) : string * string :=
  if choice then ("buy", "long")%string else ("sell", "short")%string.

(** ** Orders and venue gateways *)

(** [exchanges/paradex/types.py]. *)
Inductive OrderSide : Set := Buy | Sell.
Inductive OrderType : Set := Market | Limit.

(** The fields of [Order] that [place_paradex_order] sets. *)
Record Order : Type := mkOrder {
  market : string;
  order_type : OrderType;
  order_side : OrderSide;
  size : Decimal;
  signature_timestamp : Z;
  flags : list string;
  signature : string
}.

(** The requests that place or unwind a leg. *)
Inductive Call : Type :=
| ParadexPlaceOrder (payload : Order)               (* POST /orders *)
| ParadexGetOrder (order_id : string)               (* GET /orders/{id} *)
| ParadexCancelOrder (order_id : string)            (* DELETE /orders/{id} *)
| BitgetPlaceOrder (side : string) (size : Decimal). (* POST place-order *)

(** The keys of a Paradex response body that the hedger reads; [None] is a
    missing key (or a JSON null). *)
Record ParadexBody : Type := mkParadexBody {
  body_id : option string;
  body_cancel_reason : option string;
  body_error : option string
}.

(** The keys of a Bitget response body that the hedger reads;
    [body_data_orderId] is [response["data"]["orderId"]]. *)
Record BitgetBody : Type := mkBitgetBody {
  body_msg : option string;
  body_data_orderId : option string
}.

(** What [_make_request] ends in: an exception, or a body together with
    whether the status was 2xx. *)
Inductive http_result (Body : Type) : Type :=
| HttpRaises (e : exn)
| HttpResponse (success : bool) (response_data : Body).
Arguments HttpRaises {Body} e.
Arguments HttpResponse {Body} success response_data.

Record BBO : Type := { ask : Decimal; bid : Decimal }.

(** [get_market_data]: the fields read, as parsed decimals. *)
Record MarketData : Type := {
  order_size_increment : Decimal;
  min_notional : Decimal;
  max_order_size : Decimal
}.

(** [get_contract_details(...)["data"][0]]: the fields read. *)
Record ContractData : Type := {
  sizeMultiplier : Decimal;
  minTradeUSDT : Decimal;
  minTradeNum : Decimal;
  posLimit : Decimal
}.

(** The two venues as the hedger sees them.  Order requests are answered
    from the requests issued so far.  The preparation and the read-only
    fetches of one attempt are given by their outcome (they are not recorded
    in the trace); for the Bitget fetches [Returns None] is a response whose
    [data] is missing or empty. *)
Record Venues : Type := {
  paradex_config : bool;                       (* [self.config] is non-empty *)
  sign_message : Order -> string -> string -> string;
  time_time : list Call -> Z;                  (* [int(time.time())] *)
  paradex_request : list Call -> Call -> http_result ParadexBody;
  bitget_request : list Call -> Call -> http_result BitgetBody;
  prepare_paradex : outcome Decimal;
  prepare_bitget : outcome Decimal;
  get_bbo : outcome BBO;
  get_future_price : outcome (option Decimal);
  get_market_data : outcome MarketData;
  get_contract_details : outcome (option ContractData);
  get_open_interest : outcome (option Decimal)
}.

(** ** The monad of venue calls: a trace of requests, and an outcome *)

Definition M (A : Type) : Type := list Call -> list Call * outcome A.

Definition ret {A : Type} (a : A) : M A := fun tr => (tr, Returns a).

Definition raise {A : Type} (e : exn) : M A := fun tr => (tr, Raises e).

Definition lift {A : Type} (r : outcome A) : M A := fun tr => (tr, r).

Definition bind {A B : Type} (m : M A) (k : A -> M B) : M B :=
  fun tr =>
    match m tr with
    | (tr', Returns a) => k a tr'
    | (tr', Raises e) => (tr', Raises e)
    | (tr', OutOfFuel) => (tr', OutOfFuel)
    end.

(** [try: body except Exception as e: handler e]. *)
Definition try_except {A : Type} (body : M A) (handler : exn -> M A) : M A :=
  fun tr =>
    match body tr with
    | (tr', Raises e) => handler e tr'
    | r => r
    end.

Notation "x <- m ;; k" := (bind m (fun x => k))
  (at level 61, m at next level, right associativity).

(** ** [ParadexAPI] and [BitgetAPI]: the methods used on orders *)

Definition sign_order (v : Venues) (order : Order)
  (paradex_address paradex_private_key : string) : outcome string :=
  if paradex_config v
  then Returns (sign_message v order paradex_address paradex_private_key)
  else Raises (Exn ParadexAPIError "Config not initialized. Call get_config() first").

Definition paradex_api_place_order (v : Venues) (payload : Order) : M ParadexBody :=
  fun tr =>
    let c := ParadexPlaceOrder payload in
    (tr ++ [c],
     match paradex_request v tr c with
     | HttpRaises e => Raises e
     | HttpResponse true response_data => Returns response_data
     | HttpResponse false _ => Raises (Exn ParadexAPIError "Failed to place order")
     end).

Definition paradex_api_get_order (v : Venues) (order_id : string) : M ParadexBody :=
  fun tr =>
    let c := ParadexGetOrder order_id in
    (tr ++ [c],
     match paradex_request v tr c with
     | HttpRaises e => Raises e
     | HttpResponse true response_data => Returns response_data
     | HttpResponse false _ => Raises (Exn ParadexAPIError "Failed to get order")
     end).

Definition ORDER_IS_CLOSED : string := "ORDER_IS_CLOSED".

(** [response.get("error", "") == "ORDER_IS_CLOSED"]. *)
Definition error_is_closed (response : ParadexBody) : bool :=
  match body_error response with
  | Some s => String.eqb s ORDER_IS_CLOSED
  | None => false
  end.

Definition paradex_api_cancel_order (v : Venues) (order_id : string) : M ParadexBody :=
  fun tr =>
    let c := ParadexCancelOrder order_id in
    (tr ++ [c],
     match paradex_request v tr c with
     | HttpRaises e => Raises e
     | HttpResponse true response_data => Returns response_data
     | HttpResponse false response_data =>
         if error_is_closed response_data
         then Returns (mkParadexBody None None (Some ORDER_IS_CLOSED))
         else Raises (Exn ParadexAPIError "Failed to cancel order")
     end).

Definition bitget_api_place_order (v : Venues) (size : Decimal) (side : string)
  : M BitgetBody :=
  fun tr =>
    let c := BitgetPlaceOrder side size in
    (tr ++ [c],
     match bitget_request v tr c with
     | HttpRaises e => Raises e
     | HttpResponse true response_data => Returns response_data
     | HttpResponse false _ =>
         Raises (Exn BitgetAPIError "An error occurred while interacting with Bitget API")
     end).

(** ** [HedgeManager]: placing one leg *)

(** [order.signature = ...]. *)
Definition set_signature (o : Order) (sig : string) : Order :=
  mkOrder (market o) (order_type o) (order_side o) (size o)
          (signature_timestamp o) (flags o) sig.

Definition now (v : Venues) : M Z := fun tr => (tr, Returns (time_time v tr)).

(** Python's truth value of a string. *)
Definition nonempty (s : string) : bool := negb (String.eqb s "").

Definition place_paradex_order (v : Venues) (order_side : OrderSide) (size : Decimal)
  (paradex_account_address paradex_account_private_key_hex : string)
  (reduce_only : bool) : M string :=
  t <- now v ;;
  let order :=
    mkOrder "ETH-USD-PERP" Market order_side size (t * 1000)
            (if reduce_only then ["REDUCE_ONLY"%string] else []) "" in
  sig <- lift (sign_order v order paradex_account_address
                          paradex_account_private_key_hex) ;;
  let order := set_signature order sig in
  order_response <- paradex_api_place_order v order ;;
  order_id <- match body_id order_response with
              | Some i => ret i
              | None => raise (Exn KeyError "'id'")
              end ;;
  created_order <- paradex_api_get_order v order_id ;;
  match body_cancel_reason created_order with
  | Some cancel_reason =>
      if nonempty cancel_reason
      then raise (Exn OrderCancelledError cancel_reason)
      else ret order_id
  | None => ret order_id
  end.

Definition place_bitget_order (v : Venues) (side : string) (size : Decimal) : M string :=
  order_response <- bitget_api_place_order v size side ;;
  msg <- match body_msg order_response with
         | Some m => ret m
         | None => raise (Exn KeyError "'msg'")
         end ;;
  if negb (String.eqb msg "success")
  then raise (Exn OrderCancelledError "Order was cancelled")
  else match body_data_orderId order_response with
       | Some i => ret i
       | None => raise (Exn KeyError "'data'")
       end.

(** ** [HedgeManager.place_orders] *)

Definition opposite (s : OrderSide) : OrderSide :=
  match s with Buy => Sell | Sell => Buy end.

(** The statements shared by the two handlers of a leg-B failure (lines
    377-392 and 397-412): cancel the leg-A order and, when the venue answers
    that it is closed, place a reduce-only order on the opposite side. *)
Definition unwind_paradex_leg (v : Venues) (paradex_side : OrderSide)
  (paradex_size : Decimal)
  (paradex_account_address paradex_account_private_key_hex : string)
  (paradex_order_id : string) : M unit :=
  cancel_order_response <- paradex_api_cancel_order v paradex_order_id ;;
  if error_is_closed cancel_order_response then
    _ <- place_paradex_order v (opposite paradex_side) paradex_size
           paradex_account_address paradex_account_private_key_hex true ;;
    ret tt
  else ret tt.

Definition place_orders (v : Venues)
  (paradex_side : OrderSide) (paradex_direction : string) (paradex_size : Decimal)
  (paradex_account_address paradex_account_private_key_hex : string)
  (bitget_side position_direction : string) (bitget_size : Decimal)
  : M (string * string) :=
  try_except
    (paradex_order_id <- place_paradex_order v paradex_side paradex_size
                           paradex_account_address
                           paradex_account_private_key_hex false ;;
     try_except
       (bitget_order_id <- place_bitget_order v bitget_side bitget_size ;;
        ret (paradex_order_id, bitget_order_id))
       (fun error =>
          if isinstance error OrderCancelledError then
            (* except OrderCancelledError: ...; raise *)
            _ <- unwind_paradex_leg v paradex_side paradex_size
                   paradex_account_address paradex_account_private_key_hex
                   paradex_order_id ;;
            raise error
          else
            (* except Exception as error: ...; raise BitgetError(...) *)
            _ <- unwind_paradex_leg v paradex_side paradex_size
                   paradex_account_address paradex_account_private_key_hex
                   paradex_order_id ;;
            raise (Exn BitgetError ("Bitget order failed: " ++ str_exn error))))
    (fun error =>
       if isinstance error OrderCancelledError then
         (* except OrderCancelledError: raise *)
         raise error
       else
         (* except Exception as error: raise ParadexError(...) from error *)
         raise (Exn ParadexError ("Paradex order failed: " ++ str_exn error))).

(** ** [HedgeManager.execute_hedge_strategy] *)

(** Lines 118-120: the Bitget side and direction are drawn, the Paradex
    ones are derived from them. *)
Record Sides : Type := {
  bitget_side : string;
  bitget_direction : string;
  paradex_side : OrderSide;
  paradex_direction : string
}.

Definition choose_sides (choice : bool) : Sides :=
  let '(bitget_side, bitget_direction) := get_random_order_side choice in
  {| bitget_side := bitget_side;
     bitget_direction := bitget_direction;
     paradex_side := if String.eqb bitget_side "buy" then Sell else Buy;
     paradex_direction :=
       if String.eqb bitget_direction "long" then "short"%string else "long"%string |}.

(** The local variables that lines 115-162 compute from the venues. *)
Record Constraints : Type := {
  paradex_balance : Decimal;
  bitget_balance : Decimal;
  sides : Sides;
  paradex_price : Decimal;
  bitget_price : Decimal;
  paradex_increment : Decimal;
  min_notional_paradex : Decimal;
  min_paradex_size : Decimal;
  max_paradex_size : Decimal;
  bitget_multiplier : Decimal;
  min_notional_bitget : Decimal;
  min_bitget_size : Decimal;
  max_bitget_size : Decimal
}.

Definition require_data {A : Type} (r : option A) (message : string) : outcome A :=
  match r with
  | Some a => Returns a
  | None => Raises (Exn BitgetError message)
  end.

(** Lines 115-162. *)
Definition read_constraints (v : Venues) (rng : Random) : outcome Constraints :=
  let* available_paradex := prepare_paradex v in
  let paradex_balance := dmul available_paradex Decimal_float_0_95 in
  let* available_bitget := prepare_bitget v in
  let bitget_balance := dmul available_bitget Decimal_float_0_95 in
  let sides := choose_sides (choice_True_False rng) in
  let* bbo := get_bbo v in
  let paradex_price :=
    match paradex_side sides with Buy => ask bbo | Sell => bid bbo end in
  let* bitget_price_data := get_future_price v in
  let* bitget_price := require_data bitget_price_data "Failed to get Bitget price data" in
  let* market_data := get_market_data v in
  let paradex_increment := order_size_increment market_data in
  let min_notional_paradex := min_notional market_data in
  let* min_paradex_size :=
    _calculate_min_paradex_size min_notional_paradex paradex_price paradex_increment in
  let max_paradex_size := max_order_size market_data in
  let* contract_details := get_contract_details v in
  let* contract_data :=
    require_data contract_details "Failed to get Bitget contract details" in
  let bitget_multiplier := sizeMultiplier contract_data in
  let min_notional_bitget := minTradeUSDT contract_data in
  let min_bitget_size := minTradeNum contract_data in
  let* bitget_open_interests := get_open_interest v in
  let* bitget_open_interest :=
    require_data bitget_open_interests "Failed to get Bitget open interest data" in
  let* max_bitget_size :=
    _calculate_max_bitget_size (posLimit contract_data) bitget_open_interest
                               bitget_multiplier in
  Returns {| paradex_balance := paradex_balance;
             bitget_balance := bitget_balance;
             sides := sides;
             paradex_price := paradex_price;
             bitget_price := bitget_price;
             paradex_increment := paradex_increment;
             min_notional_paradex := min_notional_paradex;
             min_paradex_size := min_paradex_size;
             max_paradex_size := max_paradex_size;
             bitget_multiplier := bitget_multiplier;
             min_notional_bitget := min_notional_bitget;
             min_bitget_size := min_bitget_size;
             max_bitget_size := max_bitget_size |}.

(** Lines 168-176: the target position value. *)
Definition choose_position_value (r : Q)
  (min_notional_paradex min_notional_bitget : Decimal)
  (position_usd_limits : Decimal * Decimal)
  (paradex_balance bitget_balance : Decimal) : outcome Decimal :=
  let min_available_balance := pymin paradex_balance bitget_balance in
  let min_trade_amount := pymax min_notional_paradex min_notional_bitget in
  match calculate_position_value r min_trade_amount position_usd_limits
                                 min_available_balance with
  | None => Raises (Exn InsufficientFundsError
                        "Insufficient funds on one of the exchanges")
  | Some position_value => Returns position_value
  end.

(** Lines 198-217: the sizes of the two legs.  [if common_size:] takes the
    truth value of an optional decimal: [None] and a zero decimal are both
    false. *)
Definition choose_leg_sizes (fuel : nat)
  (paradex_size bitget_size paradex_increment bitget_multiplier
   min_paradex_size min_bitget_size max_paradex_size max_bitget_size
   max_affordable_paradex_size max_affordable_bitget_size : Decimal)
  : outcome (Decimal * Decimal) :=
  let* common_size :=
    _find_common_size fuel paradex_size bitget_size paradex_increment
      bitget_multiplier min_paradex_size min_bitget_size
      max_affordable_paradex_size max_affordable_bitget_size in
  let best_effort :=
    (pymin3 paradex_size max_paradex_size max_affordable_paradex_size,
     pymin3 bitget_size max_bitget_size max_affordable_bitget_size) in
  match common_size with
  | Some c => if is_zero c then Returns best_effort else Returns (c, c)
  | None => Returns best_effort
  end.

(** Lines 164-228: from the constraints to the validated sizes. *)
Definition size_legs (fuel : nat) (r : Q) (c : Constraints)
  : outcome (Decimal * Decimal) :=
  let* _ := _validate_size_constraints (min_paradex_size c) (max_paradex_size c)
                                       (min_bitget_size c) (max_bitget_size c) in
  let* position_value :=
    choose_position_value r (min_notional_paradex c) (min_notional_bitget c)
      POSITION_USD_LIMITS (paradex_balance c) (bitget_balance c) in
  let* q := ddiv position_value (paradex_price c) in
  let* lots := dfloordiv q (paradex_increment c) in
  let paradex_size := dmul lots (paradex_increment c) in
  let* q := ddiv position_value (bitget_price c) in
  let* lots := dfloordiv q (bitget_multiplier c) in
  let bitget_size := dmul lots (bitget_multiplier c) in
  let* q := ddiv (paradex_balance c) (paradex_price c) in
  let* lots := dfloordiv q (paradex_increment c) in
  let max_affordable_paradex_size :=
    pymin (dmul lots (paradex_increment c)) (max_paradex_size c) in
  let* q := ddiv (bitget_balance c) (bitget_price c) in
  let* lots := dfloordiv q (bitget_multiplier c) in
  let max_affordable_bitget_size :=
    pymin (dmul lots (bitget_multiplier c)) (max_bitget_size c) in
  let* leg_sizes :=
    choose_leg_sizes fuel paradex_size bitget_size (paradex_increment c)
      (bitget_multiplier c) (min_paradex_size c) (min_bitget_size c)
      (max_paradex_size c) (max_bitget_size c)
      max_affordable_paradex_size max_affordable_bitget_size in
  let* _ :=
    _validate_final_sizes (fst leg_sizes) (snd leg_sizes)
      (min_paradex_size c) (min_bitget_size c) (paradex_price c) (bitget_price c)
      (paradex_balance c) (bitget_balance c) in
  Returns leg_sizes.

Definition execute_hedge_strategy (v : Venues) (rng : Random) (fuel : nat)
  (paradex_account_address paradex_account_private_key_hex : string)
  : M (string * string) :=
  try_except
    (c <- lift (read_constraints v rng) ;;
     leg_sizes <- lift (size_legs fuel (random_random rng) c) ;;
     place_orders v
       (paradex_side (sides c)) (paradex_direction (sides c)) (fst leg_sizes)
       paradex_account_address paradex_account_private_key_hex
       (bitget_side (sides c)) (bitget_direction (sides c)) (snd leg_sizes))
    (fun error =>
       (* except Exception as error: logger.error(...); raise *)
       raise error).

(** ** Vocabulary of the statements *)

(** [v % inc == 0]. *)
Definition is_multiple (v inc : Decimal) : Prop :=
  exists r, dmod v inc = Returns r /\ r == 0.

(** [v] is an exact multiple of both increments. *)
Definition is_common_multiple (v paradex_increment bitget_multiplier : Decimal) : Prop :=
  is_multiple v paradex_increment /\ is_multiple v bitget_multiplier.

(** The number of steps a scan has taken, as a decimal. *)
Definition nat_Q (k : nat) : Q := inject_Z (Z.of_nat k).

(** [x] is a whole number of units of [10^-e]: it has at most [e] decimal
    places. *)
Definition decimal_places (e : nat) (x : Decimal) : Prop :=
  exists m : Z, x == inject_Z m * 10 ^ (- Z.of_nat e).

(** Below this bound a number with at most [e] decimal places has at most
    28 digits, so that the context does not round it. *)
Definition digits_bound (e : nat) : Q := 10 ^ (prec - Z.of_nat e).

(** The candidates a scan visits, as the program computes them: the start,
    and then each time the candidate before with the step added, or
    subtracted. *)
Fixpoint up_candidate (start step : Decimal) (k : nat) : Decimal :=
  match k with
  | O => start
  | S k' => dadd (up_candidate start step k') step
  end.

Fixpoint down_candidate (start step : Decimal) (k : nat) : Decimal :=
  match k with
  | O => start
  | S k' => dsub (down_candidate start step k') step
  end.

(** The first [k] candidates of an upward scan are within the upper limit
    and none of them is a common multiple that reaches the target. *)
Definition passed_up (ia ib upper step target start : Decimal) (k : nat) : Prop :=
  forall j : nat, (j < k)%nat ->
    up_candidate start step j <= upper /\
    ~ (is_common_multiple (up_candidate start step j) ia ib /\
       target <= up_candidate start step j).

(** The first [k] candidates of a downward scan are of at least the minimum
    size and none of them is a common multiple. *)
Definition passed_down (ia ib lo step start : Decimal) (k : nat) : Prop :=
  forall j : nat, (j < k)%nat ->
    lo <= down_candidate start step j /\
    ~ is_common_multiple (down_candidate start step j) ia ib.

(** The [InsufficientFundsError] of line 174. *)
Definition InsufficientFunds : exn :=
  Exn InsufficientFundsError "Insufficient funds on one of the exchanges".

(** A computation run from the empty trace. *)
Definition run {A : Type} (m : M A) : list Call * outcome A := m [].

Definition is_cancel (c : Call) : bool :=
  match c with ParadexCancelOrder _ => true | _ => false end.

Definition is_reduce_only (o : Order) : bool :=
  existsb (String.eqb "REDUCE_ONLY"%string) (flags o).

Definition is_flatten (c : Call) : bool :=
  match c with ParadexPlaceOrder o => is_reduce_only o | _ => false end.


Definition count (p : Call -> bool) (tr : list Call) : nat :=
  List.length (filter p tr).

(** The order that [place_paradex_order] submits when the trace is [tr]. *)
Definition submitted_order (v : Venues) (order_side : OrderSide) (size : Decimal)
  (address key : string) (reduce_only : bool) (tr : list Call) : Order :=
  let order :=
    mkOrder "ETH-USD-PERP" Market order_side size (time_time v tr * 1000)
            (if reduce_only then ["REDUCE_ONLY"%string] else []) "" in
  set_signature order (sign_message v order address key).

(** What the handlers of the outer [try] of [place_orders] raise for an
    exception that reaches them (lines 416-420). *)
Definition outer_handler (error : exn) : exn :=
  if isinstance error OrderCancelledError then error
  else Exn ParadexError ("Paradex order failed: " ++ str_exn error).

(** What the handlers of the inner [try] raise once leg A is unwound (lines
    394 and 414). *)
Definition inner_handler (error : exn) : exn :=
  if isinstance error OrderCancelledError then error
  else Exn BitgetError ("Bitget order failed: " ++ str_exn error).

Section Attempt.

Variables (v : Venues) (paradex_side : OrderSide) (paradex_direction : string)
          (paradex_size : Decimal) (address key : string)
          (bitget_side position_direction : string) (bitget_size : Decimal).

(** The three stages of [place_orders], each run where the one before it
    left the trace: placing leg A, placing leg B, unwinding leg A. *)
Definition leg_a_attempt : list Call * outcome string :=
  run (place_paradex_order v paradex_side paradex_size address key false).

Definition leg_b_attempt : list Call * outcome string :=
  place_bitget_order v bitget_side bitget_size (fst leg_a_attempt).

Definition compensation_attempt (paradex_order_id : string)
  : list Call * outcome unit :=
  unwind_paradex_leg v paradex_side paradex_size address key paradex_order_id
                     (fst leg_b_attempt).

(** One run of [place_orders]. *)
Definition attempt : list Call * outcome (string * string) :=
  run (place_orders v paradex_side paradex_direction paradex_size address key
                    bitget_side position_direction bitget_size).

(** The request that places leg A, and the one that places leg B. *)
Definition order_a : Call :=
  ParadexPlaceOrder (submitted_order v paradex_side paradex_size address key false []).

Definition order_b : Call := BitgetPlaceOrder bitget_side bitget_size.

(** The trace once both legs have been tried. *)
Definition both_tried (i : string) : list Call :=
  [order_a; ParadexGetOrder i; order_b].

(** The answer to the cancel request of the compensation. *)
Definition cancel_response (i : string) : outcome ParadexBody :=
  snd (paradex_api_cancel_order v i (fst leg_b_attempt)).

(** The reduce-only order of the compensation. *)
Definition flatten_order (i : string) : Order :=
  submitted_order v (opposite paradex_side) paradex_size address key true
                  (both_tried i ++ [ParadexCancelOrder i]).

(** The ways one run of [place_orders] can go. *)
Inductive attempt_view : Prop :=
| view_leg_a_failed (tA : list Call) (e : exn)
    (HA : leg_a_attempt = (tA, Raises e))
    (Hshape : tA = [] \/ tA = [order_a] \/
              exists i, tA = [order_a; ParadexGetOrder i])
    (Hres : attempt = (tA, Raises (outer_handler e)))
| view_both_placed (i j : string)
    (HA : leg_a_attempt = ([order_a; ParadexGetOrder i], Returns i))
    (HB : leg_b_attempt = (both_tried i, Returns j))
    (Hres : attempt = (both_tried i, Returns (i, j)))
| view_cancel_failed (i : string) (e failure : exn)
    (HA : leg_a_attempt = ([order_a; ParadexGetOrder i], Returns i))
    (HB : leg_b_attempt = (both_tried i, Raises e))
    (HC : cancel_response i = Raises failure)
    (Hcomp : compensation_attempt i =
             (both_tried i ++ [ParadexCancelOrder i], Raises failure))
    (Hres : attempt =
            (both_tried i ++ [ParadexCancelOrder i], Raises (outer_handler failure)))
| view_cancelled (i : string) (e : exn) (response : ParadexBody)
    (HA : leg_a_attempt = ([order_a; ParadexGetOrder i], Returns i))
    (HB : leg_b_attempt = (both_tried i, Raises e))
    (HC : cancel_response i = Returns response)
    (Hclosed : error_is_closed response = false)
    (Hcomp : compensation_attempt i =
             (both_tried i ++ [ParadexCancelOrder i], Returns tt))
    (Hres : attempt =
            (both_tried i ++ [ParadexCancelOrder i],
             Raises (outer_handler (inner_handler e))))
| view_flatten_failed (i : string) (e failure : exn) (response : ParadexBody)
    (tF : list Call)
    (HA : leg_a_attempt = ([order_a; ParadexGetOrder i], Returns i))
    (HB : leg_b_attempt = (both_tried i, Raises e))
    (HC : cancel_response i = Returns response)
    (Hclosed : error_is_closed response = true)
    (HF : tF = [] \/ exists j, tF = [ParadexGetOrder j])
    (Hcomp : compensation_attempt i =
             (both_tried i ++
                ParadexCancelOrder i :: ParadexPlaceOrder (flatten_order i) :: tF,
              Raises failure))
    (Hres : attempt =
            (both_tried i ++
               ParadexCancelOrder i :: ParadexPlaceOrder (flatten_order i) :: tF,
             Raises (outer_handler failure)))
| view_flattened (i j : string) (e : exn) (response : ParadexBody)
    (HA : leg_a_attempt = ([order_a; ParadexGetOrder i], Returns i))
    (HB : leg_b_attempt = (both_tried i, Raises e))
    (HC : cancel_response i = Returns response)
    (Hclosed : error_is_closed response = true)
    (Hcomp : compensation_attempt i =
             (both_tried i ++
                [ParadexCancelOrder i; ParadexPlaceOrder (flatten_order i);
                 ParadexGetOrder j],
              Returns tt))
    (Hres : attempt =
            (both_tried i ++
               [ParadexCancelOrder i; ParadexPlaceOrder (flatten_order i);
                ParadexGetOrder j],
             Raises (outer_handler (inner_handler e)))).

End Attempt.

(** ** Concrete venues for the examples *)

Definition accepted : ParadexBody := mkParadexBody (Some "A1"%string) None None.

Definition eth_market : MarketData :=
  {| order_size_increment := 1 # 100; min_notional := 50; max_order_size := 100 |}.

(** A market whose largest order is below the smallest tradable size. *)
Definition capped_market : MarketData :=
  {| order_size_increment := 1 # 100; min_notional := 50; max_order_size := 1 # 100 |}.

(** Venues where Paradex accepts every order and fetch, answers the cancel
    request with [cancel_reply], and Bitget answers with [bitget_reply]. *)
Definition scripted_venues (cancel_reply : http_result ParadexBody)
  (bitget_reply : http_result BitgetBody) (market_data : MarketData) : Venues :=
  {| paradex_config := true;
     sign_message := fun _ _ _ => "0xsig"%string;
     time_time := fun _ => 1700000000%Z;
     paradex_request := fun _ c =>
       match c with
       | ParadexCancelOrder _ => cancel_reply
       | _ => HttpResponse true accepted
       end;
     bitget_request := fun _ _ => bitget_reply;
     prepare_paradex := Returns 1000;
     prepare_bitget := Returns 1000;
     get_bbo := Returns {| ask := 3000; bid := 2999 |};
     get_future_price := Returns (Some 3005);
     get_market_data := Returns market_data;
     get_contract_details :=
       Returns (Some {| sizeMultiplier := 1 # 1000; minTradeUSDT := 5;
                        minTradeNum := 1 # 1000; posLimit := 1 # 10 |});
     get_open_interest := Returns (Some 100000) |}.

Definition bitget_rejects : http_result BitgetBody :=
  HttpResponse true (mkBitgetBody (Some "error"%string) None).

Definition bitget_unreachable : http_result BitgetBody :=
  HttpRaises (Exn BitgetAPIError "An error occurred while interacting with Bitget API").

Definition cancel_refused : http_result ParadexBody :=
  HttpResponse false (mkParadexBody None None None).

Definition cancel_done : http_result ParadexBody :=
  HttpResponse true (mkParadexBody None None None).

Definition cancel_closed : http_result ParadexBody :=
  HttpResponse false (mkParadexBody None None (Some "ORDER_IS_CLOSED"%string)).

(** Venues where Paradex accepts the order of leg A and then refuses the
    request for the created order; Bitget would accept every order. *)
Definition fetch_refused_venues : Venues :=
  {| paradex_config := true;
     sign_message := fun _ _ _ => "0xsig"%string;
     time_time := fun _ => 1700000000%Z;
     paradex_request := fun _ c =>
       match c with
       | ParadexGetOrder _ => HttpResponse false (mkParadexBody None None None)
       | _ => HttpResponse true accepted
       end;
     bitget_request := fun _ _ =>
       HttpResponse true (mkBitgetBody (Some "success"%string) (Some "B1"%string));
     prepare_paradex := Returns 1000;
     prepare_bitget := Returns 1000;
     get_bbo := Returns {| ask := 3000; bid := 2999 |};
     get_future_price := Returns (Some 3005);
     get_market_data := Returns eth_market;
     get_contract_details :=
       Returns (Some {| sizeMultiplier := 1 # 1000; minTradeUSDT := 5;
                        minTradeNum := 1 # 1000; posLimit := 1 # 10 |});
     get_open_interest := Returns (Some 100000) |}.

Definition tails : Random := {| choice_True_False := false; random_random := 1 # 2 |}.

(** Venues without minimum sizes (no minimum notional on Paradex, no minimum
    trade number on Bitget), with the increments 2 and 3 and a price of 10;
    both venues accept every order. *)
Definition zero_minimum_venues : Venues :=
  {| paradex_config := true;
     sign_message := fun _ _ _ => "0xsig"%string;
     time_time := fun _ => 1700000000%Z;
     paradex_request := fun _ _ => HttpResponse true accepted;
     bitget_request := fun _ _ =>
       HttpResponse true (mkBitgetBody (Some "success"%string) (Some "B1"%string));
     prepare_paradex := Returns 60;
     prepare_bitget := Returns 64;
     get_bbo := Returns {| ask := 10; bid := 10 |};
     get_future_price := Returns (Some 10);
     get_market_data :=
       Returns {| order_size_increment := 2; min_notional := 0; max_order_size := 4 |};
     get_contract_details :=
       Returns (Some {| sizeMultiplier := 3; minTradeUSDT := 0;
                        minTradeNum := 0; posLimit := 1 |});
     get_open_interest := Returns (Some 7) |}.

(** The random source that picks buy on Bitget and the lowest position value. *)
Definition heads_lowest : Random := {| choice_True_False := true; random_random := 0 |}.

(** ** Further vocabulary of the statements *)

Definition is_bitget_order (c : Call) : bool :=
  match c with BitgetPlaceOrder _ _ => true | _ => false end.

(** The order request of leg A: a Paradex order without the reduce-only flag. *)
Definition is_leg_a_order (c : Call) : bool :=
  match c with ParadexPlaceOrder o => negb (is_reduce_only o) | _ => false end.

(** [created_order.get("cancel_reason")] is false: missing, null or empty. *)
Definition no_cancel_reason (created_order : ParadexBody) : bool :=
  match body_cancel_reason created_order with
  | Some reason => negb (nonempty reason)
  | None => true
  end.

(** ** Sides and signs ([src/exchanges/paradex/types.py]) *)

(** [OrderSide.opposite_side]. *)
Definition opposite_side (self : OrderSide) : OrderSide :=
  match self with Buy => Sell | Sell => Buy end.

(** [OrderSide.sign]. *)
Definition OrderSide_sign (self : OrderSide) : Z :=
  match self with Buy => 1 | Sell => -1 end.

(** [OrderSide.chain_side]. *)
Definition chain_side (self : OrderSide) : string :=
  match self with Buy => "1" | Sell => "2" end.

(** [quantity_side]: [amount >= 0.0]. *)
Definition quantity_side (amount : Decimal) : OrderSide :=
  if Qle_bool 0 amount then Buy else Sell.

(** The float literal [0.000001], exactly: comparisons of a number with a
    float are exact in Python. *)
Definition float_0_000001 : Q := 4722366482869645 # 4722366482869645213696.

(** [sign(a)]. *)
Definition sign (a : Q) : Z :=
  if Qlt_bool float_0_000001 a then 1
  else if Qlt_bool a (- float_0_000001) then -1
  else 0.

(** ** Preparing the accounts ([HedgeManager.prepare_paradex] and
    [HedgeManager.prepare_bitget], [src/hedger.py], lines 25-61) *)

Module Preparation.

(** A JSON value as the preparation compares it: [JOther] is an array or
    an object. *)
Inductive json : Type :=
| JNull
| JBool (b : bool)
| JNumber (q : Q)
| JString (s : string)
| JOther.

(** [x != 1]; Python's [True] equals 1. *)
Definition differs_from_1 (x : json) : bool :=
  match x with
  | JNumber q => negb (Qeq_bool q 1)
  | JBool b => negb b
  | _ => true
  end.

(** [x != s] for a string literal [s]. *)
Definition differs_from (x : json) (s : string) : bool :=
  match x with
  | JString t => negb (String.eqb t s)
  | _ => true
  end.

(** The requests of the preparation. *)
Inductive Request : Type :=
| GetAccountInfo
| GetMarginConfiguration (market : string)
| SetMarginConfiguration (market : string) (leverage : Z) (margin_type : string)
| GetAccountDetails (symbol : string)
| SetPositionMode
| SetMarginMode (symbol : string)
| SetLeverage (symbol : string) (leverage : Z).

(** [account_info]: the key read, as a parsed decimal; [None] is a missing
    key. *)
Record AccountInfo : Type := { free_collateral : option Decimal }.

(** An entry of ["configs"]: the keys read. *)
Record MarginConfiguration : Type := {
  leverage : option json;
  margin_type : option json
}.

(** [get_margin_configuration(...)]: its ["configs"]. *)
Record MarginResponse : Type := { configs : option (list MarginConfiguration) }.

(** [account_details["data"]]: the keys read, the balance as a parsed
    decimal. *)
Record AccountData : Type := {
  isolatedMaxAvailable : option Decimal;
  marginMode : option json;
  posMode : option json;
  isolatedLongLever : option json;
  isolatedShortLever : option json
}.

Record AccountDetails : Type := { data : option AccountData }.

(** The gateways of the preparation: what each method of [ParadexAPI] and
    [BitgetAPI] ends in, given the requests issued before it. *)
Record Gateways : Type := {
  get_account_info : list Request -> outcome AccountInfo;
  get_margin_configuration : list Request -> string -> outcome MarginResponse;
  set_margin_configuration : list Request -> string -> Z -> string -> outcome unit;
  get_account_details : list Request -> string -> outcome AccountDetails;
  set_position_mode : list Request -> outcome unit;
  set_margin_mode : list Request -> string -> outcome unit;
  set_leverage : list Request -> string -> Z -> outcome unit
}.

(** A computation that issues requests. *)
Definition P (A : Type) : Type := list Request -> list Request * outcome A.

Definition pret {A : Type} (a : A) : P A := fun tr => (tr, Returns a).

Definition pbind {A B : Type} (m : P A) (k : A -> P B) : P B :=
  fun tr =>
    match m tr with
    | (tr', Returns a) => k a tr'
    | (tr', Raises e) => (tr', Raises e)
    | (tr', OutOfFuel) => (tr', OutOfFuel)
    end.

(** A request: it is recorded, and answered from the requests before it. *)
Definition request {A : Type} (r : Request) (answer : list Request -> outcome A) : P A :=
  fun tr => (tr ++ [r], answer tr).

Definition plift {A : Type} (r : outcome A) : P A := fun tr => (tr, r).

(** [d[key]]. *)
Definition item {A : Type} (value : option A) (key : string) : outcome A :=
  match value with
  | Some a => Returns a
  | None => Raises (Exn KeyError key)
  end.

(** [l[0]]. *)
Definition first_item {A : Type} (l : list A) : outcome A :=
  match l with
  | a :: _ => Returns a
  | [] => Raises (Exn (OtherException "IndexError") "list index out of range")
  end.

(** The test of line 33; [or] reads its right operand only when the left one
    is false. *)
Definition margin_differs (margin_configuration : MarginConfiguration) : outcome bool :=
  let* l := item (leverage margin_configuration) "'leverage'" in
  if differs_from_1 l then Returns true
  else
    let* t := item (margin_type margin_configuration) "'margin_type'" in
    Returns (differs_from t "ISOLATED").

Definition prepare_paradex (g : Gateways) : P Decimal :=
  pbind (request GetAccountInfo (get_account_info g)) (fun account_info =>
  pbind (plift (item (free_collateral account_info) "'free_collateral'"))
        (fun available_balance =>
  pbind (request (GetMarginConfiguration "ETH-USD-PERP")
                 (fun tr => get_margin_configuration g tr "ETH-USD-PERP"))
        (fun response =>
  pbind (plift (let* l := item (configs response) "'configs'" in first_item l))
        (fun margin_configuration =>
  pbind (plift (margin_differs margin_configuration)) (fun differs =>
  if differs
  then
    pbind (request (SetMarginConfiguration "ETH-USD-PERP" 1 "ISOLATED")
                   (fun tr => set_margin_configuration g tr "ETH-USD-PERP" 1 "ISOLATED"))
          (fun _ => pret available_balance)
  else pret available_balance))))).

Definition prepare_bitget (g : Gateways) : P Decimal :=
  pbind (request (GetAccountDetails "ETHPERP")
                 (fun tr => get_account_details g tr "ETHPERP"))
        (fun account_details =>
  pbind (plift (item (data account_details) "'data'")) (fun d =>
  pbind (plift (item (isolatedMaxAvailable d) "'isolatedMaxAvailable'"))
        (fun available_balance =>
  pbind (plift (item (marginMode d) "'marginMode'")) (fun margin_mode =>
  pbind (plift (item (posMode d) "'posMode'")) (fun position_mode =>
  pbind (plift (item (isolatedLongLever d) "'isolatedLongLever'"))
        (fun isolated_long_lever =>
  pbind (plift (item (isolatedShortLever d) "'isolatedShortLever'"))
        (fun isolated_short_lever =>
  pbind (if differs_from position_mode "one_way_mode"
         then request SetPositionMode (set_position_mode g)
         else pret tt) (fun _ =>
  pbind (if differs_from margin_mode "isolated"
         then request (SetMarginMode "ETHPERP")
                      (fun tr => set_margin_mode g tr "ETHPERP")
         else pret tt) (fun _ =>
  pbind (if differs_from_1 isolated_long_lever || differs_from_1 isolated_short_lever
         then request (SetLeverage "ETHPERP" 1)
                      (fun tr => set_leverage g tr "ETHPERP" 1)
         else pret tt) (fun _ =>
  pret available_balance)))))))))).

(** Is the request one that changes the account? *)
Definition mutates (r : Request) : bool :=
  match r with
  | SetMarginConfiguration _ _ _ | SetPositionMode | SetMarginMode _ | SetLeverage _ _ =>
      true
  | _ => false
  end.

(** The answer of the venue to a request that changes the account, given
    the requests issued before it. *)
Definition setting_answer (g : Gateways) (tr : list Request) (r : Request)
  : outcome unit :=
  match r with
  | SetMarginConfiguration market leverage margin_type =>
      set_margin_configuration g tr market leverage margin_type
  | SetPositionMode => set_position_mode g tr
  | SetMarginMode symbol => set_margin_mode g tr symbol
  | SetLeverage symbol leverage => set_leverage g tr symbol leverage
  | _ => Returns tt
  end.

(** Sending the requests [wanted] one after the other, up to the first one
    that does not return; [balance] is returned once all of them returned.
    This is what the statements compare [prepare_bitget] with. *)
Fixpoint send_in_order (g : Gateways) (tr : list Request) (wanted : list Request)
  (balance : Decimal) : list Request * outcome Decimal :=
  match wanted with
  | [] => (tr, Returns balance)
  | r :: rest =>
      match setting_answer g tr r with
      | Returns _ => send_in_order g (tr ++ [r]) rest balance
      | Raises e => (tr ++ [r], Raises e)
      | OutOfFuel => (tr ++ [r], OutOfFuel)
      end
  end.

(** *** A venue that applies what it is asked *)

(** The settings of the two accounts, as the venues report them. *)
Record Settings : Type := {
  paradex_leverage : json;
  paradex_margin_type : json;
  bitget_margin_mode : json;
  bitget_position_mode : json;
  bitget_long_lever : json;
  bitget_short_lever : json
}.

(** What a request does to the settings; [lever] is how Bitget reports a
    leverage (as a number, or as a string). *)
Definition apply_request (lever : Z -> json) (s : Settings) (r : Request) : Settings :=
  match r with
  | SetMarginConfiguration _ l t =>
      {| paradex_leverage := JNumber (inject_Z l);
         paradex_margin_type := JString t;
         bitget_margin_mode := bitget_margin_mode s;
         bitget_position_mode := bitget_position_mode s;
         bitget_long_lever := bitget_long_lever s;
         bitget_short_lever := bitget_short_lever s |}
  | SetPositionMode =>
      {| paradex_leverage := paradex_leverage s;
         paradex_margin_type := paradex_margin_type s;
         bitget_margin_mode := bitget_margin_mode s;
         bitget_position_mode := JString "one_way_mode";
         bitget_long_lever := bitget_long_lever s;
         bitget_short_lever := bitget_short_lever s |}
  | SetMarginMode _ =>
      {| paradex_leverage := paradex_leverage s;
         paradex_margin_type := paradex_margin_type s;
         bitget_margin_mode := JString "isolated";
         bitget_position_mode := bitget_position_mode s;
         bitget_long_lever := bitget_long_lever s;
         bitget_short_lever := bitget_short_lever s |}
  | SetLeverage _ l =>
      {| paradex_leverage := paradex_leverage s;
         paradex_margin_type := paradex_margin_type s;
         bitget_margin_mode := bitget_margin_mode s;
         bitget_position_mode := bitget_position_mode s;
         bitget_long_lever := lever l;
         bitget_short_lever := lever l |}
  | _ => s
  end.

Definition settings_after (lever : Z -> json) (initial : Settings) (tr : list Request)
  : Settings :=
  fold_left (apply_request lever) tr initial.

(** Gateways that never fail, apply every setting and report the settings
    as they are. *)
Definition obedient (lever : Z -> json) (initial : Settings)
  (paradex_collateral bitget_available : Decimal) : Gateways :=
  {| get_account_info := fun _ => Returns {| free_collateral := Some paradex_collateral |};
     get_margin_configuration := fun tr _ =>
       let s := settings_after lever initial tr in
       Returns {| configs := Some [ {| leverage := Some (paradex_leverage s);
                                       margin_type := Some (paradex_margin_type s) |} ] |};
     set_margin_configuration := fun _ _ _ _ => Returns tt;
     get_account_details := fun tr _ =>
       let s := settings_after lever initial tr in
       Returns {| data := Some {| isolatedMaxAvailable := Some bitget_available;
                                  marginMode := Some (bitget_margin_mode s);
                                  posMode := Some (bitget_position_mode s);
                                  isolatedLongLever := Some (bitget_long_lever s);
                                  isolatedShortLever := Some (bitget_short_lever s) |} |};
     set_position_mode := fun _ => Returns tt;
     set_margin_mode := fun _ _ => Returns tt;
     set_leverage := fun _ _ _ => Returns tt |}.

(** The settings the preparation aims at. *)
Definition prepared (s : Settings) : bool :=
  negb (differs_from_1 (paradex_leverage s))
  && negb (differs_from (paradex_margin_type s) "ISOLATED")
  && negb (differs_from (bitget_position_mode s) "one_way_mode")
  && negb (differs_from (bitget_margin_mode s) "isolated")
  && negb (differs_from_1 (bitget_long_lever s))
  && negb (differs_from_1 (bitget_short_lever s)).

End Preparation.

(** ** The Paradex session: requests and the token
    ([src/exchanges/paradex/api.py], lines 34-130, 162-177 and 336-347;
    [is_token_expired] of [src/exchanges/paradex/utils.py]) *)

Module Session.

(** A JSON object whose values are strings, as the list of its items; [[]]
    is the empty object. *)
Definition JsonObject : Type := list (string * string).

(** [d.get(key)]. *)
Fixpoint get (d : JsonObject) (key : string) : option string :=
  match d with
  | [] => None
  | (k, value) :: rest => if String.eqb k key then Some value else get rest key
  end.

(** [d[key]]. *)
Definition item (d : JsonObject) (key : string) : outcome string :=
  match get d key with
  | Some value => Returns value
  | None => Raises (Exn KeyError ("'" ++ key ++ "'"))
  end.

(** [not d]. *)
Definition is_empty (d : JsonObject) : bool :=
  match d with [] => true | _ => false end.

(** The truth value of an [Optional[str]]. *)
Definition truthy (s : option string) : bool :=
  match s with Some s => nonempty s | None => false end.

(** The headers of a request: none, the bearer token, or the ones of
    [get_jwt_token]. *)
Inductive Headers : Type :=
| NoHeaders
| Authorization (value : string)
| StarknetAuthentication (account signature : string) (timestamp expiration : Z).

Record Request : Type := {
  method : string;
  path : string;
  headers : Headers;
  data : option JsonObject
}.

(** A response: its status, and what [response.json()] ends in. *)
Record Response : Type := { status : Z; json : outcome JsonObject }.

(** The attributes of a [ParadexAPI]. *)
Record Client : Type := {
  jwt_token : option string;
  account_address : option string;
  private_key : option string;
  config : JsonObject
}.

(** The world of a session: how a request is answered given the requests
    before it, the clock, and the signature of the authentication message
    ([get_account], [build_auth_message], [sign_message] and
    [flatten_signature]) for a configuration, an account, a key and the two
    timestamps. *)
Record Network : Type := {
  session_request : list Request -> Request -> outcome Response;
  time_time : list Request -> Z;
  sign_auth_message : JsonObject -> string -> string -> Z -> Z -> outcome string
}.

(** A computation on a client: it changes the attributes, sends requests,
    and returns or raises. *)
Definition IO (A : Type) : Type :=
  Client * list Request -> (Client * list Request) * outcome A.

Definition io_ret {A : Type} (a : A) : IO A := fun s => (s, Returns a).

Definition io_raise {A : Type} (e : exn) : IO A := fun s => (s, Raises e).

Definition io_lift {A : Type} (r : outcome A) : IO A := fun s => (s, r).

Definition io_bind {A B : Type} (m : IO A) (k : A -> IO B) : IO B :=
  fun s =>
    match m s with
    | (s', Returns a) => k a s'
    | (s', Raises e) => (s', Raises e)
    | (s', OutOfFuel) => (s', OutOfFuel)
    end.

Definition self : IO Client := fun s => (s, Returns (fst s)).

Definition set_client (c : Client) : IO unit := fun s => ((c, snd s), Returns tt).

(** [session.request(...)]. *)
Definition send (n : Network) (r : Request) : IO Response :=
  fun s => ((fst s, snd s ++ [r]), session_request n (snd s) r).

Definition _create_headers : IO Headers :=
  io_bind self (fun c =>
  match jwt_token c with
  | Some token =>
      if nonempty token then io_ret (Authorization ("Bearer " ++ token))
      else io_ret NoHeaders
  | None => io_ret NoHeaders
  end).

(** [is_token_expired]: [and] reads the message only for a status 401. *)
Definition is_token_expired (status_code : Z) (response : JsonObject) : outcome bool :=
  if (status_code =? 401)%Z
  then let* message := item response "message" in
       Returns (String.prefix "invalid bearer jwt: token is expired by" message)
  else Returns false.

(** [_make_request], with the check of the token as an argument:
    [_check_token_expiry] for [check_jwt=True], nothing for
    [check_jwt=False]. *)
Definition make_request (n : Network) (check : option (Z -> JsonObject -> IO unit))
  (method path : string) (headers : option Headers) (data : option JsonObject)
  : IO (Response * bool) :=
  io_bind (match headers with
           | None => _create_headers
           | Some h => io_ret h
           end) (fun headers =>
  io_bind (send n {| method := method; path := path; headers := headers; data := data |})
          (fun response =>
  let status_code := status response in
  io_bind (match json response with
           | Returns d => io_ret d
           | Raises e =>
               if isinstance e (OtherException "ContentTypeError")
               then io_ret []
               else io_raise e
           | OutOfFuel => io_lift OutOfFuel
           end) (fun response_data =>
  io_bind (match check with
           | Some check_token_expiry => check_token_expiry status_code response_data
           | None => io_ret tt
           end) (fun _ =>
  if negb ((200 <=? status_code)%Z && (status_code <? 300)%Z)
  then io_ret (response, false)
  else io_ret (response, true))))).

Definition get_config (n : Network) : IO JsonObject :=
  io_bind (make_request n None "GET" "/system/config" None None) (fun r =>
  let response := fst r in
  let success := snd r in
  io_bind (io_lift (json response)) (fun response_data =>
  if success
  then
    io_bind (io_lift (json response)) (fun new_config =>
    io_bind self (fun c =>
    io_bind (set_client {| jwt_token := jwt_token c;
                           account_address := account_address c;
                           private_key := private_key c;
                           config := new_config |}) (fun _ =>
    io_ret response_data)))
  else io_raise (Exn ParadexAPIError "Failed to get Paradex API configuration"))).

Definition get_jwt_token (n : Network) (address key : string) : IO string :=
  io_bind self (fun c =>
  io_bind (if is_empty (config c)
           then io_bind (get_config n) (fun _ => io_ret tt)
           else io_ret tt) (fun _ =>
  io_bind self (fun c =>
  io_bind (set_client {| jwt_token := jwt_token c;
                         account_address := Some address;
                         private_key := Some key;
                         config := config c |}) (fun _ =>
  io_bind (io_lift (item (config c) "starknet_chain_id")) (fun _ =>
  fun s =>
    let now := time_time n (snd s) in
    let expiry := (now + 24 * 60 * 60)%Z in
    io_bind (io_lift (sign_auth_message n (config c) address key now expiry)) (fun sig =>
    io_bind (make_request n None "POST" "/auth"
               (Some (StarknetAuthentication address sig now expiry)) None) (fun r =>
    let response := fst r in
    let success := snd r in
    io_bind (io_lift (json response)) (fun response_data =>
    if success
    then
      let token := match get response_data "jwt_token" with
                   | Some t => t
                   | None => ""%string
                   end in
      io_bind self (fun c =>
      io_bind (set_client {| jwt_token := Some token;
                             account_address := account_address c;
                             private_key := private_key c;
                             config := config c |}) (fun _ =>
      io_ret token))
    else io_raise (Exn ParadexAPIError "Failed to get JWT token")))) s))))).

Definition _check_token_expiry (n : Network) (status_code : Z)
  (response_data : JsonObject) : IO unit :=
  io_bind (io_lift (is_token_expired status_code response_data)) (fun expired =>
  if expired
  then
    io_bind self (fun c =>
    match account_address c, private_key c with
    | Some address, Some key =>
        if negb (nonempty address) || negb (nonempty key)
        then io_raise (Exn ParadexAPIError "Token expired and no credentials to refresh")
        else io_bind (get_jwt_token n address key) (fun _ => io_ret tt)
    | _, _ => io_raise (Exn ParadexAPIError "Token expired and no credentials to refresh")
    end)
  else io_ret tt).

Definition _make_request (n : Network) (method path : string)
  (headers : option Headers) (data : option JsonObject) (check_jwt : bool)
  : IO (Response * bool) :=
  make_request n (if check_jwt then Some (_check_token_expiry n) else None)
               method path headers data.

Definition get_account_info (n : Network) : IO JsonObject :=
  io_bind (_make_request n "GET" "/account" None None true) (fun r =>
  let response := fst r in
  let success := snd r in
  io_bind (io_lift (json response)) (fun response_data =>
  if success then io_ret response_data
  else io_raise (Exn ParadexAPIError "Failed to get account info"))).

(** The client after a token was stored. *)
Definition with_token (c : Client) (token : string) : Client :=
  {| jwt_token := Some token;
     account_address := account_address c;
     private_key := private_key c;
     config := config c |}.

(** *** A session for the examples *)

(** A network that answers every request with an expired-token 401, and the
    authentication request with a fresh token. *)
Definition expired_then_fresh : Network :=
  {| session_request := fun _ r =>
       if String.eqb (path r) "/auth"
       then Returns {| status := 200; json := Returns [("jwt_token", "fresh")] |}
       else Returns {| status := 401;
                       json := Returns [("message",
                                         "invalid bearer jwt: token is expired by 5s")] |};
     time_time := fun _ => 1700000000%Z;
     sign_auth_message := fun _ _ _ _ _ => Returns "0xsig" |}%string.

(** A network that answers every request with a 401 that is not JSON. *)
Definition unauthorized_page : Network :=
  {| session_request := fun _ _ =>
       Returns {| status := 401;
                  json := Raises (Exn (OtherException "ContentTypeError")
                                      "Attempt to decode JSON with unexpected mimetype") |};
     time_time := fun _ => 1700000000%Z;
     sign_auth_message := fun _ _ _ _ _ => Returns "0xsig" |}%string.

Definition logged_in : Client :=
  {| jwt_token := Some "stale"; account_address := Some "0xacc";
     private_key := Some "0xkey";
     config := [("starknet_chain_id", "SN_MAIN")] |}%string.

(** A client that was given a token, and no credentials. *)
Definition token_only : Client :=
  {| jwt_token := Some "stale"; account_address := None; private_key := None;
     config := [] |}%string.

End Session.

(** * Proofs *)

Lemma Qlt_bool_iff a b : Qlt_bool a b = true <-> a < b.
Proof.
  unfold Qlt_bool. rewrite negb_true_iff.
  destruct (Qle_bool b a) eqn:E.
  - apply Qle_bool_iff in E. split; [discriminate | intros H; exfalso; lra].
  - split; [intros _ | reflexivity].
    destruct (Qlt_le_dec a b) as [L | L]; [exact L |].
    apply Qle_bool_iff in L. congruence.
Qed.

Lemma Qlt_bool_false_iff a b : Qlt_bool a b = false <-> b <= a.
Proof.
  unfold Qlt_bool. rewrite negb_false_iff. apply Qle_bool_iff.
Qed.

Lemma Qle_bool_false_iff a b : Qle_bool a b = false <-> b < a.
Proof.
  rewrite <- Qlt_bool_iff. unfold Qlt_bool.
  destruct (Qle_bool a b); simpl; split; congruence.
Qed.

Lemma pymin_spec a b : (pymin a b = a /\ a <= b) \/ (pymin a b = b /\ b < a).
Proof.
  unfold pymin. destruct (Qlt_bool b a) eqn:E.
  - right. split; [reflexivity | apply Qlt_bool_iff; exact E].
  - left. split; [reflexivity | apply Qlt_bool_false_iff; exact E].
Qed.

Lemma pymax_spec a b : (pymax a b = a /\ b <= a) \/ (pymax a b = b /\ a < b).
Proof.
  unfold pymax. destruct (Qlt_bool a b) eqn:E.
  - right. split; [reflexivity | apply Qlt_bool_iff; exact E].
  - left. split; [reflexivity | apply Qlt_bool_false_iff; exact E].
Qed.

Lemma pymin_pos a b : 0 < a -> 0 < b -> 0 < pymin a b.
Proof. intros Ha Hb. destruct (pymin_spec a b) as [[-> _] | [-> _]]; assumption. Qed.

#[local] Instance Qtrunc_comp : Proper (Qeq ==> eq) Qtrunc.
Proof.
  intros x y E. unfold Qtrunc. rewrite E.
  destruct (Qle_bool 0 y); rewrite E; reflexivity.
Qed.

Lemma is_zero_iff x : is_zero x = true <-> x == 0.
Proof. apply Qeq_bool_iff. Qed.

Lemma is_zero_pos x : 0 < x -> is_zero x = false.
Proof.
  intros H. destruct (is_zero x) eqn:E; [| reflexivity].
  apply is_zero_iff in E. lra.
Qed.

(** ** The rounding of the context *)

Lemma digits_aux_spec (fuel : nat) : forall n : Z,
  (0 < n < 10 ^ Z.of_nat fuel)%Z ->
  (1 <= digits_aux 10 fuel n)%Z /\
  (10 ^ (digits_aux 10 fuel n - 1) <= n < 10 ^ digits_aux 10 fuel n)%Z.
Proof.
  induction fuel as [| f IH]; intros n Hn.
  - cbn in Hn. lia.
  - cbn [digits_aux]. destruct (Z.ltb_spec n 10) as [L | L].
    + cbn. lia.
    + assert (Hq : (0 < n / 10 < 10 ^ Z.of_nat f)%Z).
      { split.
        - apply Z.div_str_pos. lia.
        - apply Z.div_lt_upper_bound; [lia |].
          rewrite Nat2Z.inj_succ, Z.pow_succ_r in Hn by lia. lia. }
      destruct (IH _ Hq) as (K1 & K2 & K3).
      set (k := digits_aux 10 f (n / 10)) in *.
      split; [lia |].
      replace (1 + k - 1)%Z with (Z.succ (k - 1)) by lia.
      replace (1 + k)%Z with (Z.succ k) by lia.
      rewrite !Z.pow_succ_r by lia.
      pose proof (Z.div_mod n 10 ltac:(lia)) as D.
      pose proof (Z.mod_pos_bound n 10 ltac:(lia)) as M.
      lia.
Qed.

Lemma digits_spec (n : Z) :
  (0 < n)%Z ->
  (1 <= digits 10 n)%Z /\ (10 ^ (digits 10 n - 1) <= n < 10 ^ digits 10 n)%Z.
Proof.
  intros Hn. unfold digits. apply digits_aux_spec. split; [exact Hn |].
  destruct (Z.log2_spec n Hn) as (_ & U).
  rewrite Nat2Z.inj_succ, Z2Nat.id by apply Z.log2_nonneg.
  eapply Z.lt_le_trans; [exact U |].
  apply Z.pow_le_mono_l. lia.
Qed.

Lemma ten_pow (k : Z) : (0 <= k)%Z -> inject_Z (10 ^ k) == 10 ^ k.
Proof. intros H. exact (Zpower_Qpower 10 k H). Qed.

Lemma ten_pow_pos (k : Z) : 0 < 10 ^ k.
Proof. apply Qpower_0_lt. reflexivity. Qed.

Lemma ten_pow_plus (a b : Z) : 10 ^ (a + b) == 10 ^ a * 10 ^ b.
Proof. apply Qpower_plus. intros E. discriminate E. Qed.

Lemma Qabs_frac (q : Q) :
  Qabs q == inject_Z (Z.abs (Qnum q)) / inject_Z (Zpos (Qden q)).
Proof.
  destruct q as [n d]. unfold Qabs. cbn [Qnum Qden]. apply Qmake_Qdiv.
Qed.

(** The magnitude brackets the number between two powers of ten. *)
Lemma magnitude_spec (q : Q) :
  ~ q == 0 ->
  10 ^ magnitude 10 q <= Qabs q /\ Qabs q < 10 ^ (magnitude 10 q + 1).
Proof.
  intros Hq.
  assert (Hn : (0 < Z.abs (Qnum q))%Z).
  { destruct q as [n d]. cbn [Qnum]. unfold Qeq in Hq. cbn in Hq. lia. }
  assert (Hd : (0 < Zpos (Qden q))%Z) by lia.
  destruct (digits_spec _ Hn) as (N1 & N2 & N3).
  destruct (digits_spec _ Hd) as (D1 & D2 & D3).
  set (n := Z.abs (Qnum q)) in *. set (d := Zpos (Qden q)) in *.
  set (dn := digits 10 n) in *. set (dd := digits 10 d) in *.
  assert (A : Qabs q == inject_Z n / inject_Z d) by apply Qabs_frac.
  assert (Pd : 0 < inject_Z d).
  { change 0 with (inject_Z 0). rewrite <- Zlt_Qlt. exact Hd. }
  assert (QN2 : 10 ^ (dn - 1) <= inject_Z n).
  { rewrite <- ten_pow by lia. rewrite <- Zle_Qle. exact N2. }
  assert (QN3 : inject_Z n < 10 ^ dn).
  { rewrite <- ten_pow by lia. rewrite <- Zlt_Qlt. exact N3. }
  assert (QD2 : 10 ^ (dd - 1) <= inject_Z d).
  { rewrite <- ten_pow by lia. rewrite <- Zle_Qle. exact D2. }
  assert (QD3 : inject_Z d < 10 ^ dd).
  { rewrite <- ten_pow by lia. rewrite <- Zlt_Qlt. exact D3. }
  assert (U : Qabs q < 10 ^ (dn - dd + 1)).
  { rewrite A. apply Qlt_shift_div_r; [exact Pd |].
    replace (dn - dd + 1)%Z with (dn + - (dd - 1))%Z by lia.
    rewrite ten_pow_plus, Qpower_opp.
    pose proof (ten_pow_pos (dd - 1)) as P1. pose proof (ten_pow_pos dn) as P2.
    apply Qlt_le_trans with (10 ^ dn); [exact QN3 |].
    setoid_replace (10 ^ dn) with (10 ^ dn * / 10 ^ (dd - 1) * 10 ^ (dd - 1)) at 1
      by (field; lra).
    apply Qmult_le_l; [| exact QD2].
    apply Qmult_lt_0_compat; [exact P2 | apply Qinv_lt_0_compat; exact P1]. }
  assert (L : 10 ^ (dn - dd - 1) < Qabs q).
  { rewrite A. apply Qlt_shift_div_l; [exact Pd |].
    replace (dn - dd - 1)%Z with ((dn - 1) + - dd)%Z by lia.
    rewrite ten_pow_plus, Qpower_opp.
    pose proof (ten_pow_pos dd) as P1. pose proof (ten_pow_pos (dn - 1)) as P2.
    apply Qlt_le_trans with (10 ^ (dn - 1)); [| exact QN2].
    setoid_replace (10 ^ (dn - 1)) with (10 ^ (dn - 1) * / 10 ^ dd * 10 ^ dd) at 2
      by (field; lra).
    apply Qmult_lt_l; [| exact QD3].
    apply Qmult_lt_0_compat; [exact P2 | apply Qinv_lt_0_compat; exact P1]. }
  unfold magnitude. fold n d dn dd.
  destruct (Qle_bool (inject_Z 10 ^ (dn - dd)) (Qabs q)) eqn:E.
  - apply Qle_bool_iff in E. split; [exact E | exact U].
  - split; [apply Qlt_le_weak; exact L |].
    replace (dn - dd - 1 + 1)%Z with (dn - dd)%Z by lia.
    apply Qnot_le_lt. intros C. apply Qle_bool_iff in C.
    change (inject_Z 10) with 10 in E. congruence.
Qed.

Lemma Qround_half_even_Z (x : Q) (N : Z) :
  x == inject_Z N -> Qround_half_even x = N.
Proof.
  intros E. unfold Qround_half_even.
  assert (F : Qfloor x = N) by (rewrite E; apply Qfloor_Z).
  rewrite F.
  assert (L : Qlt_bool (x - inject_Z N) (1 # 2) = true)
    by (apply Qlt_bool_iff; rewrite E; lra).
  rewrite L. reflexivity.
Qed.

(** A number with at most 28 digits is left as it is. *)
Lemma context_round_exact (x : Q) (m e : Z) :
  x == inject_Z m * 10 ^ e -> (Z.abs m < 10 ^ 28)%Z -> context_round x == x.
Proof.
  intros E Hm. unfold context_round, round_to, prec.
  destruct (Qeq_bool x 0) eqn:Z0.
  - apply Qeq_bool_iff in Z0. rewrite Z0. reflexivity.
  - assert (Hx : ~ x == 0).
    { intros C. apply Qeq_bool_iff in C. congruence. }
    destruct (magnitude_spec x Hx) as (G1 & _).
    set (g := magnitude 10 x) in *.
    assert (Ax : Qabs x == inject_Z (Z.abs m) * 10 ^ e).
    { rewrite E, Qabs_Qmult.
      rewrite (Qabs_pos (10 ^ e)) by (apply Qlt_le_weak, ten_pow_pos).
      assert (Hi : Qabs (inject_Z m) == inject_Z (Z.abs m)).
      { unfold inject_Z. symmetry. apply Zabs_Qabs. }
      rewrite Hi. reflexivity. }
    assert (B : Qabs x < 10 ^ (28 + e)).
    { rewrite Ax, ten_pow_plus.
      apply Qmult_lt_r; [apply ten_pow_pos |].
      rewrite <- ten_pow by lia. rewrite <- Zlt_Qlt. exact Hm. }
    assert (Hg : (g < 28 + e)%Z).
    { apply (Qpower_lt_compat_l_inv 10); [| reflexivity].
      eapply Qle_lt_trans; [exact G1 | exact B]. }
    set (k := (e - (g - 28 + 1))%Z).
    assert (Hk : (0 <= k)%Z) by (unfold k; lia).
    assert (K : 10 ^ k == 10 ^ e / 10 ^ (g - 28 + 1)).
    { unfold k. apply Qpower_minus. intros C. discriminate C. }
    pose proof (ten_pow_pos (g - 28 + 1)) as P.
    assert (Q1 : x / inject_Z 10 ^ (g - 28 + 1) == inject_Z (m * 10 ^ k)).
    { change (inject_Z 10) with 10.
      rewrite inject_Z_mult, (ten_pow k Hk), K, E. field. lra. }
    rewrite (Qround_half_even_Z _ _ Q1). rewrite Qred_correct.
    change (inject_Z 10) with 10.
    rewrite inject_Z_mult, (ten_pow k Hk), K, E. field. lra.
Qed.

Lemma magnitude_unique (q : Q) (g : Z) :
  10 ^ g <= Qabs q -> Qabs q < 10 ^ (g + 1) -> magnitude 10 q = g.
Proof.
  intros L U.
  assert (Hq : ~ q == 0).
  { intros E. rewrite E in L. pose proof (ten_pow_pos g) as P.
    change (Qabs 0) with 0 in L. lra. }
  destruct (magnitude_spec q Hq) as (L' & U').
  assert (A : (magnitude 10 q < g + 1)%Z).
  { apply (Qpower_lt_compat_l_inv 10); [| reflexivity]. lra. }
  assert (B : (g < magnitude 10 q + 1)%Z).
  { apply (Qpower_lt_compat_l_inv 10); [| reflexivity]. lra. }
  lia.
Qed.

Lemma magnitude_comp (x y : Q) :
  x == y -> ~ x == 0 -> magnitude 10 x = magnitude 10 y.
Proof.
  intros E Hx.
  assert (Hy : ~ y == 0) by (rewrite <- E; exact Hx).
  destruct (magnitude_spec y Hy) as (L & U).
  apply magnitude_unique; rewrite E; assumption.
Qed.

#[local] Instance Qlt_bool_comp : Proper (Qeq ==> Qeq ==> eq) Qlt_bool.
Proof.
  intros a a' Ea b b' Eb. unfold Qlt_bool. rewrite Ea, Eb. reflexivity.
Qed.

#[local] Instance Qround_half_even_comp : Proper (Qeq ==> eq) Qround_half_even.
Proof.
  intros x y E. unfold Qround_half_even.
  assert (F : Qfloor x = Qfloor y) by (rewrite E; reflexivity).
  rewrite F.
  assert (D : x - inject_Z (Qfloor y) == y - inject_Z (Qfloor y))
    by (rewrite E; reflexivity).
  rewrite (Qlt_bool_comp _ _ D (1 # 2) (1 # 2) (Qeq_refl _)).
  rewrite (Qlt_bool_comp (1 # 2) (1 # 2) (Qeq_refl _) _ _ D).
  reflexivity.
Qed.

(** The rounding depends on the number only, not on the fraction that
    denotes it. *)
#[local] Instance context_round_comp : Proper (Qeq ==> eq) context_round.
Proof.
  intros x y E. unfold context_round, round_to.
  rewrite (Qeqb_comp _ _ E 0 0 (Qeq_refl 0)).
  destruct (Qeq_bool y 0) eqn:Z0; [reflexivity |].
  assert (Hx : ~ x == 0).
  { intros C. rewrite E in C. apply Qeq_bool_iff in C. congruence. }
  rewrite (magnitude_comp x y E Hx).
  apply Qred_complete.
  assert (R : x / inject_Z 10 ^ (magnitude 10 y - prec + 1)
              == y / inject_Z 10 ^ (magnitude 10 y - prec + 1))
    by (rewrite E; reflexivity).
  rewrite (Qround_half_even_comp _ _ R). reflexivity.
Qed.

Lemma inject_Z_abs (m : Z) : Qabs (inject_Z m) == inject_Z (Z.abs m).
Proof. unfold inject_Z. symmetry. apply Zabs_Qabs. Qed.

(** A number with at most [e] decimal places below the bound is not
    rounded. *)
Lemma context_round_short (e : nat) (x : Decimal) :
  decimal_places e x -> Qabs x < digits_bound e -> context_round x == x.
Proof.
  intros [m E] B.
  apply (context_round_exact x m (- Z.of_nat e) E).
  unfold digits_bound, prec in B.
  assert (A : Qabs x == inject_Z (Z.abs m) * 10 ^ (- Z.of_nat e)).
  { rewrite E, Qabs_Qmult, inject_Z_abs.
    rewrite (Qabs_pos (10 ^ (- Z.of_nat e))) by (apply Qlt_le_weak, ten_pow_pos).
    reflexivity. }
  rewrite A in B.
  replace (28 - Z.of_nat e)%Z with (28 + - Z.of_nat e)%Z in B by lia.
  rewrite ten_pow_plus in B.
  apply Qmult_lt_r in B; [| apply ten_pow_pos].
  rewrite <- ten_pow in B by lia.
  rewrite <- Zlt_Qlt in B. exact B.
Qed.

Lemma decimal_places_plus e a b :
  decimal_places e a -> decimal_places e b -> decimal_places e (a + b).
Proof.
  intros [m Ha] [n Hb]. exists (m + n)%Z.
  rewrite Ha, Hb, inject_Z_plus. ring.
Qed.

Lemma decimal_places_minus e a b :
  decimal_places e a -> decimal_places e b -> decimal_places e (a - b).
Proof.
  intros [m Ha] [n Hb]. exists (m - n)%Z.
  rewrite Ha, Hb. unfold Z.sub. rewrite inject_Z_plus, inject_Z_opp. ring.
Qed.

Lemma decimal_places_scale e a (k : Z) :
  decimal_places e a -> decimal_places e (a * inject_Z k).
Proof.
  intros [m Ha]. exists (m * k)%Z. rewrite Ha, inject_Z_mult. ring.
Qed.

Lemma decimal_places_comp e a b : a == b -> decimal_places e a -> decimal_places e b.
Proof. intros E [m Ha]. exists m. rewrite <- E. exact Ha. Qed.

Lemma decimal_places_pymin e a b :
  decimal_places e a -> decimal_places e b -> decimal_places e (pymin a b).
Proof. intros Ha Hb. destruct (pymin_spec a b) as [[-> _] | [-> _]]; assumption. Qed.

Lemma decimal_places_pymax e a b :
  decimal_places e a -> decimal_places e b -> decimal_places e (pymax a b).
Proof. intros Ha Hb. destruct (pymax_spec a b) as [[-> _] | [-> _]]; assumption. Qed.

(** A positive number with at most [e] decimal places is at least one
    unit. *)
Lemma decimal_places_unit e b :
  decimal_places e b -> 0 < b -> 10 ^ (- Z.of_nat e) <= b.
Proof.
  intros [m Hb] P. pose proof (ten_pow_pos (- Z.of_nat e)) as U.
  assert (Hm : (1 <= m)%Z).
  { destruct (Z_lt_le_dec m 1) as [L | L]; [| exact L]. exfalso.
    assert (Q0 : inject_Z m <= 0).
    { change 0 with (inject_Z 0). rewrite <- Zle_Qle. lia. }
    rewrite Hb in P.
    assert (inject_Z m * 10 ^ (- Z.of_nat e) <= 0); [| lra].
    setoid_replace 0 with (0 * 10 ^ (- Z.of_nat e)) by ring.
    apply Qmult_le_compat_r; lra. }
  rewrite Hb.
  setoid_replace (10 ^ (- Z.of_nat e)) with (1 * 10 ^ (- Z.of_nat e)) at 1 by ring.
  apply Qmult_le_compat_r; [| lra].
  change 1 with (inject_Z 1). rewrite <- Zle_Qle. exact Hm.
Qed.

(** The integer part toward zero is between zero and the number. *)
Lemma Qtrunc_between x :
  (0 <= x -> 0 <= inject_Z (Qtrunc x) <= x) /\
  (x <= 0 -> x <= inject_Z (Qtrunc x) <= 0).
Proof.
  unfold Qtrunc. split; intros H.
  - assert (E : Qle_bool 0 x = true) by (apply Qle_bool_iff; exact H).
    rewrite E. split; [| apply Qfloor_le].
    change 0 with (inject_Z 0). rewrite <- Zle_Qle.
    change 0%Z with (Qfloor 0). apply Qfloor_resp_le. exact H.
  - destruct (Qle_bool 0 x) eqn:E.
    + apply Qle_bool_iff in E. assert (Z0 : x == 0) by lra.
      assert (F : Qfloor x = Qfloor 0) by (apply Qfloor_comp; exact Z0).
      rewrite F. change (inject_Z (Qfloor 0)) with 0. split; lra.
    + split; [apply Qle_ceiling |].
      change 0 with (inject_Z 0). rewrite <- Zle_Qle.
      change 0%Z with (Qceiling 0). apply Qceiling_resp_le. exact H.
Qed.

Lemma Qtrunc_abs x : Qabs (inject_Z (Qtrunc x)) <= Qabs x.
Proof.
  destruct (Qtrunc_between x) as [P N].
  destruct (Qlt_le_dec x 0) as [L | L].
  - destruct (N (Qlt_le_weak _ _ L)) as [A B].
    rewrite (Qabs_neg x) by lra. rewrite Qabs_neg by exact B. lra.
  - destruct (P L) as [A B].
    rewrite (Qabs_pos x) by exact L. rewrite Qabs_pos by exact A. exact B.
Qed.

(** The remainder of a division by a positive number is between zero and
    the dividend. *)
Lemma remainder_abs a b :
  0 < b -> Qabs (a - b * inject_Z (Qtrunc (a / b))) <= Qabs a.
Proof.
  intros Hb.
  destruct (Qtrunc_between (a / b)) as [P N].
  assert (E : a == b * (a / b)) by (field; lra).
  destruct (Qlt_le_dec a 0) as [L | L].
  - assert (Hq : a / b <= 0).
    { apply Qle_shift_div_r; [exact Hb | lra]. }
    destruct (N Hq) as [A B].
    assert (M1 : b * (a / b) <= b * inject_Z (Qtrunc (a / b)))
      by (apply Qmult_le_l; assumption).
    assert (M2 : b * inject_Z (Qtrunc (a / b)) <= 0).
    { setoid_replace 0 with (b * 0) by ring. apply Qmult_le_l; assumption. }
    rewrite (Qabs_neg a) by lra. rewrite Qabs_neg by lra. lra.
  - assert (Hq : 0 <= a / b).
    { apply Qle_shift_div_l; [exact Hb | lra]. }
    destruct (P Hq) as [A B].
    assert (M1 : b * inject_Z (Qtrunc (a / b)) <= b * (a / b))
      by (apply Qmult_le_l; assumption).
    assert (M2 : 0 <= b * inject_Z (Qtrunc (a / b))).
    { setoid_replace 0 with (b * 0) by ring. apply Qmult_le_l; assumption. }
    rewrite (Qabs_pos a) by lra. rewrite Qabs_pos by lra. lra.
Qed.

(** In the range where nothing is rounded, [%] is the exact remainder. *)
Lemma dmod_short e a b :
  decimal_places e a -> Qabs a < digits_bound e ->
  decimal_places e b -> 0 < b ->
  exists r, dmod a b = Returns r /\ r == a - b * inject_Z (Qtrunc (a / b)).
Proof.
  intros Pa Ba Pb Hb. unfold dmod.
  rewrite (is_zero_pos b Hb).
  pose proof (decimal_places_unit e b Pb Hb) as Ub.
  pose proof (ten_pow_pos (- Z.of_nat e)) as U.
  assert (Hq : quotient_too_large (Qtrunc (a / b)) = false).
  { unfold quotient_too_large. apply Z.leb_gt.
    rewrite Zlt_Qlt, <- inject_Z_abs.
    eapply Qle_lt_trans; [apply Qtrunc_abs |].
    unfold Qdiv. rewrite Qabs_Qmult, Qabs_Qinv, (Qabs_pos b) by lra.
    apply Qlt_shift_div_r; [exact Hb |].
    unfold digits_bound in Ba.
    eapply Qlt_le_trans; [exact Ba |].
    unfold prec. rewrite ten_pow by lia.
    replace (28 - Z.of_nat e)%Z with (28 + - Z.of_nat e)%Z by lia.
    rewrite ten_pow_plus.
    apply Qmult_le_l; [apply ten_pow_pos | exact Ub]. }
  rewrite Hq. eexists. split; [reflexivity |].
  apply (context_round_short e).
  - apply decimal_places_minus; [exact Pa |].
    apply decimal_places_scale. exact Pb.
  - eapply Qle_lt_trans; [apply remainder_abs; exact Hb | exact Ba].
Qed.

Lemma dmod_comp a a' b : a == a' -> dmod a b = dmod a' b.
Proof.
  intros E. unfold dmod.
  assert (Z : is_zero a = is_zero a').
  { destruct (is_zero a) eqn:Za, (is_zero a') eqn:Za'; try reflexivity.
    - apply is_zero_iff in Za. rewrite E in Za. apply is_zero_iff in Za. congruence.
    - apply is_zero_iff in Za'. rewrite <- E in Za'. apply is_zero_iff in Za'.
      congruence. }
  destruct (is_zero b); [unfold remainder_by_zero; rewrite Z; reflexivity |].
  assert (T : Qtrunc (a / b) = Qtrunc (a' / b)) by (rewrite E; reflexivity).
  rewrite T. destruct (quotient_too_large _); [reflexivity |].
  f_equal. apply context_round_comp. rewrite E. reflexivity.
Qed.

Lemma divisible_by_both_comp a a' ia ib :
  a == a' -> divisible_by_both a ia ib = divisible_by_both a' ia ib.
Proof.
  intros E. unfold divisible_by_both.
  rewrite (dmod_comp a a' ia E), (dmod_comp a a' ib E). reflexivity.
Qed.

Lemma divisible_by_both_true a ia ib :
  divisible_by_both a ia ib = Returns true <-> is_multiple a ia /\ is_multiple a ib.
Proof.
  unfold divisible_by_both, is_multiple, obind.
  destruct (dmod a ia) as [| e | r1] eqn:E1.
  - split; [discriminate | intros [[r [H _]] _]; discriminate].
  - split; [discriminate | intros [[r [H _]] _]; discriminate].
  - destruct (is_zero r1) eqn:Z1.
    + destruct (dmod a ib) as [| e | r2] eqn:E2.
      * split; [discriminate | intros [_ [r [H _]]]; discriminate].
      * split; [discriminate | intros [_ [r [H _]]]; discriminate].
      * split.
        -- intros H. injection H as H. split.
           ++ exists r1. split; [reflexivity | apply is_zero_iff; exact Z1].
           ++ exists r2. split; [reflexivity | apply is_zero_iff; exact H].
        -- intros [_ [r [H Hr]]]. injection H as <-.
           apply is_zero_iff in Hr. rewrite Hr. reflexivity.
    + split; [discriminate |].
      intros [[r [H Hr]] _]. injection H as <-.
      apply is_zero_iff in Hr. congruence.
Qed.

Lemma nat_Q_S k : nat_Q (S k) == nat_Q k + 1.
Proof.
  unfold nat_Q. rewrite Nat2Z.inj_succ. unfold Z.succ.
  rewrite inject_Z_plus. reflexivity.
Qed.

Lemma nat_Q_nonneg k : 0 <= nat_Q k.
Proof.
  unfold nat_Q. change 0 with (inject_Z 0). rewrite <- Zle_Qle. lia.
Qed.

Lemma enough_fuel (d step : Q) : 0 < step -> exists f : nat, d < nat_Q f * step.
Proof.
  intros Hs.
  exists (Z.to_nat (Z.max 0 (Qfloor (d / step) + 1))).
  unfold nat_Q. rewrite Z2Nat.id by lia.
  assert (H1 : d / step < inject_Z (Qfloor (d / step) + 1)) by apply Qlt_floor.
  assert (H2 : inject_Z (Qfloor (d / step) + 1)
               <= inject_Z (Z.max 0 (Qfloor (d / step) + 1))).
  { rewrite <- Zle_Qle. lia. }
  assert (H3 : d == d / step * step) by (field; lra).
  rewrite H3 at 1.
  apply Qmult_lt_compat_r; [exact Hs | lra].
Qed.

Section Scans.

Variables (ia ib upper lo step target : Decimal).

Abbreviation up := (scan_up ia ib upper step target).
Abbreviation down := (scan_down ia ib lo step).

Abbreviation both v := (is_common_multiple v ia ib).

Lemma both_comp v w : v == w -> both v -> both w.
Proof.
  intros E H. apply divisible_by_both_true.
  rewrite <- (divisible_by_both_comp v w ia ib E).
  apply divisible_by_both_true. exact H.
Qed.

(** More fuel does not change how a loop ends. *)
Lemma scan_up_more_fuel f : forall cur,
  up f cur <> LoopFuel -> up (S f) cur = up f cur.
Proof.
  induction f as [| f IH]; intros cur H; [simpl in H; congruence |].
  change (up (S (S f)) cur) with
      (if Qle_bool cur upper then
         match divisible_by_both cur ia ib with
         | OutOfFuel => LoopFuel
         | Raises e => LoopRaise e
         | Returns true =>
             if Qle_bool target cur then LoopReturn cur
             else up (S f) (dadd cur step)
         | Returns false => up (S f) (dadd cur step)
         end
       else LoopExit).
  simpl in H. simpl.
  destruct (Qle_bool cur upper); [| reflexivity].
  destruct (divisible_by_both cur ia ib) as [| e | [|]]; try reflexivity.
  - destruct (Qle_bool target cur); [reflexivity |]. apply IH. exact H.
  - apply IH. exact H.
Qed.

Lemma scan_down_more_fuel f : forall cur,
  down f cur <> LoopFuel -> down (S f) cur = down f cur.
Proof.
  induction f as [| f IH]; intros cur H; [simpl in H; congruence |].
  change (down (S (S f)) cur) with
      (if Qle_bool lo cur then
         match divisible_by_both cur ia ib with
         | OutOfFuel => LoopFuel
         | Raises e => LoopRaise e
         | Returns true => LoopReturn cur
         | Returns false => down (S f) (dsub cur step)
         end
       else LoopExit).
  simpl in H. simpl.
  destruct (Qle_bool lo cur); [| reflexivity].
  destruct (divisible_by_both cur ia ib) as [| e | [|]]; try reflexivity.
  apply IH. exact H.
Qed.

(** *** Where nothing is rounded

    The increments and the candidates have at most [e] decimal places, and
    the range, widened by one step, stays below the bound of 28 digits. *)

Variable e : nat.
Hypothesis ia_pos : 0 < ia.
Hypothesis ib_pos : 0 < ib.
Hypothesis step_pos : 0 < step.
Hypothesis ia_places : decimal_places e ia.
Hypothesis ib_places : decimal_places e ib.
Hypothesis step_places : decimal_places e step.
Hypothesis low : - digits_bound e < lo - step.
Hypothesis high : upper + step < digits_bound e.

Lemma in_range_short c :
  lo - step <= c -> c <= upper + step -> Qabs c < digits_bound e.
Proof. intros L U. apply Qabs_Qlt_condition. split; lra. Qed.

Lemma divisible_by_both_total c :
  decimal_places e c -> lo <= c -> c <= upper ->
  exists b, divisible_by_both c ia ib = Returns b.
Proof.
  intros P L U.
  assert (B : Qabs c < digits_bound e) by (apply in_range_short; lra).
  unfold divisible_by_both.
  destruct (dmod_short e c ia P B ia_places ia_pos) as (r1 & -> & _).
  destruct (dmod_short e c ib P B ib_places ib_pos) as (r2 & -> & _).
  cbn [obind]. destruct (is_zero r1); eexists; reflexivity.
Qed.

Lemma dadd_step c :
  decimal_places e c -> lo <= c -> c <= upper -> dadd c step == c + step.
Proof.
  intros P L U. unfold dadd. apply (context_round_short e).
  - apply decimal_places_plus; assumption.
  - apply in_range_short; lra.
Qed.

Lemma dsub_step c :
  decimal_places e c -> lo <= c -> c <= upper -> dsub c step == c - step.
Proof.
  intros P L U. unfold dsub. apply (context_round_short e).
  - apply decimal_places_minus; assumption.
  - apply in_range_short; lra.
Qed.

Lemma dadd_step_places c :
  decimal_places e c -> lo <= c -> c <= upper -> decimal_places e (dadd c step).
Proof.
  intros P L U. apply (decimal_places_comp e (c + step)).
  - symmetry. apply dadd_step; assumption.
  - apply decimal_places_plus; assumption.
Qed.

Lemma dsub_step_places c :
  decimal_places e c -> lo <= c -> c <= upper -> decimal_places e (dsub c step).
Proof.
  intros P L U. apply (decimal_places_comp e (c - step)).
  - symmetry. apply dsub_step; assumption.
  - apply decimal_places_minus; assumption.
Qed.

Lemma scan_up_return fuel : forall cur v,
  decimal_places e cur -> lo <= cur ->
  up fuel cur = LoopReturn v ->
  cur <= v /\ v <= upper /\ target <= v /\ both v.
Proof.
  induction fuel as [| f IH]; intros cur v P L H; simpl in H; [discriminate |].
  destruct (Qle_bool cur upper) eqn:Hc; [| discriminate].
  apply Qle_bool_iff in Hc.
  pose proof (dadd_step cur P L Hc) as E.
  pose proof (dadd_step_places cur P L Hc) as P'.
  assert (L' : lo <= dadd cur step) by (rewrite E; lra).
  destruct (divisible_by_both cur ia ib) as [| x | [|]] eqn:Hd; try discriminate.
  - destruct (Qle_bool target cur) eqn:Ht.
    + injection H as <-. apply Qle_bool_iff in Ht.
      apply divisible_by_both_true in Hd.
      repeat split; try assumption; try apply Hd. lra.
    + apply (IH _ _ P' L') in H. destruct H as (H1 & H2 & H3 & H4).
      repeat split; try assumption; try apply H4. lra.
  - apply (IH _ _ P' L') in H. destruct H as (H1 & H2 & H3 & H4).
    repeat split; try assumption; try apply H4. lra.
Qed.

Lemma scan_up_exit fuel : forall cur,
  decimal_places e cur -> lo <= cur ->
  up fuel cur = LoopExit ->
  forall k : nat,
    cur + nat_Q k * step <= upper -> target <= cur + nat_Q k * step ->
    ~ both (cur + nat_Q k * step).
Proof.
  induction fuel as [| f IH]; intros cur P L H; simpl in H; [discriminate |].
  destruct (Qle_bool cur upper) eqn:Hc.
  - apply Qle_bool_iff in Hc.
    pose proof (dadd_step cur P L Hc) as E.
    pose proof (dadd_step_places cur P L Hc) as P'.
    assert (L' : lo <= dadd cur step) by (rewrite E; lra).
    assert (Hrec : up f (dadd cur step) = LoopExit ->
                   forall k : nat,
                     cur + nat_Q (S k) * step <= upper ->
                     target <= cur + nat_Q (S k) * step ->
                     ~ both (cur + nat_Q (S k) * step)).
    { intros Hx k Hu Ht Hb.
      assert (E' : cur + nat_Q (S k) * step == dadd cur step + nat_Q k * step).
      { rewrite E, nat_Q_S. ring. }
      apply (IH _ P' L' Hx k).
      - rewrite <- E'. exact Hu.
      - rewrite <- E'. exact Ht.
      - apply (both_comp _ _ E'). exact Hb. }
    destruct (divisible_by_both cur ia ib) as [| x | [|]] eqn:Hd; try discriminate.
    + destruct (Qle_bool target cur) eqn:Ht; [discriminate |].
      apply Qle_bool_false_iff in Ht.
      intros [| k] Hu Hk.
      * change (nat_Q 0) with 0 in Hk. lra.
      * apply Hrec; assumption.
    + intros [| k] Hu Hk.
      * intros Hb.
        assert (E0 : cur + nat_Q 0 * step == cur) by (change (nat_Q 0) with 0; ring).
        apply (both_comp _ _ E0) in Hb.
        apply divisible_by_both_true in Hb. unfold is_common_multiple in Hb. congruence.
      * apply Hrec; assumption.
  - apply Qle_bool_false_iff in Hc.
    intros k Hu. pose proof (nat_Q_nonneg k) as Hk.
    assert (0 <= nat_Q k * step) by (apply Qmult_le_0_compat; lra).
    lra.
Qed.

Lemma scan_up_no_raise fuel : forall cur x,
  decimal_places e cur -> lo <= cur -> up fuel cur <> LoopRaise x.
Proof.
  induction fuel as [| f IH]; intros cur x P L; simpl; [discriminate |].
  destruct (Qle_bool cur upper) eqn:Hc; [| discriminate].
  apply Qle_bool_iff in Hc.
  pose proof (dadd_step cur P L Hc) as E.
  pose proof (dadd_step_places cur P L Hc) as P'.
  assert (L' : lo <= dadd cur step) by (rewrite E; lra).
  destruct (divisible_by_both_total cur P L Hc) as [b ->].
  destruct b; [destruct (Qle_bool target cur); [discriminate |] |];
    apply IH; assumption.
Qed.

Lemma scan_up_fuel f : forall cur,
  decimal_places e cur -> lo <= cur ->
  upper - cur < nat_Q f * step -> up (S f) cur <> LoopFuel.
Proof.
  induction f as [| f IH]; intros cur P L H.
  - simpl. change (nat_Q 0) with 0 in H.
    destruct (Qle_bool cur upper) eqn:Hc; [| discriminate].
    apply Qle_bool_iff in Hc. lra.
  - change (up (S (S f)) cur) with
      (if Qle_bool cur upper then
         match divisible_by_both cur ia ib with
         | OutOfFuel => LoopFuel
         | Raises e => LoopRaise e
         | Returns true =>
             if Qle_bool target cur then LoopReturn cur
             else up (S f) (dadd cur step)
         | Returns false => up (S f) (dadd cur step)
         end
       else LoopExit).
    destruct (Qle_bool cur upper) eqn:Hc; [| discriminate].
    apply Qle_bool_iff in Hc.
    pose proof (dadd_step cur P L Hc) as E.
    pose proof (dadd_step_places cur P L Hc) as P'.
    assert (L' : lo <= dadd cur step) by (rewrite E; lra).
    assert (Hrec : up (S f) (dadd cur step) <> LoopFuel).
    { apply IH; [exact P' | exact L' |]. rewrite E. rewrite nat_Q_S in H. lra. }
    destruct (divisible_by_both_total cur P L Hc) as [b ->].
    destruct b; [destruct (Qle_bool target cur); [discriminate |] |]; exact Hrec.
Qed.

Lemma scan_down_return fuel : forall cur v,
  decimal_places e cur -> cur <= upper ->
  down fuel cur = LoopReturn v ->
  lo <= v /\ v <= cur /\ both v.
Proof.
  induction fuel as [| f IH]; intros cur v P U H; simpl in H; [discriminate |].
  destruct (Qle_bool lo cur) eqn:Hc; [| discriminate].
  apply Qle_bool_iff in Hc.
  pose proof (dsub_step cur P Hc U) as E.
  pose proof (dsub_step_places cur P Hc U) as P'.
  assert (U' : dsub cur step <= upper) by (rewrite E; lra).
  destruct (divisible_by_both cur ia ib) as [| x | [|]] eqn:Hd; try discriminate.
  - injection H as <-. apply divisible_by_both_true in Hd.
    repeat split; try assumption; try apply Hd. lra.
  - apply (IH _ _ P' U') in H. destruct H as (H1 & H2 & H3).
    repeat split; try assumption; try apply H3. lra.
Qed.

Lemma scan_down_exit fuel : forall cur,
  decimal_places e cur -> cur <= upper ->
  down fuel cur = LoopExit ->
  forall k : nat, lo <= cur - nat_Q k * step -> ~ both (cur - nat_Q k * step).
Proof.
  induction fuel as [| f IH]; intros cur P U H; simpl in H; [discriminate |].
  destruct (Qle_bool lo cur) eqn:Hc.
  - apply Qle_bool_iff in Hc.
    pose proof (dsub_step cur P Hc U) as E.
    pose proof (dsub_step_places cur P Hc U) as P'.
    assert (U' : dsub cur step <= upper) by (rewrite E; lra).
    destruct (divisible_by_both cur ia ib) as [| x | [|]] eqn:Hd; try discriminate.
    intros [| k] Hl Hb.
    + assert (E0 : cur - nat_Q 0 * step == cur) by (change (nat_Q 0) with 0; ring).
      apply (both_comp _ _ E0) in Hb.
      apply divisible_by_both_true in Hb. unfold is_common_multiple in Hb. congruence.
    + assert (E' : cur - nat_Q (S k) * step == dsub cur step - nat_Q k * step).
      { rewrite E, nat_Q_S. ring. }
      apply (IH _ P' U' H k).
      * rewrite <- E'. exact Hl.
      * apply (both_comp _ _ E'). exact Hb.
  - apply Qle_bool_false_iff in Hc.
    intros k Hl. pose proof (nat_Q_nonneg k) as Hk.
    assert (0 <= nat_Q k * step) by (apply Qmult_le_0_compat; lra).
    lra.
Qed.

Lemma scan_down_no_raise fuel : forall cur x,
  decimal_places e cur -> cur <= upper -> down fuel cur <> LoopRaise x.
Proof.
  induction fuel as [| f IH]; intros cur x P U; simpl; [discriminate |].
  destruct (Qle_bool lo cur) eqn:Hc; [| discriminate].
  apply Qle_bool_iff in Hc.
  pose proof (dsub_step cur P Hc U) as E.
  pose proof (dsub_step_places cur P Hc U) as P'.
  assert (U' : dsub cur step <= upper) by (rewrite E; lra).
  destruct (divisible_by_both_total cur P Hc U) as [b ->].
  destruct b; [discriminate | apply IH; assumption].
Qed.

Lemma scan_down_fuel f : forall cur,
  decimal_places e cur -> cur <= upper ->
  cur - lo < nat_Q f * step -> down (S f) cur <> LoopFuel.
Proof.
  induction f as [| f IH]; intros cur P U H.
  - simpl. change (nat_Q 0) with 0 in H.
    destruct (Qle_bool lo cur) eqn:Hc; [| discriminate].
    apply Qle_bool_iff in Hc. lra.
  - change (down (S (S f)) cur) with
      (if Qle_bool lo cur then
         match divisible_by_both cur ia ib with
         | OutOfFuel => LoopFuel
         | Raises e => LoopRaise e
         | Returns true => LoopReturn cur
         | Returns false => down (S f) (dsub cur step)
         end
       else LoopExit).
    destruct (Qle_bool lo cur) eqn:Hc; [| discriminate].
    apply Qle_bool_iff in Hc.
    pose proof (dsub_step cur P Hc U) as E.
    pose proof (dsub_step_places cur P Hc U) as P'.
    assert (U' : dsub cur step <= upper) by (rewrite E; lra).
    assert (Hrec : down (S f) (dsub cur step) <> LoopFuel).
    { apply IH; [exact P' | exact U' |]. rewrite E. rewrite nat_Q_S in H. lra. }
    destruct (divisible_by_both_total cur P Hc U) as [b ->].
    destruct b; [discriminate | exact Hrec].
Qed.

End Scans.

Lemma scan_up_fuel_le ia ib upper step target f f' cur :
  scan_up ia ib upper step target f cur <> LoopFuel -> (f <= f')%nat ->
  scan_up ia ib upper step target f' cur = scan_up ia ib upper step target f cur.
Proof.
  intros H L. induction L as [| m L IH]; [reflexivity |].
  rewrite scan_up_more_fuel; [exact IH | rewrite IH; exact H].
Qed.

Lemma scan_down_fuel_le ia ib lo step f f' cur :
  scan_down ia ib lo step f cur <> LoopFuel -> (f <= f')%nat ->
  scan_down ia ib lo step f' cur = scan_down ia ib lo step f cur.
Proof.
  intros H L. induction L as [| m L IH]; [reflexivity |].
  rewrite scan_down_more_fuel; [exact IH | rewrite IH; exact H].
Qed.

(** ** The common-size search *)

(** More fuel does not change what the search returns. *)
Lemma find_common_size_more_fuel fuel fuel' ps bs ia ib minp minb maxp maxb r :
  _find_common_size fuel ps bs ia ib minp minb maxp maxb = Returns r ->
  (fuel <= fuel')%nat ->
  _find_common_size fuel' ps bs ia ib minp minb maxp maxb = Returns r.
Proof.
  unfold _find_common_size. intros H L.
  destruct (scan_up ia ib (pymin maxp maxb) (pymin ia ib) (pymax ps bs) fuel
              (pymax minp minb)) as [| e | v |] eqn:Eu; try discriminate.
  - rewrite (scan_up_fuel_le _ _ _ _ _ fuel fuel' _); [| congruence | exact L].
    rewrite Eu. exact H.
  - rewrite (scan_up_fuel_le _ _ _ _ _ fuel fuel' _); [| congruence | exact L].
    rewrite Eu.
    destruct (scan_down ia ib (pymax minp minb) (pymin ia ib) fuel
                (pymin maxp maxb)) as [| e | v |] eqn:Ed; try discriminate.
    + rewrite (scan_down_fuel_le _ _ _ _ fuel fuel' _); [| congruence | exact L].
      rewrite Ed. exact H.
    + rewrite (scan_down_fuel_le _ _ _ _ fuel fuel' _); [| congruence | exact L].
      rewrite Ed. exact H.
Qed.

Section ExactSearch.

Variables (ps bs ia ib minp minb maxp maxb : Decimal) (e : nat).

Let upper_limit := pymin maxp maxb.
Let min_size := pymax minp minb.
Let step := pymin ia ib.
Let target := pymax ps bs.

Hypothesis ia_pos : 0 < ia.
Hypothesis ib_pos : 0 < ib.
Hypothesis ia_places : decimal_places e ia.
Hypothesis ib_places : decimal_places e ib.
Hypothesis minp_places : decimal_places e minp.
Hypothesis minb_places : decimal_places e minb.
Hypothesis maxp_places : decimal_places e maxp.
Hypothesis maxb_places : decimal_places e maxb.
Hypothesis low : - digits_bound e < min_size - step.
Hypothesis high : upper_limit + step < digits_bound e.

Lemma exact_step_pos : 0 < step.
Proof. apply pymin_pos; assumption. Qed.

Lemma exact_step_places : decimal_places e step.
Proof. apply decimal_places_pymin; assumption. Qed.

Lemma exact_min_places : decimal_places e min_size.
Proof. apply decimal_places_pymax; assumption. Qed.

Lemma exact_upper_places : decimal_places e upper_limit.
Proof. apply decimal_places_pymin; assumption. Qed.

Lemma find_common_size_terminates :
  exists fuel, forall fuel', (fuel <= fuel')%nat ->
    exists r, _find_common_size fuel' ps bs ia ib minp minb maxp maxb = Returns r.
Proof.
  pose proof exact_step_pos as Hs. pose proof exact_step_places as Ps.
  pose proof exact_min_places as Pm. pose proof exact_upper_places as Pu.
  destruct (enough_fuel (upper_limit - min_size) step Hs) as [f Hf].
  exists (S f). intros fuel' L. unfold _find_common_size.
  fold upper_limit min_size step target.
  assert (Hu : scan_up ia ib upper_limit step target (S f) min_size <> LoopFuel).
  { apply (scan_up_fuel ia ib upper_limit min_size step target e);
      try assumption; lra. }
  rewrite (scan_up_fuel_le _ _ _ _ _ _ _ _ Hu L).
  destruct (scan_up ia ib upper_limit step target (S f) min_size)
    as [| x | v |] eqn:Eu.
  - congruence.
  - exfalso. revert Eu.
    apply (scan_up_no_raise ia ib upper_limit min_size step target e);
      try assumption; lra.
  - eexists; reflexivity.
  - assert (Hd : scan_down ia ib min_size step (S f) upper_limit <> LoopFuel).
    { apply (scan_down_fuel ia ib upper_limit min_size step e);
        try assumption; lra. }
    rewrite (scan_down_fuel_le _ _ _ _ _ _ _ Hd L).
    destruct (scan_down ia ib min_size step (S f) upper_limit)
      as [| x | v |] eqn:Ed.
    + congruence.
    + exfalso. revert Ed.
      apply (scan_down_no_raise ia ib upper_limit min_size step e);
        try assumption; lra.
    + eexists; reflexivity.
    + eexists; reflexivity.
Qed.

Lemma find_common_size_result fuel r :
  _find_common_size fuel ps bs ia ib minp minb maxp maxb = Returns r ->
  match r with
  | Some v =>
      is_multiple v ia /\ is_multiple v ib /\ min_size <= v /\ v <= upper_limit
  | None =>
      (forall k : nat,
          let c := min_size + nat_Q k * step in
          c <= upper_limit -> target <= c ->
          ~ (is_multiple c ia /\ is_multiple c ib)) /\
      (forall k : nat,
          let c := upper_limit - nat_Q k * step in
          min_size <= c -> ~ (is_multiple c ia /\ is_multiple c ib))
  end.
Proof.
  intros H. cbv zeta.
  pose proof exact_step_pos as Hs. pose proof exact_step_places as Ps.
  pose proof exact_min_places as Pm. pose proof exact_upper_places as Pu.
  unfold _find_common_size in H. fold upper_limit min_size step target in H.
  destruct (scan_up ia ib upper_limit step target fuel min_size)
    as [| x | v |] eqn:Eu; try discriminate.
  - injection H as <-.
    apply (scan_up_return ia ib upper_limit min_size step target e) in Eu;
      try assumption; try lra.
    destruct Eu as (H1 & H2 & H3 & H4 & H5).
    repeat split; assumption.
  - destruct (scan_down ia ib min_size step fuel upper_limit)
      as [| x | v |] eqn:Ed; try discriminate.
    + injection H as <-.
      apply (scan_down_return ia ib upper_limit min_size step e) in Ed;
        try assumption; try lra.
      destruct Ed as (H1 & H2 & H3 & H4).
      repeat split; assumption.
    + injection H as <-. split.
      * intros k. revert k.
        eapply scan_up_exit with (e := e) (lo := min_size);
          try eassumption; lra.
      * intros k. revert k.
        eapply scan_down_exit with (e := e) (upper := upper_limit);
          try eassumption; lra.
Qed.

End ExactSearch.

(** A scan stays where it is when adding the step changes nothing and the
    candidate does not qualify. *)
Lemma scan_up_stalls ia ib upper step target cur :
  Qle_bool cur upper = true ->
  divisible_by_both cur ia ib = Returns false ->
  dadd cur step = cur ->
  forall fuel, scan_up ia ib upper step target fuel cur = LoopFuel.
Proof.
  intros Hc Hd Hs fuel. induction fuel as [| f IH]; [reflexivity |].
  cbn [scan_up]. rewrite Hc, Hd, Hs. exact IH.
Qed.

Lemma loop_forever fuel : scan_up 2 0 5 0 0 fuel 1 = LoopFuel.
Proof.
  apply scan_up_stalls; vm_compute; reflexivity.
Qed.

(** C10.  Failing input: increments 3 and 1, both minimum sizes 1E+28,
    both affordable sizes 2E+28.  The step is 1; 1E+28 is not a multiple of
    3, and 1E+28 + 1 is rounded back to 1E+28: the first scan never ends,
    whatever the fuel, although both increments are positive.  The same
    with a zero step: for the increments 2 and 0 the first scan never
    ends. *)
Theorem common_size_search_stalls_on_a_rounded_step :
  let huge := inject_Z (10 ^ 28) in
  (0 < 3 /\ 0 < 1 /\ 0 < pymin 3 1 /\
   dadd huge (pymin 3 1) == huge /\
   forall fuel ps bs,
     _find_common_size fuel ps bs 3 1 huge huge (2 * huge) (2 * huge) = OutOfFuel) /\
  (pymin 2 0 == 0 /\
   forall fuel, _find_common_size fuel 0 0 2 0 1 1 5 5 = OutOfFuel).
Proof.
  cbv zeta. split.
  - split; [reflexivity |]. split; [reflexivity |]. split; [reflexivity |].
    split; [vm_compute; reflexivity |].
    intros fuel ps bs. unfold _find_common_size.
    rewrite scan_up_stalls; [reflexivity | | |]; vm_compute; reflexivity.
  - split; [reflexivity |].
    intros fuel. unfold _find_common_size.
    change (pymin 5 5) with 5. change (pymax 1 1) with 1.
    change (pymin 2 0) with 0. change (pymax 0 0) with 0.
    rewrite loop_forever. reflexivity.
Qed.

(** C1 (amended).  Where the decimal arithmetic of the scans is exact (the
    increments and the size limits have at most [e] decimal places, and the
    range, widened by one step, stays below 10^(28-e)), the common-size
    search with positive increments returns (some fuel suffices), and
    whatever it returns is right on the candidates it scans: a returned
    value [v] is an exact multiple of both increments with
    [min_size <= v <= upper_limit]; [None] is returned only when no
    candidate [min_size + k * step] in range that reaches the target, and no
    candidate [upper_limit - k * step] in range, is a multiple of both.
    Values off these two grids are never tried. *)
Theorem common_size_search_result ps bs ia ib minp minb maxp maxb (e : nat) :
  0 < ia -> 0 < ib ->
  decimal_places e ia -> decimal_places e ib ->
  decimal_places e minp -> decimal_places e minb ->
  decimal_places e maxp -> decimal_places e maxb ->
  let upper_limit := pymin maxp maxb in
  let min_size := pymax minp minb in
  let step := pymin ia ib in
  let target := pymax ps bs in
  - digits_bound e < min_size - step ->
  upper_limit + step < digits_bound e ->
  (exists fuel r, _find_common_size fuel ps bs ia ib minp minb maxp maxb = Returns r) /\
  (forall fuel r,
      _find_common_size fuel ps bs ia ib minp minb maxp maxb = Returns r ->
      match r with
      | Some v =>
          is_multiple v ia /\ is_multiple v ib /\ min_size <= v /\ v <= upper_limit
      | None =>
          (forall k : nat,
              let c := min_size + nat_Q k * step in
              c <= upper_limit -> target <= c ->
              ~ (is_multiple c ia /\ is_multiple c ib)) /\
          (forall k : nat,
              let c := upper_limit - nat_Q k * step in
              min_size <= c -> ~ (is_multiple c ia /\ is_multiple c ib))
      end).
Proof.
  intros Ha Hb Pa Pb P1 P2 P3 P4. cbv zeta. intros L U. split.
  - destruct (find_common_size_terminates ps bs ia ib minp minb maxp maxb e
                Ha Hb Pa Pb P1 P2 P3 P4 L U) as [fuel H].
    destruct (H fuel (Nat.le_refl fuel)) as [r Hr]. exists fuel, r. exact Hr.
  - intros fuel r H.
    exact (find_common_size_result ps bs ia ib minp minb maxp maxb e
             Ha Hb Pa Pb P1 P2 P3 P4 L U fuel r H).
Qed.

(** C1, counterexample.  With increments 2 and 3, minimum 3 and upper limit
    9 the search returns [None], although 6 lies in range and is a multiple
    of both: the scans visit 3, 5, 7, 9 and 9, 7, 5, 3. *)
Example common_multiple_missed :
  _find_common_size 8 4 3 2 3 2 3 10 9 = Returns None /\
  pymax 2 3 <= 6 /\ 6 <= pymin 10 9 /\ is_multiple 6 2 /\ is_multiple 6 3.
Proof.
  split; [vm_compute; reflexivity |].
  split; [vm_compute; discriminate |].
  split; [vm_compute; discriminate |].
  split; eexists; (split; [vm_compute; reflexivity | reflexivity]).
Qed.

(** ** The two legs and the compensation *)

Lemma place_paradex_order_run v s sz a k ro tr :
  let o := submitted_order v s sz a k ro tr in
  let r := place_paradex_order v s sz a k ro tr in
  (exists e, r = (tr, Raises e) /\ paradex_config v = false) \/
  (exists e, r = (tr ++ [ParadexPlaceOrder o], Raises e) /\ paradex_config v = true) \/
  (exists i e, r = (tr ++ [ParadexPlaceOrder o; ParadexGetOrder i], Raises e)
               /\ paradex_config v = true) \/
  (exists i, r = (tr ++ [ParadexPlaceOrder o; ParadexGetOrder i], Returns i)
             /\ paradex_config v = true).
Proof.
  cbv zeta.
  unfold place_paradex_order, submitted_order, bind, now, lift, sign_order,
    paradex_api_place_order, paradex_api_get_order, ret, raise.
  destruct (paradex_config v) eqn:Hc.
  2:{ left. eexists. split; reflexivity. }
  right.
  match goal with
  | |- context [paradex_request v tr ?c] =>
      destruct (paradex_request v tr c) as [e | [|] body]
  end.
  - left. eexists. split; reflexivity.
  - destruct (body_id body) as [i |].
    + right.
      match goal with
      | |- context [paradex_request v ?t ?c] =>
          destruct (paradex_request v t c) as [e | [|] body']
      end.
      * left. rewrite <- app_assoc. do 2 eexists. split; reflexivity.
      * destruct (body_cancel_reason body') as [reason |].
        -- destruct (nonempty reason).
           ++ left. rewrite <- app_assoc. do 2 eexists. split; reflexivity.
           ++ right. rewrite <- app_assoc. eexists. split; reflexivity.
        -- right. rewrite <- app_assoc. eexists. split; reflexivity.
      * left. rewrite <- app_assoc. do 2 eexists. split; reflexivity.
    + left. eexists. split; reflexivity.
  - left. eexists. split; reflexivity.
Qed.

Lemma place_bitget_order_run v s sz tr :
  exists r, place_bitget_order v s sz tr = (tr ++ [BitgetPlaceOrder s sz], r)
            /\ r <> OutOfFuel.
Proof.
  unfold place_bitget_order, bind, bitget_api_place_order, ret, raise.
  destruct (bitget_request v tr (BitgetPlaceOrder s sz)) as [e | [|] body].
  - eexists. split; [reflexivity | discriminate].
  - destruct (body_msg body) as [m |].
    + destruct (negb (m =? "success")%string).
      * eexists. split; [reflexivity | discriminate].
      * destruct (body_data_orderId body);
          (eexists; split; [reflexivity | discriminate]).
    + eexists. split; [reflexivity | discriminate].
  - eexists. split; [reflexivity | discriminate].
Qed.

Lemma paradex_api_cancel_order_run v i tr :
  exists r, paradex_api_cancel_order v i tr = (tr ++ [ParadexCancelOrder i], r)
            /\ r <> OutOfFuel.
Proof.
  unfold paradex_api_cancel_order.
  destruct (paradex_request v tr (ParadexCancelOrder i)) as [e | [|] body].
  - eexists. split; [reflexivity | discriminate].
  - eexists. split; [reflexivity | discriminate].
  - destruct (error_is_closed body);
      (eexists; split; [reflexivity | discriminate]).
Qed.

(** [unwind_paradex_leg] by the outcome of the cancel request. *)
Lemma unwind_paradex_leg_eq v s sz a k i tr :
  unwind_paradex_leg v s sz a k i tr =
  match paradex_api_cancel_order v i tr with
  | (tr', Returns response) =>
      if error_is_closed response then
        match place_paradex_order v (opposite s) sz a k true tr' with
        | (tr'', Returns _) => (tr'', Returns tt)
        | (tr'', Raises e) => (tr'', Raises e)
        | (tr'', OutOfFuel) => (tr'', OutOfFuel)
        end
      else (tr', Returns tt)
  | (tr', Raises e) => (tr', Raises e)
  | (tr', OutOfFuel) => (tr', OutOfFuel)
  end.
Proof.
  unfold unwind_paradex_leg, bind.
  destruct (paradex_api_cancel_order v i tr) as [tr' [| e | response]];
    try reflexivity.
  destruct (error_is_closed response); reflexivity.
Qed.

Section AttemptFacts.

Variables (v : Venues) (paradex_side : OrderSide) (paradex_direction : string)
          (paradex_size : Decimal) (address key : string)
          (bitget_side position_direction : string) (bitget_size : Decimal).

Abbreviation leg_a := (leg_a_attempt v paradex_side paradex_size address key).
Abbreviation leg_b :=
  (leg_b_attempt v paradex_side paradex_size address key bitget_side bitget_size).
Abbreviation compensation :=
  (compensation_attempt v paradex_side paradex_size address key
                        bitget_side bitget_size).
Abbreviation the_attempt :=
  (attempt v paradex_side paradex_direction paradex_size address key
           bitget_side position_direction bitget_size).

(** [place_orders] as the composition of its three stages. *)
Lemma place_orders_stages :
  the_attempt =
  match leg_a with
  | (t1, Returns paradex_order_id) =>
      match leg_b with
      | (t2, Returns bitget_order_id) =>
          (t2, Returns (paradex_order_id, bitget_order_id))
      | (t2, Raises error) =>
          match compensation paradex_order_id with
          | (t3, Returns _) => (t3, Raises (outer_handler (inner_handler error)))
          | (t3, Raises failure) => (t3, Raises (outer_handler failure))
          | (t3, OutOfFuel) => (t3, OutOfFuel)
          end
      | (t2, OutOfFuel) => (t2, OutOfFuel)
      end
  | (t1, Raises error) => (t1, Raises (outer_handler error))
  | (t1, OutOfFuel) => (t1, OutOfFuel)
  end.
Proof.
  unfold attempt, compensation_attempt, leg_b_attempt, leg_a_attempt, run.
  unfold place_orders, try_except, bind, raise, ret, inner_handler, outer_handler.
  destruct (place_paradex_order v paradex_side paradex_size address key false [])
    as [t1 [| e0 | i]]; cbn [fst snd].
  - reflexivity.
  - destruct (isinstance e0 OrderCancelledError); reflexivity.
  - destruct (place_bitget_order v bitget_side bitget_size t1) as [t2 [| e | j]];
      cbn [fst snd]; [reflexivity | | reflexivity].
    destruct (isinstance e OrderCancelledError) eqn:He;
      destruct (unwind_paradex_leg v paradex_side paradex_size address key i t2)
        as [t3 [| e' | u]]; try reflexivity;
      try (destruct (isinstance e' OrderCancelledError); reflexivity).
    rewrite He. reflexivity.
Qed.

End AttemptFacts.

Lemma unwind_paradex_leg_run v s sz a k i tr :
  let flatten :=
    ParadexPlaceOrder
      (submitted_order v (opposite s) sz a k true (tr ++ [ParadexCancelOrder i])) in
  let r := unwind_paradex_leg v s sz a k i tr in
  match snd (paradex_api_cancel_order v i tr) with
  | Returns response =>
      if error_is_closed response then
        if paradex_config v then
          (exists e, r = (tr ++ [ParadexCancelOrder i; flatten], Raises e)) \/
          (exists j e,
              r = (tr ++ [ParadexCancelOrder i; flatten; ParadexGetOrder j], Raises e)) \/
          (exists j,
              r = (tr ++ [ParadexCancelOrder i; flatten; ParadexGetOrder j], Returns tt))
        else exists e, r = (tr ++ [ParadexCancelOrder i], Raises e)
      else r = (tr ++ [ParadexCancelOrder i], Returns tt)
  | Raises e => r = (tr ++ [ParadexCancelOrder i], Raises e)
  | OutOfFuel => False
  end.
Proof.
  cbv zeta. rewrite unwind_paradex_leg_eq.
  destruct (paradex_api_cancel_order_run v i tr) as (r & -> & Hr).
  cbn [snd]. destruct r as [| e | response]; [congruence | reflexivity |].
  destruct (error_is_closed response); [| reflexivity].
  pose proof (place_paradex_order_run v (opposite s) sz a k true
                (tr ++ [ParadexCancelOrder i])) as H.
  cbv zeta in H.
  destruct H as [(e & -> & ->) | [(e & -> & ->) | [(j & e & -> & ->) | (j & -> & ->)]]].
  - eexists. reflexivity.
  - left. rewrite <- app_assoc. eexists. reflexivity.
  - right. left. rewrite <- app_assoc. do 2 eexists. reflexivity.
  - right. right. rewrite <- app_assoc. eexists. reflexivity.
Qed.

Section LegRuns.

Variables (v : Venues) (paradex_side : OrderSide) (paradex_direction : string)
          (paradex_size : Decimal) (address key : string)
          (bitget_side position_direction : string) (bitget_size : Decimal).

Abbreviation leg_a := (leg_a_attempt v paradex_side paradex_size address key).
Abbreviation leg_b :=
  (leg_b_attempt v paradex_side paradex_size address key bitget_side bitget_size).
Abbreviation compensation :=
  (compensation_attempt v paradex_side paradex_size address key
                        bitget_side bitget_size).
Abbreviation the_attempt :=
  (attempt v paradex_side paradex_direction paradex_size address key
           bitget_side position_direction bitget_size).
(** The ways leg A can end. *)
Lemma leg_a_run :
  (exists e, leg_a = ([], Raises e)) \/
  (exists e, leg_a = ([order_a v paradex_side paradex_size address key], Raises e)) \/
  (exists i e, leg_a = ([order_a v paradex_side paradex_size address key;
                         ParadexGetOrder i], Raises e)) \/
  (exists i, leg_a = ([order_a v paradex_side paradex_size address key;
                       ParadexGetOrder i], Returns i)
             /\ paradex_config v = true).
Proof.
  pose proof (place_paradex_order_run v paradex_side paradex_size address key
                false []) as H.
  cbv zeta in H. unfold leg_a_attempt, run. cbn [app] in H.
  destruct H as [(e & H & _) | [(e & H & _) | [(j & e & H & _) | (j & H & Hc)]]];
    rewrite H; eauto 6.
Qed.

Lemma leg_b_run :
  exists r, leg_b = (fst leg_a ++ [order_b bitget_side bitget_size], r) /\ r <> OutOfFuel.
Proof. apply place_bitget_order_run. Qed.

End LegRuns.

Lemma attempt_view_holds
  (v : Venues) (paradex_side : OrderSide) (paradex_direction : string)
  (paradex_size : Decimal) (address key : string)
  (bitget_side position_direction : string) (bitget_size : Decimal) :
  attempt_view v paradex_side paradex_direction paradex_size address key
               bitget_side position_direction bitget_size.
Proof.
  pose proof (place_orders_stages v paradex_side paradex_direction paradex_size
                address key bitget_side position_direction bitget_size) as Hst.
  destruct (leg_a_run v paradex_side paradex_size address key)
    as [(e & HA) | [(e & HA) | [(i & e & HA) | (i & HA & Hcfg)]]].
  - rewrite HA in Hst. eapply view_leg_a_failed; eauto.
  - rewrite HA in Hst. eapply view_leg_a_failed; eauto.
  - rewrite HA in Hst. eapply view_leg_a_failed; eauto.
  - destruct (leg_b_run v paradex_side paradex_size address key
                bitget_side bitget_size) as (r & HB & Hr).
    rewrite HA in HB. cbn [fst app] in HB.
    fold (both_tried v paradex_side paradex_size address key
                     bitget_side bitget_size i) in HB.
    rewrite HA, HB in Hst.
    destruct r as [| e | j]; [congruence | |].
    2:{ eapply view_both_placed; eauto. }
    pose proof (unwind_paradex_leg_run v paradex_side paradex_size address key i
                  (both_tried v paradex_side paradex_size address key
                              bitget_side bitget_size i)) as Hun.
    cbv zeta in Hun.
    assert (Hcr : cancel_response v paradex_side paradex_size address key
                                  bitget_side bitget_size i =
                  snd (paradex_api_cancel_order v i
                         (both_tried v paradex_side paradex_size address key
                                     bitget_side bitget_size i))).
    { unfold cancel_response. rewrite HB. reflexivity. }
    assert (Hcomp : compensation_attempt v paradex_side paradex_size address key
                                         bitget_side bitget_size i =
                    unwind_paradex_leg v paradex_side paradex_size address key i
                      (both_tried v paradex_side paradex_size address key
                                  bitget_side bitget_size i)).
    { unfold compensation_attempt. rewrite HB. reflexivity. }
    rewrite <- Hcr, <- Hcomp in Hun.
    destruct (cancel_response v paradex_side paradex_size address key
                              bitget_side bitget_size i)
      as [| failure | response] eqn:HC; [contradiction | |].
    + rewrite Hun in Hst. eapply view_cancel_failed; eauto.
    + destruct (error_is_closed response) eqn:Hclosed.
      * rewrite Hcfg in Hun.
        destruct Hun as [(f & Hun) | [(j & f & Hun) | (j & Hun)]];
          rewrite Hun in Hst.
        -- eapply view_flatten_failed with (tF := []); eauto.
        -- eapply view_flatten_failed with (tF := [ParadexGetOrder j]); eauto.
        -- eapply view_flattened; eauto.
      * rewrite Hun in Hst. eapply view_cancelled; eauto.
Qed.

Ltac settle :=
  repeat split; intros;
  repeat match goal with
         | H : exists _, _ |- _ => destruct H
         | H : _ /\ _ |- _ => destruct H
         end;
  try discriminate; try reflexivity; eauto.

(** C2.  In every run of [place_orders] a cancel request is issued if and
    only if placing leg A returned an order id and placing leg B raised; a
    reduce-only order is only ever issued after a cancel request; and when
    placing leg A raises, neither a cancel request nor a reduce-only order
    is issued. *)
Theorem compensation_iff_leg_b_failed
  (v : Venues) (paradex_side : OrderSide) (paradex_direction : string)
  (paradex_size : Decimal) (address key : string)
  (bitget_side position_direction : string) (bitget_size : Decimal) :
  let leg_a := leg_a_attempt v paradex_side paradex_size address key in
  let leg_b :=
    leg_b_attempt v paradex_side paradex_size address key bitget_side bitget_size in
  let trace :=
    fst (attempt v paradex_side paradex_direction paradex_size address key
                 bitget_side position_direction bitget_size) in
  (existsb is_cancel trace = true <->
   (exists i, snd leg_a = Returns i) /\ (exists e, snd leg_b = Raises e)) /\
  (existsb is_flatten trace = true -> existsb is_cancel trace = true) /\
  ((exists e, snd leg_a = Raises e) ->
   existsb is_cancel trace = false /\ existsb is_flatten trace = false).
Proof.
  cbv zeta.
  destruct (attempt_view_holds v paradex_side paradex_direction paradex_size
              address key bitget_side position_direction bitget_size)
    as [tA e HA Hshape Hres | i j HA HB Hres | i e failure HA HB HC Hcomp Hres
        | i e response HA HB HC Hclosed Hcomp Hres
        | i e failure response tF HA HB HC Hclosed HF Hcomp Hres
        | i j e response HA HB HC Hclosed Hcomp Hres];
    rewrite Hres, HA; try rewrite HB; cbn [fst snd].
  - assert (Hc : existsb is_cancel tA = false /\ existsb is_flatten tA = false).
    { destruct Hshape as [-> | [-> | (i & ->)]]; split; reflexivity. }
    destruct Hc as [Hc Hf]. rewrite Hc, Hf. settle.
  - settle.
  - settle.
  - settle.
  - assert (Hc : existsb is_cancel
                   (both_tried v paradex_side paradex_size address key
                               bitget_side bitget_size i ++
                    ParadexCancelOrder i
                    :: ParadexPlaceOrder
                         (flatten_order v paradex_side paradex_size address key
                                        bitget_side bitget_size i) :: tF) = true).
    { rewrite existsb_app. cbn. reflexivity. }
    rewrite Hc. settle.
  - settle.
Qed.

Ltac view_of v paradex_side paradex_direction paradex_size address key
             bitget_side position_direction bitget_size :=
  destruct (attempt_view_holds v paradex_side paradex_direction paradex_size
              address key bitget_side position_direction bitget_size)
    as [tA e' HA Hshape Hres | i' j' HA HB Hres | i' e' failure' HA HB HC Hcomp Hres
        | i' e' response' HA HB HC Hclosed Hcomp Hres
        | i' e' failure' response' tF HA HB HC Hclosed HF Hcomp Hres
        | i' j' e' response' HA HB HC Hclosed Hcomp Hres].

Ltac same_run :=
  repeat match goal with
         | H1 : ?x = (_, _), H2 : snd ?x = _ |- _ =>
             rewrite H1 in H2; cbn [snd] in H2
         | H : Returns _ = Returns _ |- _ => injection H as H; subst
         | H : Raises _ = Raises _ |- _ => injection H as H; subst
         | H : Returns _ = Raises _ |- _ => discriminate H
         | H : Raises _ = Returns _ |- _ => discriminate H
         end.

(** C3 (amended).  When leg A was placed, leg B failed and the compensation
    itself raises [failure], [place_orders] raises too, so the failure is
    never swallowed; what it raises is [failure] unchanged when that is an
    [OrderCancelledError], and otherwise a [ParadexError] whose message
    embeds it.  It is never a [HedgePositionMismatchError]. *)
Theorem compensation_failure_surfaces
  (v : Venues) (paradex_side : OrderSide) (paradex_direction : string)
  (paradex_size : Decimal) (address key : string)
  (bitget_side position_direction : string) (bitget_size : Decimal)
  (i : string) (e failure : exn) :
  snd (leg_a_attempt v paradex_side paradex_size address key) = Returns i ->
  snd (leg_b_attempt v paradex_side paradex_size address key
                     bitget_side bitget_size) = Raises e ->
  snd (compensation_attempt v paradex_side paradex_size address key
                            bitget_side bitget_size i) = Raises failure ->
  snd (attempt v paradex_side paradex_direction paradex_size address key
               bitget_side position_direction bitget_size)
  = Raises (outer_handler failure) /\
  (isinstance failure OrderCancelledError = true -> outer_handler failure = failure) /\
  (isinstance failure OrderCancelledError = false ->
   outer_handler failure =
   Exn ParadexError ("Paradex order failed: " ++ str_exn failure)) /\
  isinstance (outer_handler failure) HedgePositionMismatchError = false.
Proof.
  intros HlegA HlegB Hfail.
  assert (Hsurf : snd (attempt v paradex_side paradex_direction paradex_size
                         address key bitget_side position_direction bitget_size)
                  = Raises (outer_handler failure)).
  { view_of v paradex_side paradex_direction paradex_size address key
            bitget_side position_direction bitget_size; same_run;
      rewrite Hres; reflexivity. }
  split; [exact Hsurf |].
  unfold outer_handler.
  destruct (isinstance failure OrderCancelledError) eqn:Hk.
  - repeat split; try discriminate.
    unfold isinstance in *. destruct (exn_kind failure); try discriminate Hk; reflexivity.
  - repeat split; try discriminate.
Qed.

(** C4 (amended).  When leg A was placed, leg B failed with an
    [OrderCancelledError] and the compensation succeeded, [place_orders]
    raises that same [OrderCancelledError], unchanged and unwrapped. *)
Theorem cancelled_leg_b_is_reraised
  (v : Venues) (paradex_side : OrderSide) (paradex_direction : string)
  (paradex_size : Decimal) (address key : string)
  (bitget_side position_direction : string) (bitget_size : Decimal)
  (i : string) (e : exn) :
  snd (leg_a_attempt v paradex_side paradex_size address key) = Returns i ->
  snd (leg_b_attempt v paradex_side paradex_size address key
                     bitget_side bitget_size) = Raises e ->
  isinstance e OrderCancelledError = true ->
  snd (compensation_attempt v paradex_side paradex_size address key
                            bitget_side bitget_size i) = Returns tt ->
  snd (attempt v paradex_side paradex_direction paradex_size address key
               bitget_side position_direction bitget_size) = Raises e.
Proof.
  intros HlegA HlegB Hk Hcomp'.
  assert (Hh : outer_handler (inner_handler e) = e).
  { unfold outer_handler, inner_handler. rewrite Hk, Hk. reflexivity. }
  view_of v paradex_side paradex_direction paradex_size address key
          bitget_side position_direction bitget_size; same_run;
    rewrite Hres; cbn [snd]; rewrite Hh; reflexivity.
Qed.

(** The other leg-B failures: the [BitgetError] raised by the inner handler
    is raised inside the outer [try], whose [except Exception] handler
    catches it and raises a [ParadexError] around it. *)
Lemma other_leg_b_failure_is_wrapped_twice
  (v : Venues) (paradex_side : OrderSide) (paradex_direction : string)
  (paradex_size : Decimal) (address key : string)
  (bitget_side position_direction : string) (bitget_size : Decimal)
  (i : string) (e : exn) :
  snd (leg_a_attempt v paradex_side paradex_size address key) = Returns i ->
  snd (leg_b_attempt v paradex_side paradex_size address key
                     bitget_side bitget_size) = Raises e ->
  isinstance e OrderCancelledError = false ->
  snd (compensation_attempt v paradex_side paradex_size address key
                            bitget_side bitget_size i) = Returns tt ->
  snd (attempt v paradex_side paradex_direction paradex_size address key
               bitget_side position_direction bitget_size)
  = Raises (Exn ParadexError
              ("Paradex order failed: " ++ "Bitget order failed: " ++ str_exn e)).
Proof.
  intros HlegA HlegB Hk Hcomp'.
  assert (Hh : outer_handler (inner_handler e) =
               Exn ParadexError
                   ("Paradex order failed: " ++ "Bitget order failed: " ++ str_exn e)).
  { unfold outer_handler, inner_handler. rewrite Hk. reflexivity. }
  view_of v paradex_side paradex_direction paradex_size address key
          bitget_side position_direction bitget_size; same_run;
    rewrite Hres; cbn [snd]; rewrite Hh; reflexivity.
Qed.


Lemma pymax_Qmax a b : pymax a b == Qmax a b.
Proof.
  destruct (pymax_spec a b) as [[-> H] | [-> H]].
  - symmetry. apply Q.max_l. exact H.
  - symmetry. apply Q.max_r. lra.
Qed.

Lemma pymin_Qmin a b : pymin a b == Qmin a b.
Proof.
  destruct (pymin_spec a b) as [[-> H] | [-> H]].
  - symmetry. apply Q.min_l. exact H.
  - symmetry. apply Q.min_r. lra.
Qed.

Lemma pymin_le_l a b : pymin a b <= a.
Proof. destruct (pymin_spec a b) as [[-> H] | [-> H]]; lra. Qed.

Lemma pymin_le_r a b : pymin a b <= b.
Proof. destruct (pymin_spec a b) as [[-> H] | [-> H]]; lra. Qed.

Lemma pymin3_le a b c : pymin3 a b c <= a /\ pymin3 a b c <= b /\ pymin3 a b c <= c.
Proof.
  unfold pymin3.
  pose proof (pymin_le_l (pymin a b) c). pose proof (pymin_le_r (pymin a b) c).
  pose proof (pymin_le_l a b). pose proof (pymin_le_r a b).
  repeat split; lra.
Qed.

(** ** The position value *)

Lemma choose_position_value_spec r mnA mnB cmin cmax balA balB :
  let minP := Qmax (Qmax mnA mnB) cmin in
  let maxP := Qmin cmax (Qmin balA balB) in
  (maxP < minP ->
   choose_position_value r mnA mnB (cmin, cmax) balA balB = Raises InsufficientFunds) /\
  (minP <= maxP ->
   choose_position_value r mnA mnB (cmin, cmax) balA balB
   = Returns (Decimal_str_float
                (uniform r (float_round (pymax (pymax mnA mnB) cmin))
                           (float_round (pymin cmax (pymin balA balB)))))).
Proof.
  cbv zeta. unfold choose_position_value, calculate_position_value. cbn [fst snd].
  assert (E1 : pymax (pymax mnA mnB) cmin == Qmax (Qmax mnA mnB) cmin).
  { rewrite pymax_Qmax. rewrite (pymax_Qmax mnA mnB). reflexivity. }
  assert (E2 : pymin cmax (pymin balA balB) == Qmin cmax (Qmin balA balB)).
  { rewrite pymin_Qmin. rewrite (pymin_Qmin balA balB). reflexivity. }
  split; intros H.
  - assert (L : Qlt_bool (pymin cmax (pymin balA balB)) (pymax (pymax mnA mnB) cmin)
                = true).
    { apply Qlt_bool_iff. rewrite E1, E2. exact H. }
    rewrite L. reflexivity.
  - assert (L : Qlt_bool (pymin cmax (pymin balA balB)) (pymax (pymax mnA mnB) cmin)
                = false).
    { apply Qlt_bool_false_iff. rewrite E1, E2. exact H. }
    rewrite L. reflexivity.
Qed.

(** C8.  With [minPosition = max(minNotional_A, minNotional_B,
    configuredMinUSD)] and [maxPosition = min(configuredMaxUSD,
    min(balanceA, balanceB))], the selection raises [InsufficientFundsError]
    exactly when [maxPosition < minPosition], and otherwise returns the draw
    between the two bounds converted to floats, read back from its [str].
    With the limits 50 and 1000 and the balances 40 and 500, [maxPosition]
    is 40 and the selection always raises.  The value drawn can leave the
    band: for the balances 60 * Decimal(0.95) =
    56.99999999999999733546474090 on both venues and the draw 1 - 2^-53 of
    [random()], [float(maxPosition)] is 57.0 and the selection returns 57.0,
    above [maxPosition]. *)
Theorem position_value_can_exceed_max_position :
  (forall r mnA mnB cmin cmax balA balB,
      let minPosition := Qmax (Qmax mnA mnB) cmin in
      let maxPosition := Qmin cmax (Qmin balA balB) in
      let chosen := choose_position_value r mnA mnB (cmin, cmax) balA balB in
      ((exists e, chosen = Raises e /\ isinstance e InsufficientFundsError = true)
       <-> maxPosition < minPosition) /\
      (minPosition <= maxPosition ->
       chosen = Returns (Decimal_str_float
                           (uniform r (float_round (pymax (pymax mnA mnB) cmin))
                                    (float_round (pymin cmax (pymin balA balB))))))) /\
  (Qmin 1000 (Qmin 40 500) == 40 /\
   forall r mnA mnB,
     choose_position_value r mnA mnB POSITION_USD_LIMITS 40 500
     = Raises InsufficientFunds) /\
  (let balance := dmul 60 Decimal_float_0_95 in
   let r := 1 - (1 # 2 ^ 53) in
   let minPosition := Qmax (Qmax 5 5) 50 in
   let maxPosition := Qmin 1000 (Qmin balance balance) in
   0 <= r /\ r < 1 /\
   balance == 5699999999999999733546474090 # 10 ^ 26 /\
   minPosition <= maxPosition /\
   float_round maxPosition == 57 /\
   choose_position_value r 5 5 POSITION_USD_LIMITS balance balance = Returns 57 /\
   maxPosition < 57).
Proof.
  split; [| split].
  - intros r mnA mnB cmin cmax balA balB. cbv zeta.
    destruct (choose_position_value_spec r mnA mnB cmin cmax balA balB) as [Hlt Hle].
    cbv zeta in Hlt, Hle.
    split; [| exact Hle].
    split.
    + intros (e & He & _).
      destruct (Qlt_le_dec (Qmin cmax (Qmin balA balB)) (Qmax (Qmax mnA mnB) cmin))
        as [L | L]; [exact L |].
      rewrite (Hle L) in He. discriminate.
    + intros L. exists InsufficientFunds. split; [apply Hlt; exact L | reflexivity].
  - split; [reflexivity |].
    intros r mnA' mnB'.
    destruct (choose_position_value_spec r mnA' mnB' 50 1000 40 500) as [Hlt' _].
    apply Hlt'.
    assert (M : Qmin 1000 (Qmin 40 500) == 40) by reflexivity.
    rewrite M.
    pose proof (Q.le_max_r (Qmax mnA' mnB') 50) as P.
    lra.
  - cbv zeta.
    split; [vm_compute; discriminate |].
    split; [vm_compute; reflexivity |].
    split; [vm_compute; reflexivity |].
    split; [vm_compute; discriminate |].
    split; [vm_compute; reflexivity |].
    split; vm_compute; reflexivity.
Qed.

(** ** Validation of the size constraints *)

(** C7 (amended).  If the maximum size of either venue is strictly below its
    minimum size, [_validate_size_constraints] raises a [ValueError], which
    is not an [OrderSizeError], and [execute_hedge_strategy] ends with that
    error before any request that places or unwinds an order. *)
Theorem size_constraints_fail_fast :
  (forall minp maxp minb maxb,
      maxp < minp \/ maxb < minb ->
      exists e, _validate_size_constraints minp maxp minb maxb = Raises e /\
                exn_kind e = ValueError /\
                isinstance e OrderSizeError = false) /\
  (forall v rng fuel address key c,
      read_constraints v rng = Returns c ->
      max_paradex_size c < min_paradex_size c \/
      max_bitget_size c < min_bitget_size c ->
      exists e, run (execute_hedge_strategy v rng fuel address key) = ([], Raises e) /\
                exn_kind e = ValueError).
Proof.
  assert (V : forall minp maxp minb maxb,
             maxp < minp \/ maxb < minb ->
             exists e, _validate_size_constraints minp maxp minb maxb = Raises e /\
                       exn_kind e = ValueError /\
                       isinstance e OrderSizeError = false).
  { intros minp maxp minb maxb H. unfold _validate_size_constraints.
    destruct (Qlt_bool maxp minp) eqn:E1.
    - eexists. repeat split.
    - destruct (Qlt_bool maxb minb) eqn:E2.
      + eexists. repeat split.
      + apply Qlt_bool_false_iff in E1. apply Qlt_bool_false_iff in E2.
        destruct H; lra. }
  split; [exact V |].
  intros v rng fuel address key c Hc H.
  destruct (V _ _ _ _ H) as (e & He & Hk & _).
  exists e. split; [| exact Hk].
  unfold run, execute_hedge_strategy, try_except, bind, lift, raise.
  rewrite Hc. unfold size_legs. rewrite He. reflexivity.
Qed.

(** C5 (amended).  If the common-size search returns a size that is not
    zero, both legs get that size; if it returns [None] or a zero size, each
    leg gets [min(size, max_size, max_affordable_size)] of its own venue,
    which is at most its maximum and at most its affordable size. *)
Theorem leg_sizes_common_or_best_effort
  fuel ps bs ia ib minp minb maxps maxbs maxap maxab common :
  _find_common_size fuel ps bs ia ib minp minb maxap maxab = Returns common ->
  let chosen :=
    choose_leg_sizes fuel ps bs ia ib minp minb maxps maxbs maxap maxab in
  (forall c, common = Some c -> ~ c == 0 -> chosen = Returns (c, c)) /\
  (common = None \/ (exists c, common = Some c /\ c == 0) ->
   exists p b,
     chosen = Returns (p, b) /\
     p = pymin3 ps maxps maxap /\ b = pymin3 bs maxbs maxab /\
     p <= maxps /\ p <= maxap /\ b <= maxbs /\ b <= maxab).
Proof.
  intros H. cbv zeta. unfold choose_leg_sizes. rewrite H. cbn [obind].
  split.
  - intros c -> Hc.
    destruct (is_zero c) eqn:Z; [| reflexivity].
    apply is_zero_iff in Z. contradiction.
  - intros Hn.
    assert (E : match common with
                | Some c =>
                    if is_zero c
                    then Returns (pymin3 ps maxps maxap, pymin3 bs maxbs maxab)
                    else Returns (c, c)
                | None => Returns (pymin3 ps maxps maxap, pymin3 bs maxbs maxab)
                end = Returns (pymin3 ps maxps maxap, pymin3 bs maxbs maxab)).
    { destruct Hn as [-> | (c & -> & Hc)]; [reflexivity |].
      apply is_zero_iff in Hc. rewrite Hc. reflexivity. }
    rewrite E. do 2 eexists. split; [reflexivity |].
    destruct (pymin3_le ps maxps maxap) as (_ & P1 & P2).
    destruct (pymin3_le bs maxbs maxab) as (_ & B1 & B2).
    repeat split; assumption.
Qed.

(** C5, counterexample.  The search returns the size 0, which [if
    common_size:] takes for false: the legs get the sizes 4 and 3.  The
    same in a whole attempt: on venues without minimum sizes the two orders
    are submitted with the sizes 4 and 3. *)
Example zero_common_size_is_not_shared :
  _find_common_size 8 4 3 2 3 0 0 4 6 = Returns (Some 0) /\
  choose_leg_sizes 8 4 3 2 3 0 0 4 6 4 6 = Returns (4, 3) /\
  run (execute_hedge_strategy zero_minimum_venues heads_lowest 8 "0xacc" "0xkey")
  = ([ParadexPlaceOrder
        (mkOrder "ETH-USD-PERP" Market Sell 4 1700000000000 [] "0xsig");
      ParadexGetOrder "A1"; BitgetPlaceOrder "buy" 3],
     Returns ("A1"%string, "B1"%string)) /\
  ~ 4 == 3.
Proof.
  split; [vm_compute; reflexivity |].
  split; [vm_compute; reflexivity |].
  split; [vm_compute; reflexivity |].
  intros H. discriminate H.
Qed.

(** ** Sides *)

Lemma choose_sides_opposite choice :
  let s := choose_sides choice in
  (paradex_side s = Buy <-> bitget_side s = "sell"%string) /\
  (paradex_side s = Sell <-> bitget_side s = "buy"%string).
Proof.
  destruct choice; cbn; split; split; intros H; try reflexivity; discriminate H.
Qed.

Lemma read_constraints_sides v rng c :
  read_constraints v rng = Returns c ->
  sides c = choose_sides (choice_True_False rng).
Proof.
  unfold read_constraints, obind, require_data.
  repeat match goal with
         | |- context [match ?x with _ => _ end] =>
             lazymatch x with
             | context [match _ with _ => _ end] => fail
             | _ => destruct x; try discriminate
             end
         end.
  all: intros H; injection H as <-; reflexivity.
Qed.

Lemma execute_hedge_strategy_run v rng fuel address key :
  run (execute_hedge_strategy v rng fuel address key) =
  match read_constraints v rng with
  | Returns c =>
      match size_legs fuel (random_random rng) c with
      | Returns leg_sizes =>
          attempt v (paradex_side (sides c)) (paradex_direction (sides c))
                  (fst leg_sizes) address key
                  (bitget_side (sides c)) (bitget_direction (sides c))
                  (snd leg_sizes)
      | Raises e => ([], Raises e)
      | OutOfFuel => ([], OutOfFuel)
      end
  | Raises e => ([], Raises e)
  | OutOfFuel => ([], OutOfFuel)
  end.
Proof.
  unfold run, execute_hedge_strategy, try_except, bind, lift, raise, attempt, run.
  destruct (read_constraints v rng) as [| e | c]; try reflexivity.
  destruct (size_legs fuel (random_random rng) c) as [| e | sz]; try reflexivity.
  destruct (place_orders _ _ _ _ _ _ _ _ _ []) as [t [| e | r]]; reflexivity.
Qed.

Lemma attempt_orders
  (v : Venues) (paradex_side : OrderSide) (paradex_direction : string)
  (paradex_size : Decimal) (address key : string)
  (bitget_side position_direction : string) (bitget_size : Decimal) :
  let trace :=
    fst (attempt v paradex_side paradex_direction paradex_size address key
                 bitget_side position_direction bitget_size) in
  (forall o, In (ParadexPlaceOrder o) trace -> is_reduce_only o = false ->
             order_side o = paradex_side /\ size o = paradex_size) /\
  (forall s sz, In (BitgetPlaceOrder s sz) trace ->
                s = bitget_side /\ sz = bitget_size).
Proof.
  cbv zeta.
  view_of v paradex_side paradex_direction paradex_size address key
          bitget_side position_direction bitget_size;
    rewrite Hres; cbn [fst].
  1: destruct Hshape as [-> | [-> | (i & ->)]].
  7: destruct HF as [-> | (j & ->)].
  all: split; [intros o Hin Hro | intros s sz Hin];
    unfold both_tried, order_a, order_b in Hin; cbn in Hin;
    repeat match goal with
           | H : _ \/ _ |- _ => destruct H as [H | H]
           | H : False |- _ => contradiction
           | H : ParadexPlaceOrder _ = ParadexPlaceOrder _ |- _ =>
               injection H as H; subst; try (cbn in Hro)
           | H : BitgetPlaceOrder _ _ = BitgetPlaceOrder _ _ |- _ =>
               injection H as H; subst
           | H : _ = _ |- _ => discriminate H
           end;
    try (split; reflexivity).
Qed.

(** A run of [place_orders] in which the venue accepted the order of leg A
    and the request for the created order did not succeed. *)
Lemma leg_a_fetch_failed
  (v : Venues) (paradex_side : OrderSide) (paradex_direction : string)
  (paradex_size : Decimal) (address key : string)
  (bitget_side position_direction : string) (bitget_size : Decimal)
  (body : ParadexBody) (i : string) :
  paradex_config v = true ->
  paradex_request v [] (order_a v paradex_side paradex_size address key)
  = HttpResponse true body ->
  body_id body = Some i ->
  (forall created_order,
      paradex_request v [order_a v paradex_side paradex_size address key]
                      (ParadexGetOrder i)
      <> HttpResponse true created_order) ->
  exists e,
    attempt v paradex_side paradex_direction paradex_size address key
            bitget_side position_direction bitget_size
    = ([order_a v paradex_side paradex_size address key; ParadexGetOrder i],
       Raises e).
Proof.
  intros Hc Hp Hi Hg.
  assert (HA : exists e,
             leg_a_attempt v paradex_side paradex_size address key
             = ([order_a v paradex_side paradex_size address key; ParadexGetOrder i],
                Raises e)).
  { unfold leg_a_attempt, run, place_paradex_order, bind, now, lift, sign_order,
      paradex_api_place_order, paradex_api_get_order, ret, raise.
    rewrite Hc. unfold order_a, submitted_order in Hp, Hg. cbn [app] in *.
    rewrite Hp, Hi. cbn [app].
    match goal with
    | |- context [paradex_request v ?t ?c] =>
        destruct (paradex_request v t c) as [e | [|] created_order] eqn:Hr
    end.
    - eexists. reflexivity.
    - exfalso. exact (Hg created_order eq_refl).
    - eexists. reflexivity. }
  destruct HA as [e HA'].
  exists (outer_handler e).
  view_of v paradex_side paradex_direction paradex_size address key
          bitget_side position_direction bitget_size;
    rewrite HA in HA'; try discriminate HA'.
  injection HA' as -> ->. exact Hres.
Qed.

(** C9.  For both outcomes of the random choice the Paradex side is [Buy]
    exactly when the Bitget side is sell, and [Sell] exactly when it is buy,
    and the orders that [execute_hedge_strategy] submits for the two legs
    carry these sides.  But a run can end with leg A placed, leg B absent
    and no unwind: whenever the venue accepts the order of leg A and the
    request for the created order does not succeed, [place_orders] raises
    after these two requests, with no cancel request and no Bitget order;
    so it does on the venues [fetch_refused_venues], where it raises a
    [ParadexError].  And when the cancel request of the compensation is
    refused, the run ends with that refusal. *)
Theorem leg_a_stays_open_when_its_fetch_fails :
  (forall choice,
      let s := choose_sides choice in
      (paradex_side s = Buy <-> bitget_side s = "sell"%string) /\
      (paradex_side s = Sell <-> bitget_side s = "buy"%string)) /\
  (forall v rng fuel address key o s sz,
      let trace := fst (run (execute_hedge_strategy v rng fuel address key)) in
      In (ParadexPlaceOrder o) trace -> is_reduce_only o = false ->
      In (BitgetPlaceOrder s sz) trace ->
      (order_side o = Buy <-> s = "sell"%string) /\
      (order_side o = Sell <-> s = "buy"%string)) /\
  (forall v paradex_side paradex_direction paradex_size address key
          bitget_side position_direction bitget_size body i,
      let leg_a := order_a v paradex_side paradex_size address key in
      let result :=
        attempt v paradex_side paradex_direction paradex_size address key
                bitget_side position_direction bitget_size in
      paradex_config v = true ->
      paradex_request v [] leg_a = HttpResponse true body ->
      body_id body = Some i ->
      (forall created_order,
          paradex_request v [leg_a] (ParadexGetOrder i)
          <> HttpResponse true created_order) ->
      fst result = [leg_a; ParadexGetOrder i] /\
      (exists e, snd result = Raises e) /\
      count is_cancel (fst result) = 0%nat /\
      count is_bitget_order (fst result) = 0%nat) /\
  (let v := fetch_refused_venues in
   let leg_a := order_a v Buy 1 "0xacc" "0xkey" in
   paradex_request v [] leg_a = HttpResponse true accepted /\
   body_id accepted = Some "A1"%string /\
   attempt v Buy "long" 1 "0xacc" "0xkey" "sell" "short" 1
   = ([leg_a; ParadexGetOrder "A1"],
      Raises (Exn ParadexError "Paradex order failed: Failed to get order"))) /\
  (let v := scripted_venues cancel_refused bitget_rejects eth_market in
   attempt v Buy "long" 1 "0xacc" "0xkey" "sell" "short" 1
   = ([order_a v Buy 1 "0xacc" "0xkey"; ParadexGetOrder "A1";
       BitgetPlaceOrder "sell" 1; ParadexCancelOrder "A1"],
      Raises (Exn ParadexError "Paradex order failed: Failed to cancel order"))).
Proof.
  split; [exact choose_sides_opposite |]. split; [| split; [| split]].
  - intros v rng fuel address key o s sz. cbv zeta.
    rewrite execute_hedge_strategy_run.
    destruct (read_constraints v rng) as [| e | c] eqn:Hc;
      try (cbn; contradiction).
    destruct (size_legs fuel (random_random rng) c) as [| e | leg_sizes];
      try (cbn; contradiction).
    intros Ho Hro Hb.
    destruct (attempt_orders v (paradex_side (sides c)) (paradex_direction (sides c))
                (fst leg_sizes) address key
                (bitget_side (sides c)) (bitget_direction (sides c))
                (snd leg_sizes)) as [Ha Hbb].
    destruct (Ha o Ho Hro) as [-> _]. destruct (Hbb s sz Hb) as [-> _].
    rewrite (read_constraints_sides v rng c Hc).
    apply choose_sides_opposite.
  - intros v paradex_side paradex_direction paradex_size address key
           bitget_side position_direction bitget_size body i. cbv zeta.
    intros Hc Hp Hi Hg.
    destruct (leg_a_fetch_failed v paradex_side paradex_direction paradex_size
                address key bitget_side position_direction bitget_size body i
                Hc Hp Hi Hg) as [e ->].
    cbn [fst snd]. split; [reflexivity |]. split; [exists e; reflexivity |].
    split; reflexivity.
  - cbv zeta. split; [reflexivity |]. split; [reflexivity |].
    vm_compute. reflexivity.
  - cbv zeta. vm_compute. reflexivity.
Qed.

(** ** Further properties of [place_orders] and of the two legs *)

Lemma isinstance_cancelled_kind e :
  isinstance e OrderCancelledError = true -> exn_kind e = OrderCancelledError.
Proof.
  unfold isinstance. destruct (exn_kind e); cbn; intros H; try discriminate H.
  reflexivity.
Qed.

Lemma outer_handler_kind e :
  (isinstance (outer_handler e) OrderCancelledError = true /\ outer_handler e = e) \/
  exn_kind (outer_handler e) = ParadexError.
Proof.
  unfold outer_handler. destruct (isinstance e OrderCancelledError) eqn:H.
  - left. split; [exact H | reflexivity].
  - right. reflexivity.
Qed.

(** Whatever the venues answer, an error raised by [place_orders] is an
    [OrderCancelledError] (with a subclass) or a [ParadexError]: it is an
    [ExchangeError], never a [BitgetError] and never a
    [HedgePositionMismatchError]. *)
Theorem place_orders_raises_cancelled_or_paradex_error
  (v : Venues) (paradex_side : OrderSide) (paradex_direction : string)
  (paradex_size : Decimal) (address key : string)
  (bitget_side position_direction : string) (bitget_size : Decimal) (e : exn) :
  snd (attempt v paradex_side paradex_direction paradex_size address key
               bitget_side position_direction bitget_size) = Raises e ->
  (exn_kind e = OrderCancelledError \/ exn_kind e = ParadexError) /\
  isinstance e ExchangeError = true /\
  isinstance e BitgetError = false /\
  isinstance e HedgePositionMismatchError = false.
Proof.
  intros H.
  assert (K : exn_kind e = OrderCancelledError \/ exn_kind e = ParadexError).
  { view_of v paradex_side paradex_direction paradex_size address key
            bitget_side position_direction bitget_size;
      rewrite Hres in H; cbn [snd] in H; try discriminate H;
      injection H as <-;
      match goal with
      | |- context [outer_handler ?x] =>
          destruct (outer_handler_kind x) as [[Hk _] | Hk];
          [left; apply isinstance_cancelled_kind; exact Hk | right; exact Hk]
      end. }
  split; [exact K |].
  unfold isinstance. destruct K as [-> | ->]; repeat split.
Qed.

(** [place_orders] sends each of its requests at most once: one opening
    order on Paradex, one order on Bitget, one cancel, one reduce-only order,
    at most six requests in all; and Bitget is only asked after the Paradex
    order was placed and fetched. *)
Theorem place_orders_sends_no_request_twice
  (v : Venues) (paradex_side : OrderSide) (paradex_direction : string)
  (paradex_size : Decimal) (address key : string)
  (bitget_side position_direction : string) (bitget_size : Decimal) :
  let trace :=
    fst (attempt v paradex_side paradex_direction paradex_size address key
                 bitget_side position_direction bitget_size) in
  (count is_leg_a_order trace <= 1)%nat /\
  (count is_bitget_order trace <= 1)%nat /\
  (count is_cancel trace <= 1)%nat /\
  (count is_flatten trace <= 1)%nat /\
  (List.length trace <= 6)%nat /\
  (forall s sz, In (BitgetPlaceOrder s sz) trace ->
     exists i rest,
       snd (leg_a_attempt v paradex_side paradex_size address key) = Returns i /\
       trace = order_a v paradex_side paradex_size address key
               :: ParadexGetOrder i :: order_b bitget_side bitget_size :: rest).
Proof.
  cbv zeta.
  view_of v paradex_side paradex_direction paradex_size address key
          bitget_side position_direction bitget_size;
    rewrite Hres; cbn [fst].
  1: destruct Hshape as [-> | [-> | (i & ->)]].
  7: destruct HF as [-> | (j & ->)].
  all: repeat (split; [unfold both_tried, order_a, order_b, count; cbn; lia |]).
  all: intros s sz Hin; unfold both_tried, order_a, order_b in Hin; cbn in Hin;
    repeat match goal with
           | H : _ \/ _ |- _ => destruct H as [H | H]
           | H : False |- _ => contradiction
           | H : _ = BitgetPlaceOrder _ _ |- _ => first [discriminate H | clear H]
           end.
  all: rewrite HA; cbn [snd]; do 2 eexists; split; reflexivity.
Qed.

(** [place_paradex_order] returns an order id exactly when the
    configuration is loaded, the order request is answered with a success
    carrying that id, and the fetch of the order is answered with a success
    without a cancel reason. *)
Theorem place_paradex_order_returns_iff
  (v : Venues) (order_side : OrderSide) (size : Decimal) (address key : string)
  (reduce_only : bool) (tr : list Call) (i : string) :
  let order := submitted_order v order_side size address key reduce_only tr in
  snd (place_paradex_order v order_side size address key reduce_only tr) = Returns i
  <->
  paradex_config v = true /\
  (exists placed,
      paradex_request v tr (ParadexPlaceOrder order) = HttpResponse true placed /\
      body_id placed = Some i) /\
  (exists created,
      paradex_request v (tr ++ [ParadexPlaceOrder order]) (ParadexGetOrder i)
      = HttpResponse true created /\
      no_cancel_reason created = true).
Proof.
  cbv zeta.
  unfold place_paradex_order, submitted_order, bind, now, lift, sign_order,
    paradex_api_place_order, paradex_api_get_order, ret, raise, no_cancel_reason.
  destruct (paradex_config v).
  2:{ cbn. split; [discriminate | intros (H & _); discriminate H]. }
  match goal with
  | |- context [paradex_request v tr ?c] =>
      destruct (paradex_request v tr c) as [e | [|] placed] eqn:Hp
  end; cbn -[nonempty].
  - split; [discriminate | intros (_ & (b & H & _) & _); discriminate H].
  - destruct (body_id placed) as [i0 |] eqn:Hid; cbn -[nonempty].
    + match goal with
      | |- context [paradex_request v ?t (ParadexGetOrder i0)] =>
          destruct (paradex_request v t (ParadexGetOrder i0))
            as [e | [|] created] eqn:Hg
      end; cbn -[nonempty].
      * split; [discriminate |].
        intros (_ & (b & H & Hb) & (c & Hc & _)).
        injection H as <-. rewrite Hid in Hb. injection Hb as <-.
        rewrite Hg in Hc. discriminate Hc.
      * destruct (body_cancel_reason created) as [reason |] eqn:Hr.
        -- destruct (nonempty reason) eqn:Hn; cbn -[nonempty].
           ++ split; [discriminate |].
              intros (_ & (b & H & Hb) & (c & Hc & Hnc)).
              injection H as <-. rewrite Hid in Hb. injection Hb as <-.
              rewrite Hg in Hc. injection Hc as <-.
              rewrite Hr, Hn in Hnc. discriminate Hnc.
           ++ split.
              ** intros H. injection H as <-.
                 split; [reflexivity |]. split.
                 --- exists placed. split; [reflexivity | exact Hid].
                 --- exists created. split; [exact Hg |]. rewrite Hr, Hn. reflexivity.
              ** intros (_ & (b & H & Hb) & _).
                 injection H as <-. rewrite Hid in Hb. injection Hb as <-.
                 reflexivity.
        -- split.
           ++ intros H. injection H as <-.
              split; [reflexivity |]. split.
              ** exists placed. split; [reflexivity | exact Hid].
              ** exists created. split; [exact Hg |]. rewrite Hr. reflexivity.
           ++ intros (_ & (b & H & Hb) & _).
              injection H as <-. rewrite Hid in Hb. injection Hb as <-.
              reflexivity.
      * split; [discriminate |].
        intros (_ & (b & H & Hb) & (c & Hc & _)).
        injection H as <-. rewrite Hid in Hb. injection Hb as <-.
        rewrite Hg in Hc. discriminate Hc.
    + split; [discriminate |].
      intros (_ & (b & H & Hb) & _). injection H as <-.
      rewrite Hid in Hb. discriminate Hb.
  - split; [discriminate | intros (_ & (b & H & _) & _); discriminate H].
Qed.

(** The ways [place_paradex_order] fails: without configuration nothing is
    sent; a refused order raises a [ParadexAPIError]; an accepted order whose
    answer has no id raises a [KeyError] before any fetch; a cancel reason on
    the fetched order raises an [OrderCancelledError] carrying it. *)
Theorem place_paradex_order_failures
  (v : Venues) (order_side : OrderSide) (size : Decimal) (address key : string)
  (reduce_only : bool) (tr : list Call) :
  let order := submitted_order v order_side size address key reduce_only tr in
  let result := place_paradex_order v order_side size address key reduce_only tr in
  (paradex_config v = false ->
   result =
   (tr, Raises (Exn ParadexAPIError "Config not initialized. Call get_config() first")))
  /\
  (paradex_config v = true ->
   forall placed,
     paradex_request v tr (ParadexPlaceOrder order) = HttpResponse true placed ->
     body_id placed = None ->
     result = (tr ++ [ParadexPlaceOrder order], Raises (Exn KeyError "'id'")))
  /\
  (paradex_config v = true ->
   forall placed,
     paradex_request v tr (ParadexPlaceOrder order) = HttpResponse false placed ->
     result = (tr ++ [ParadexPlaceOrder order],
               Raises (Exn ParadexAPIError "Failed to place order")))
  /\
  (paradex_config v = true ->
   forall placed i created reason,
     paradex_request v tr (ParadexPlaceOrder order) = HttpResponse true placed ->
     body_id placed = Some i ->
     paradex_request v (tr ++ [ParadexPlaceOrder order]) (ParadexGetOrder i)
     = HttpResponse true created ->
     body_cancel_reason created = Some reason ->
     nonempty reason = true ->
     result = (tr ++ [ParadexPlaceOrder order; ParadexGetOrder i],
               Raises (Exn OrderCancelledError reason))).
Proof.
  cbv zeta.
  unfold place_paradex_order, submitted_order, bind, now, lift, sign_order,
    paradex_api_place_order, paradex_api_get_order, ret, raise.
  repeat split.
  - intros ->. reflexivity.
  - intros -> placed Hp Hid. rewrite Hp. cbn. rewrite Hid. reflexivity.
  - intros -> placed Hp. rewrite Hp. reflexivity.
  - intros -> placed i created reason Hp Hid Hg Hr Hn.
    rewrite Hp. cbn -[nonempty]. rewrite Hid. cbn -[nonempty].
    rewrite Hg. cbn -[nonempty]. rewrite Hr, Hn.
    rewrite <- app_assoc. reflexivity.
Qed.

(** [place_bitget_order] sends exactly one request; it returns the order
    id exactly when the answer is a success whose message is success; any
    other message raises an [OrderCancelledError], and a refused request a
    [BitgetAPIError]. *)
Theorem place_bitget_order_outcomes
  (v : Venues) (side : string) (size : Decimal) (tr : list Call) :
  let request := BitgetPlaceOrder side size in
  let result := place_bitget_order v side size tr in
  fst result = tr ++ [request] /\
  (forall j,
      snd result = Returns j <->
      exists body,
        bitget_request v tr request = HttpResponse true body /\
        body_msg body = Some "success"%string /\
        body_data_orderId body = Some j) /\
  (forall body msg,
      bitget_request v tr request = HttpResponse true body ->
      body_msg body = Some msg -> msg <> "success"%string ->
      snd result = Raises (Exn OrderCancelledError "Order was cancelled")) /\
  (forall body,
      bitget_request v tr request = HttpResponse false body ->
      snd result =
      Raises (Exn BitgetAPIError "An error occurred while interacting with Bitget API")).
Proof.
  cbv zeta.
  unfold place_bitget_order, bind, bitget_api_place_order, ret, raise.
  destruct (bitget_request v tr (BitgetPlaceOrder side size)) as [e | [|] body] eqn:Hb;
    cbn.
  - repeat split; try discriminate.
    intros (b & H & _). discriminate H.
  - destruct (body_msg body) as [m |] eqn:Hm; cbn.
    + destruct (String.eqb_spec m "success") as [-> | Hne]; cbn.
      * destruct (body_data_orderId body) as [j0 |] eqn:Hj; cbn.
        -- repeat split; try discriminate.
           ++ intros H. injection H as <-. exists body. repeat split; assumption.
           ++ intros (b & H & _ & Hj'). injection H as <-.
              rewrite Hj in Hj'. injection Hj' as <-. reflexivity.
           ++ intros b msg H Hm' Hne. injection H as <-.
              rewrite Hm in Hm'. injection Hm' as <-. contradiction.
        -- repeat split; try discriminate.
           ++ intros (b & H & _ & Hj'). injection H as <-.
              rewrite Hj in Hj'. discriminate Hj'.
           ++ intros b msg H Hm' Hne. injection H as <-.
              rewrite Hm in Hm'. injection Hm' as <-. contradiction.
      * repeat split; try discriminate.
        intros (b & H & Hm' & _). injection H as <-.
        rewrite Hm in Hm'. injection Hm' as ->. contradiction.
    + repeat split; try discriminate.
      * intros (b & H & Hm' & _). injection H as <-.
        rewrite Hm in Hm'. discriminate Hm'.
      * intros b msg H Hm'. injection H as <-. rewrite Hm in Hm'. discriminate Hm'.
  - repeat split; try discriminate.
    intros (b & H & _). discriminate H.
Qed.

(** ** Further properties of the sizing *)

Lemma validate_final_sizes_returns p b minp minb pp pb balp balb :
  _validate_final_sizes p b minp minb pp pb balp balb = Returns tt <->
  minp <= p /\ minb <= b /\ dmul p pp <= balp /\ dmul b pb <= balb.
Proof.
  unfold _validate_final_sizes.
  destruct (Qlt_bool p minp) eqn:E1.
  { apply Qlt_bool_iff in E1. split; [discriminate | intros (H & _); lra]. }
  destruct (Qlt_bool b minb) eqn:E2.
  { apply Qlt_bool_iff in E2. split; [discriminate | intros (_ & H & _); lra]. }
  apply Qlt_bool_false_iff in E1. apply Qlt_bool_false_iff in E2.
  destruct (Qlt_bool balp (dmul p pp)) eqn:E3; cbn.
  { apply Qlt_bool_iff in E3. split; [discriminate | intros (_ & _ & H & _); lra]. }
  destruct (Qlt_bool balb (dmul b pb)) eqn:E4; cbn.
  { apply Qlt_bool_iff in E4. split; [discriminate | intros (_ & _ & _ & H); lra]. }
  apply Qlt_bool_false_iff in E3. apply Qlt_bool_false_iff in E4.
  split; [intros _; repeat split; assumption | reflexivity].
Qed.

Lemma size_legs_validated fuel r c sizes :
  size_legs fuel r c = Returns sizes ->
  _validate_final_sizes (fst sizes) (snd sizes) (min_paradex_size c)
    (min_bitget_size c) (paradex_price c) (bitget_price c)
    (paradex_balance c) (bitget_balance c) = Returns tt.
Proof.
  unfold size_legs, obind.
  destruct (_validate_size_constraints _ _ _ _); try discriminate.
  destruct (choose_position_value _ _ _ _ _ _); try discriminate.
  destruct (ddiv _ (paradex_price c)); try discriminate.
  destruct (dfloordiv _ (paradex_increment c)); try discriminate.
  destruct (ddiv _ (bitget_price c)); try discriminate.
  destruct (dfloordiv _ (bitget_multiplier c)); try discriminate.
  destruct (ddiv _ (paradex_price c)); try discriminate.
  destruct (dfloordiv _ (paradex_increment c)); try discriminate.
  destruct (ddiv _ (bitget_price c)); try discriminate.
  destruct (dfloordiv _ (bitget_multiplier c)); try discriminate.
  destruct (choose_leg_sizes _ _ _ _ _ _ _ _ _ _ _) as [| e | sz]; try discriminate.
  destruct (_validate_final_sizes _ _ _ _ _ _ _ _) as [| e | []] eqn:V;
    try discriminate.
  intros H. injection H as <-. exact V.
Qed.

(** [execute_hedge_strategy] sends no request before the sizes passed the
    final validation: every opening order on Paradex and every order on
    Bitget has a size of at least the minimum of its venue, whose cost, the
    product of size and price as the code computes it, is within the balance
    kept for it. *)
Theorem submitted_orders_are_validated
  (v : Venues) (rng : Random) (fuel : nat) (address key : string) :
  let trace := fst (run (execute_hedge_strategy v rng fuel address key)) in
  trace = [] \/
  exists c,
    read_constraints v rng = Returns c /\
    (forall o, In (ParadexPlaceOrder o) trace -> is_reduce_only o = false ->
               min_paradex_size c <= size o /\
               dmul (size o) (paradex_price c) <= paradex_balance c) /\
    (forall s sz, In (BitgetPlaceOrder s sz) trace ->
                  min_bitget_size c <= sz /\
                  dmul sz (bitget_price c) <= bitget_balance c).
Proof.
  cbv zeta. rewrite execute_hedge_strategy_run.
  destruct (read_constraints v rng) as [| e | c] eqn:Hc;
    [left; reflexivity | left; reflexivity |].
  destruct (size_legs fuel (random_random rng) c) as [| e | sizes] eqn:Hs;
    [left; reflexivity | left; reflexivity |].
  right. exists c. split; [reflexivity |].
  apply size_legs_validated in Hs. apply validate_final_sizes_returns in Hs.
  destruct Hs as (H1 & H2 & H3 & H4).
  destruct (attempt_orders v (paradex_side (sides c)) (paradex_direction (sides c))
              (fst sizes) address key
              (bitget_side (sides c)) (bitget_direction (sides c))
              (snd sizes)) as [Ha Hb].
  split.
  - intros o Ho Hro. destruct (Ha o Ho Hro) as [_ ->]. split; assumption.
  - intros s sz Hin. destruct (Hb s sz Hin) as [_ ->]. split; assumption.
Qed.

(** ** Further properties of the common-size search *)

Lemma up_candidate_shift start step k :
  up_candidate (dadd start step) step k = up_candidate start step (S k).
Proof.
  induction k as [| k IH]; [reflexivity |].
  cbn [up_candidate] in *. rewrite IH. reflexivity.
Qed.

Lemma down_candidate_shift start step k :
  down_candidate (dsub start step) step k = down_candidate start step (S k).
Proof.
  induction k as [| k IH]; [reflexivity |].
  cbn [down_candidate] in *. rewrite IH. reflexivity.
Qed.

Lemma passed_up_step ia ib upper step target cur k :
  cur <= upper ->
  ~ (is_common_multiple cur ia ib /\ target <= cur) ->
  passed_up ia ib upper step target (dadd cur step) k ->
  passed_up ia ib upper step target cur (S k).
Proof.
  intros Hle Hn Hp [| j] Hlt.
  - split; assumption.
  - rewrite <- up_candidate_shift. apply Hp. lia.
Qed.

Lemma passed_down_step ia ib lo step cur k :
  lo <= cur ->
  ~ is_common_multiple cur ia ib ->
  passed_down ia ib lo step (dsub cur step) k ->
  passed_down ia ib lo step cur (S k).
Proof.
  intros Hle Hn Hp [| j] Hlt.
  - split; assumption.
  - rewrite <- down_candidate_shift. apply Hp. lia.
Qed.

Lemma scan_up_first ia ib upper step target fuel : forall cur v,
  scan_up ia ib upper step target fuel cur = LoopReturn v ->
  exists k : nat,
    v = up_candidate cur step k /\ v <= upper /\ target <= v /\
    is_common_multiple v ia ib /\
    passed_up ia ib upper step target cur k.
Proof.
  induction fuel as [| f IH]; intros cur v H; cbn [scan_up] in H; [discriminate |].
  destruct (Qle_bool cur upper) eqn:Hle; [| discriminate].
  apply Qle_bool_iff in Hle.
  assert (Step : scan_up ia ib upper step target f (dadd cur step) = LoopReturn v ->
                 ~ (is_common_multiple cur ia ib /\ target <= cur) ->
                 exists k : nat,
                   v = up_candidate cur step k /\ v <= upper /\ target <= v /\
                   is_common_multiple v ia ib /\
                   passed_up ia ib upper step target cur k).
  { intros Hr Hn. destruct (IH _ _ Hr) as (k & Hk & Hu & Ht & Hc & Hp).
    exists (S k). rewrite <- up_candidate_shift.
    repeat (split; [assumption |]).
    apply passed_up_step; assumption. }
  destruct (divisible_by_both cur ia ib) as [| e | [|]] eqn:Hd; try discriminate.
  - destruct (Qle_bool target cur) eqn:Ht.
    + injection H as <-. exists 0%nat. apply Qle_bool_iff in Ht.
      split; [reflexivity |]. split; [exact Hle |]. split; [exact Ht |].
      split; [apply divisible_by_both_true; exact Hd |].
      intros j Hj. lia.
    + apply Step; [exact H |]. intros [_ Hc].
      apply Qle_bool_iff in Hc. congruence.
  - apply Step; [exact H |]. intros [Hc _].
    apply divisible_by_both_true in Hc. congruence.
Qed.

Lemma scan_up_passed ia ib upper step target fuel : forall cur,
  scan_up ia ib upper step target fuel cur = LoopExit ->
  exists n : nat,
    upper < up_candidate cur step n /\
    passed_up ia ib upper step target cur n.
Proof.
  induction fuel as [| f IH]; intros cur H; cbn [scan_up] in H; [discriminate |].
  destruct (Qle_bool cur upper) eqn:Hle.
  - apply Qle_bool_iff in Hle.
    assert (Step : scan_up ia ib upper step target f (dadd cur step) = LoopExit ->
                   ~ (is_common_multiple cur ia ib /\ target <= cur) ->
                   exists n : nat,
                     upper < up_candidate cur step n /\
                     passed_up ia ib upper step target cur n).
    { intros Hr Hn. destruct (IH _ Hr) as (n & Hu & Hp).
      exists (S n). rewrite <- up_candidate_shift.
      split; [assumption |]. apply passed_up_step; assumption. }
    destruct (divisible_by_both cur ia ib) as [| e | [|]] eqn:Hd; try discriminate.
    + destruct (Qle_bool target cur) eqn:Ht; [discriminate |].
      apply Step; [exact H |]. intros [_ Hc].
      apply Qle_bool_iff in Hc. congruence.
    + apply Step; [exact H |]. intros [Hc _].
      apply divisible_by_both_true in Hc. congruence.
  - apply Qle_bool_false_iff in Hle. exists 0%nat.
    split; [exact Hle |]. intros j Hj. lia.
Qed.

Lemma scan_down_first ia ib lo step fuel : forall cur v,
  scan_down ia ib lo step fuel cur = LoopReturn v ->
  exists k : nat,
    v = down_candidate cur step k /\ lo <= v /\
    is_common_multiple v ia ib /\
    passed_down ia ib lo step cur k.
Proof.
  induction fuel as [| f IH]; intros cur v H; cbn [scan_down] in H; [discriminate |].
  destruct (Qle_bool lo cur) eqn:Hle; [| discriminate].
  apply Qle_bool_iff in Hle.
  destruct (divisible_by_both cur ia ib) as [| e | [|]] eqn:Hd; try discriminate.
  - injection H as <-. exists 0%nat.
    split; [reflexivity |]. split; [exact Hle |].
    split; [apply divisible_by_both_true; exact Hd |].
    intros j Hj. lia.
  - destruct (IH _ _ H) as (k & Hk & Hl & Hc & Hp).
    exists (S k). rewrite <- down_candidate_shift.
    repeat (split; [assumption |]).
    apply passed_down_step; [assumption | | assumption].
    intros Hc'. apply divisible_by_both_true in Hc'. congruence.
Qed.

(** Which common size is returned.  The candidates of the upward scan are
    the minimum size and what the decimal addition of the step makes of it,
    again and again; those of the downward scan come from the upper limit by
    the decimal subtraction of the step.  A returned size is the first
    candidate of the upward scan, all within the upper limit, that is a
    common multiple and reaches the target size; or, when the upward scan
    passes the upper limit without finding one, the first candidate of the
    downward scan, all of at least the minimum size, that is a common
    multiple. *)
Theorem common_size_is_first_on_its_scan
  (fuel : nat)
  (ps bs ia ib minp minb maxp maxb v : Decimal) :
  _find_common_size fuel ps bs ia ib minp minb maxp maxb = Returns (Some v) ->
  let upper_limit := pymin maxp maxb in
  let min_size := pymax minp minb in
  let step := pymin ia ib in
  let target := pymax ps bs in
  let qualifies_up (c : Decimal) := is_common_multiple c ia ib /\ target <= c in
  (exists k : nat,
      v = up_candidate min_size step k /\
      v <= upper_limit /\ qualifies_up v /\
      forall j : nat, (j < k)%nat ->
        up_candidate min_size step j <= upper_limit /\
        ~ qualifies_up (up_candidate min_size step j))
  \/
  ((exists n : nat,
       upper_limit < up_candidate min_size step n /\
       forall j : nat, (j < n)%nat ->
         up_candidate min_size step j <= upper_limit /\
         ~ qualifies_up (up_candidate min_size step j)) /\
   exists k : nat,
     v = down_candidate upper_limit step k /\
     min_size <= v /\ is_common_multiple v ia ib /\
     forall j : nat, (j < k)%nat ->
       min_size <= down_candidate upper_limit step j /\
       ~ is_common_multiple (down_candidate upper_limit step j) ia ib).
Proof.
  intros H. cbv zeta.
  unfold _find_common_size in H.
  destruct (scan_up ia ib (pymin maxp maxb) (pymin ia ib) (pymax ps bs) fuel
              (pymax minp minb)) as [| e | w |] eqn:Eu; try discriminate.
  - injection H as <-. left.
    destruct (scan_up_first _ _ _ _ _ _ _ _ Eu) as (k & Hk & Hu & Ht & Hc & Hp).
    exists k. split; [exact Hk |]. split; [exact Hu |].
    split; [split; assumption | exact Hp].
  - destruct (scan_down ia ib (pymax minp minb) (pymin ia ib) fuel
                (pymin maxp maxb)) as [| e | w |] eqn:Ed; try discriminate.
    injection H as <-. right. split.
    + destruct (scan_up_passed _ _ _ _ _ _ _ Eu) as (n & Hn & Hp).
      exists n. split; [exact Hn | exact Hp].
    + destruct (scan_down_first _ _ _ _ _ _ _ Ed) as (k & Hk & Hl & Hc & Hp).
      exists k. repeat (split; [assumption |]). exact Hp.
Qed.

(** Edge cases of the search: on an empty range it returns [None]; with a
    zero Paradex increment and a range that is not empty it raises
    [decimal.InvalidOperation], whose message names [DivisionUndefined]
    when the smallest size is zero too. *)
Theorem common_size_search_on_degenerate_input
  (fuel : nat) (ps bs ia ib minp minb maxp maxb : Decimal) :
  (pymin maxp maxb < pymax minp minb ->
   _find_common_size (S fuel) ps bs ia ib minp minb maxp maxb = Returns None) /\
  (pymax minp minb <= pymin maxp maxb -> ia == 0 ->
   _find_common_size (S fuel) ps bs ia ib minp minb maxp maxb
   = Raises (Exn InvalidOperation
               (if is_zero (pymax minp minb)
                then "[<class 'decimal.DivisionUndefined'>]"
                else "[<class 'decimal.InvalidOperation'>]"))).
Proof.
  split.
  - intros H. unfold _find_common_size. cbn.
    assert (E1 : Qle_bool (pymax minp minb) (pymin maxp maxb) = false)
      by (apply Qle_bool_false_iff; exact H).
    rewrite E1. reflexivity.
  - intros H Hz. unfold _find_common_size. cbn.
    assert (E1 : Qle_bool (pymax minp minb) (pymin maxp maxb) = true)
      by (apply Qle_bool_iff; exact H).
    rewrite E1. unfold divisible_by_both, dmod.
    assert (E2 : is_zero ia = true) by (apply is_zero_iff; exact Hz).
    rewrite E2. unfold remainder_by_zero.
    destruct (is_zero (pymax minp minb)); reflexivity.
Qed.

Lemma dmod_raises_invalid_operation a b e :
  dmod a b = Raises e -> exn_kind e = InvalidOperation.
Proof.
  unfold dmod, remainder_by_zero. intros H.
  destruct (is_zero b).
  - destruct (is_zero a); injection H as <-; reflexivity.
  - destruct (quotient_too_large _); [| discriminate].
    injection H as <-. reflexivity.
Qed.

Lemma divisible_by_zero_multiplier cur ia ib :
  ib == 0 ->
  divisible_by_both cur ia ib <> Returns true /\
  forall e, divisible_by_both cur ia ib = Raises e -> exn_kind e = InvalidOperation.
Proof.
  intros Hb. apply is_zero_iff in Hb.
  unfold divisible_by_both, obind.
  destruct (dmod cur ia) as [| e1 | r1] eqn:E1.
  - split; [discriminate | intros e H; discriminate].
  - split; [discriminate |]. intros e H. injection H as <-.
    exact (dmod_raises_invalid_operation _ _ _ E1).
  - destruct (is_zero r1).
    + destruct (dmod cur ib) as [| e2 | r2] eqn:E2.
      * split; [discriminate | intros e H; discriminate].
      * split; [discriminate |]. intros e H. injection H as <-.
        exact (dmod_raises_invalid_operation _ _ _ E2).
      * exfalso. unfold dmod in E2. rewrite Hb in E2. discriminate.
    + split; [discriminate | intros e H; discriminate].
Qed.

Lemma scan_up_zero_multiplier ia ib upper step target fuel :
  ib == 0 -> forall cur,
  (forall v, scan_up ia ib upper step target fuel cur <> LoopReturn v) /\
  (forall e, scan_up ia ib upper step target fuel cur = LoopRaise e ->
             exn_kind e = InvalidOperation).
Proof.
  intros Hb. induction fuel as [| f IH]; intros cur; cbn [scan_up].
  - split; [intros v; discriminate | intros e H; discriminate].
  - destruct (Qle_bool cur upper).
    2:{ split; [intros v; discriminate | intros e H; discriminate]. }
    destruct (divisible_by_zero_multiplier cur ia ib Hb) as [Ht Hr].
    destruct (divisible_by_both cur ia ib) as [| e | [|]].
    + split; [intros v; discriminate | intros e H; discriminate].
    + split; [intros v; discriminate |]. intros e' H. injection H as <-.
      apply Hr. reflexivity.
    + exfalso. apply Ht. reflexivity.
    + apply IH.
Qed.

Lemma scan_down_zero_multiplier ia ib lo step fuel :
  ib == 0 -> forall cur,
  (forall v, scan_down ia ib lo step fuel cur <> LoopReturn v) /\
  (forall e, scan_down ia ib lo step fuel cur = LoopRaise e ->
             exn_kind e = InvalidOperation).
Proof.
  intros Hb. induction fuel as [| f IH]; intros cur; cbn [scan_down].
  - split; [intros v; discriminate | intros e H; discriminate].
  - destruct (Qle_bool lo cur).
    2:{ split; [intros v; discriminate | intros e H; discriminate]. }
    destruct (divisible_by_zero_multiplier cur ia ib Hb) as [Ht Hr].
    destruct (divisible_by_both cur ia ib) as [| e | [|]].
    + split; [intros v; discriminate | intros e H; discriminate].
    + split; [intros v; discriminate |]. intros e' H. injection H as <-.
      apply Hr. reflexivity.
    + exfalso. apply Ht. reflexivity.
    + apply IH.
Qed.

(** A zero Bitget multiplier never yields a common size: whatever the other
    arguments, the search returns no size, and every exception it raises is
    a [decimal.InvalidOperation]; when the range is not empty and the
    smallest size is a multiple of the Paradex increment, it raises one at
    the first candidate. *)
Theorem zero_multiplier_raises_or_never_returns
  (ps bs ia ib minp minb maxp maxb : Decimal) :
  ib == 0 ->
  (forall fuel v,
      _find_common_size fuel ps bs ia ib minp minb maxp maxb <> Returns (Some v)) /\
  (forall fuel e,
      _find_common_size fuel ps bs ia ib minp minb maxp maxb = Raises e ->
      exn_kind e = InvalidOperation) /\
  (pymax minp minb <= pymin maxp maxb ->
   is_multiple (pymax minp minb) ia ->
   forall fuel,
     exists e,
       _find_common_size (S fuel) ps bs ia ib minp minb maxp maxb = Raises e /\
       exn_kind e = InvalidOperation).
Proof.
  intros Hb.
  assert (Zb : is_zero ib = true) by (apply is_zero_iff; exact Hb).
  split; [| split].
  - intros fuel v. unfold _find_common_size.
    destruct (scan_up_zero_multiplier ia ib (pymin maxp maxb) (pymin ia ib)
                (pymax ps bs) fuel Hb (pymax minp minb)) as [Hu _].
    destruct (scan_down_zero_multiplier ia ib (pymax minp minb) (pymin ia ib)
                fuel Hb (pymin maxp maxb)) as [Hd _].
    destruct (scan_up _ _ _ _ _ _ _) as [| e | w |]; try discriminate.
    + exfalso. exact (Hu w eq_refl).
    + destruct (scan_down _ _ _ _ _ _) as [| e | w |]; try discriminate.
      exfalso. exact (Hd w eq_refl).
  - intros fuel e. unfold _find_common_size.
    destruct (scan_up_zero_multiplier ia ib (pymin maxp maxb) (pymin ia ib)
                (pymax ps bs) fuel Hb (pymax minp minb)) as [_ Hu].
    destruct (scan_down_zero_multiplier ia ib (pymax minp minb) (pymin ia ib)
                fuel Hb (pymin maxp maxb)) as [_ Hd].
    destruct (scan_up _ _ _ _ _ _ _) as [| e1 | w |]; try discriminate.
    + intros H. injection H as <-. apply Hu. reflexivity.
    + destruct (scan_down _ _ _ _ _ _) as [| e1 | w |]; try discriminate.
      intros H. injection H as <-. apply Hd. reflexivity.
  - intros Hr (r & Hm & Hz) fuel.
    assert (Hle : Qle_bool (pymax minp minb) (pymin maxp maxb) = true)
      by (apply Qle_bool_iff; exact Hr).
    exists (remainder_by_zero (pymax minp minb)). split.
    + unfold _find_common_size. cbn [scan_up].
      rewrite Hle. unfold divisible_by_both. rewrite Hm. cbn [obind].
      apply is_zero_iff in Hz. rewrite Hz. unfold dmod. rewrite Zb. reflexivity.
    + unfold remainder_by_zero.
      destruct (is_zero (pymax minp minb)); reflexivity.
Qed.

(** ** Sides and signs *)

(** [opposite_side] is an involution without fixed point; it negates
    [sign], changes [chain_side], and is the side [place_orders] flattens
    with. *)
Theorem opposite_side_flips_sign (s : OrderSide) :
  opposite_side (opposite_side s) = s /\
  opposite_side s <> s /\
  OrderSide_sign (opposite_side s) = (- OrderSide_sign s)%Z /\
  chain_side (opposite_side s) <> chain_side s /\
  opposite s = opposite_side s.
Proof. destruct s; repeat split; discriminate. Qed.

(** [round_to_tick_with_side] returns a multiple of the tick that is not
    more aggressive than the value and less than one tick away: at most the
    value for a buy, at least the value for a sell. *)
Lemma float_0_000001_pos : 0 < float_0_000001.
Proof. reflexivity. Qed.

(** [sign] has a dead band around zero, bounded by the float [0.000001]
    on both sides and symmetric; outside of it, it agrees with the sign of
    [quantity_side]; the decimal 0.000001 is outside. *)
Theorem sign_has_a_dead_band (a : Q) :
  (sign a = 1%Z <-> float_0_000001 < a) /\
  (sign a = (-1)%Z <-> a < - float_0_000001) /\
  (sign a = 0%Z <-> - float_0_000001 <= a /\ a <= float_0_000001) /\
  sign (- a) = (- sign a)%Z /\
  (sign a <> 0%Z -> OrderSide_sign (quantity_side a) = sign a) /\
  sign (1 # 1000000) = 1%Z.
Proof.
  pose proof float_0_000001_pos as P.
  assert (S1 : sign a = 1%Z <-> float_0_000001 < a).
  { unfold sign. destruct (Qlt_bool float_0_000001 a) eqn:E1.
    - apply Qlt_bool_iff in E1. split; [intros _; exact E1 | reflexivity].
    - apply Qlt_bool_false_iff in E1.
      destruct (Qlt_bool a (- float_0_000001)); (split; [discriminate | lra]). }
  assert (S2 : sign a = (-1)%Z <-> a < - float_0_000001).
  { unfold sign. destruct (Qlt_bool float_0_000001 a) eqn:E1.
    - apply Qlt_bool_iff in E1. split; [discriminate | lra].
    - destruct (Qlt_bool a (- float_0_000001)) eqn:E2.
      + apply Qlt_bool_iff in E2. split; [intros _; exact E2 | reflexivity].
      + apply Qlt_bool_false_iff in E2. split; [discriminate | lra]. }
  assert (S3 : sign a = 0%Z <-> - float_0_000001 <= a /\ a <= float_0_000001).
  { unfold sign. destruct (Qlt_bool float_0_000001 a) eqn:E1.
    - apply Qlt_bool_iff in E1. split; [discriminate | lra].
    - apply Qlt_bool_false_iff in E1.
      destruct (Qlt_bool a (- float_0_000001)) eqn:E2.
      + apply Qlt_bool_iff in E2. split; [discriminate | lra].
      + apply Qlt_bool_false_iff in E2. split; [intros _; split; assumption | reflexivity]. }
  split; [exact S1 |]. split; [exact S2 |]. split; [exact S3 |].
  split; [| split; [| reflexivity]].
  - unfold sign.
    destruct (Qlt_bool float_0_000001 a) eqn:E1;
      destruct (Qlt_bool a (- float_0_000001)) eqn:E2;
      destruct (Qlt_bool float_0_000001 (- a)) eqn:E3;
      destruct (Qlt_bool (- a) (- float_0_000001)) eqn:E4;
      try reflexivity; exfalso;
      repeat match goal with
             | H : Qlt_bool _ _ = true |- _ => apply Qlt_bool_iff in H
             | H : Qlt_bool _ _ = false |- _ => apply Qlt_bool_false_iff in H
             end; lra.
  - intros Hn. unfold quantity_side.
    destruct (Qle_bool 0 a) eqn:E.
    + apply Qle_bool_iff in E. cbn. symmetry. apply S1.
      destruct (Qlt_le_dec float_0_000001 a) as [L | L]; [exact L |].
      exfalso. apply Hn. apply S3. split; lra.
    + apply Qle_bool_false_iff in E. cbn. symmetry. apply S2.
      destruct (Qlt_le_dec a (- float_0_000001)) as [L | L]; [exact L |].
      exfalso. apply Hn. apply S3. split; lra.
Qed.

(** ** Preparing the accounts *)

Section PreparationFacts.

Import Preparation.

Lemma settings_after_app lever initial tr tr' :
  settings_after lever initial (tr ++ tr')
  = fold_left (apply_request lever) tr' (settings_after lever initial tr).
Proof. unfold settings_after. apply fold_left_app. Qed.

(** [prepare_paradex] changes the account with at most one request, the
    margin configuration of ETH-USD-PERP set to leverage 1 and ISOLATED, and
    sends it exactly when both reads returned and the configuration read
    differs; the balance it returns is the free collateral read first. *)
Theorem prepare_paradex_sets_margin_only_when_it_differs (g : Gateways) (tr : list Request) :
  let run := Preparation.prepare_paradex g tr in
  let set_margin := SetMarginConfiguration "ETH-USD-PERP" 1 "ISOLATED" in
  (exists suffix, fst run = tr ++ suffix
     /\ (filter mutates suffix = [] \/ filter mutates suffix = [set_margin])
     /\ (In set_margin suffix <->
         exists info balance response c rest,
           get_account_info g tr = Returns info
           /\ free_collateral info = Some balance
           /\ get_margin_configuration g (tr ++ [GetAccountInfo]) "ETH-USD-PERP"
              = Returns response
           /\ configs response = Some (c :: rest)
           /\ margin_differs c = Returns true))
  /\ (forall balance, snd run = Returns balance ->
        exists info, get_account_info g tr = Returns info
                     /\ free_collateral info = Some balance).
Proof.
  cbv zeta. unfold Preparation.prepare_paradex, pbind, request, plift, pret.
  destruct (get_account_info g tr) as [|e|info] eqn:HI; cbn [fst snd].
  - split; [|discriminate]. exists [GetAccountInfo]. split; [reflexivity|]. split; [left; reflexivity|].
    split; [cbn; intros [H|[]]; discriminate|]. intros (?&?&?&?&?&H&_). discriminate.
  - split; [|discriminate]. exists [GetAccountInfo]. split; [reflexivity|]. split; [left; reflexivity|].
    split; [cbn; intros [H|[]]; discriminate|]. intros (?&?&?&?&?&H&_). discriminate.
  - destruct (free_collateral info) as [b|] eqn:HB; cbn [item fst snd].
    2:{ split; [|discriminate]. exists [GetAccountInfo]. split; [reflexivity|]. split; [left; reflexivity|].
        split; [cbn; intros [H|[]]; discriminate|]. intros (?&?&?&?&?&H&H'&_).
        inversion H; subst. congruence. }
    destruct (get_margin_configuration g (tr ++ [GetAccountInfo]) "ETH-USD-PERP")
      as [|e|response] eqn:HM; cbn [fst snd].
    + split; [|discriminate]. exists [GetAccountInfo; GetMarginConfiguration "ETH-USD-PERP"].
      split; [rewrite <- app_assoc; reflexivity|]. split; [left; reflexivity|].
      split; [cbn; intros [H|[H|[]]]; discriminate|]. intros (?&?&?&?&?&_&_&H&_). discriminate.
    + split; [|discriminate]. exists [GetAccountInfo; GetMarginConfiguration "ETH-USD-PERP"].
      split; [rewrite <- app_assoc; reflexivity|]. split; [left; reflexivity|].
      split; [cbn; intros [H|[H|[]]]; discriminate|]. intros (?&?&?&?&?&_&_&H&_). discriminate.
    + destruct (configs response) as [[|c rest]|] eqn:HC; cbn [item obind first_item fst snd].
      * split; [|discriminate]. exists [GetAccountInfo; GetMarginConfiguration "ETH-USD-PERP"].
        split; [rewrite <- app_assoc; reflexivity|]. split; [left; reflexivity|].
        split; [cbn; intros [H|[H|[]]]; discriminate|]. intros (?&?&?&?&?&_&_&H&H'&_).
        inversion H; subst. congruence.
      * destruct (margin_differs c) as [|e|[|]] eqn:HD; cbn [fst snd].
        -- split; [|discriminate]. exists [GetAccountInfo; GetMarginConfiguration "ETH-USD-PERP"].
           split; [rewrite <- app_assoc; reflexivity|]. split; [left; reflexivity|].
           split; [cbn; intros [H|[H|[]]]; discriminate|]. intros (?&?&?&?&?&_&_&H&H'&H'').
           inversion H; subst. congruence.
        -- split; [|discriminate]. exists [GetAccountInfo; GetMarginConfiguration "ETH-USD-PERP"].
           split; [rewrite <- app_assoc; reflexivity|]. split; [left; reflexivity|].
           split; [cbn; intros [H|[H|[]]]; discriminate|]. intros (?&?&?&?&?&_&_&H&H'&H'').
           inversion H; subst. congruence.
        -- split.
           ++ exists [GetAccountInfo; GetMarginConfiguration "ETH-USD-PERP";
                      SetMarginConfiguration "ETH-USD-PERP" 1 "ISOLATED"].
              split.
              { destruct (set_margin_configuration _ _ _ _ _); cbn [fst];
                  rewrite <- !app_assoc; reflexivity. }
              split; [right; reflexivity|].
              split; [|intros _; cbn; auto].
              intros _. exists info, b, response, c, rest. auto.
           ++ intros balance.
              destruct (set_margin_configuration _ _ _ _ _); cbn [snd]; try discriminate.
              intros H; inversion H; subst. exists info. auto.
        -- split.
           ++ exists [GetAccountInfo; GetMarginConfiguration "ETH-USD-PERP"].
              split; [rewrite <- app_assoc; reflexivity|]. split; [left; reflexivity|].
              split; [cbn; intros [H|[H|[]]]; discriminate|]. intros (?&?&?&?&?&_&_&H&H'&H'').
              inversion H; subst. congruence.
           ++ intros balance H; inversion H; subst. exists info. auto.
      * split; [|discriminate]. exists [GetAccountInfo; GetMarginConfiguration "ETH-USD-PERP"].
        split; [rewrite <- app_assoc; reflexivity|]. split; [left; reflexivity|].
        split; [cbn; intros [H|[H|[]]]; discriminate|]. intros (?&?&?&?&?&_&_&H&H'&_).
        inversion H; subst. congruence.
Qed.

Lemma send_in_order_run (g : Gateways) (balance : Decimal) :
  forall (wanted : list Request) (tr : list Request),
    let run := send_in_order g tr wanted balance in
    (fst run = tr ++ wanted /\ snd run = Returns balance /\
     forall sent r rest, wanted = sent ++ r :: rest ->
                         setting_answer g (tr ++ sent) r = Returns tt)
    \/
    (exists sent failed rest,
        wanted = sent ++ failed :: rest /\
        fst run = tr ++ sent ++ [failed] /\
        (forall before r after, sent = before ++ r :: after ->
                                setting_answer g (tr ++ before) r = Returns tt) /\
        setting_answer g (tr ++ sent) failed <> Returns tt /\
        (forall b, snd run <> Returns b) /\
        (forall e, setting_answer g (tr ++ sent) failed = Raises e ->
                   snd run = Raises e)).
Proof.
  induction wanted as [| q wanted IH]; intros tr; cbv zeta.
  - left. cbn [send_in_order fst snd]. rewrite app_nil_r.
    split; [reflexivity |]. split; [reflexivity |].
    intros [| x sent] r rest H; discriminate H.
  - cbn [send_in_order].
    destruct (setting_answer g tr q) as [| e | []] eqn:Hq.
    + right. exists [], q, wanted. cbn [app fst snd]. rewrite app_nil_r.
      split; [reflexivity |]. split; [reflexivity |].
      split; [intros [| x before] r after H; discriminate H |].
      rewrite Hq. split; [discriminate |]. split; [discriminate |].
      intros e H. discriminate H.
    + right. exists [], q, wanted. cbn [app fst snd]. rewrite app_nil_r.
      split; [reflexivity |]. split; [reflexivity |].
      split; [intros [| x before] r after H; discriminate H |].
      rewrite Hq. split; [discriminate |]. split; [discriminate |].
      intros e' H. injection H as <-. reflexivity.
    + destruct (IH (tr ++ [q])) as [(Hf & Hs & Hall)
                                   | (sent & failed & rest & Hw & Hf & Hall & Hn & Hb & He)].
      * left. rewrite Hf, Hs, <- app_assoc.
        split; [reflexivity |]. split; [reflexivity |].
        intros [| x sent] r rest H; cbn [app] in H; injection H as -> ->.
        -- rewrite app_nil_r. exact Hq.
        -- specialize (Hall sent r rest eq_refl).
           rewrite <- app_assoc in Hall. exact Hall.
      * right. exists (q :: sent), failed, rest.
        rewrite <- !app_assoc in *. cbn [app] in *.
        split; [rewrite Hw; reflexivity |]. split; [exact Hf |].
        split; [| split; [exact Hn | split; [exact Hb | exact He]]].
        intros [| x before] r after H; cbn [app] in H; injection H as -> ->.
        -- rewrite app_nil_r. exact Hq.
        -- specialize (Hall before r after eq_refl).
           rewrite <- app_assoc in Hall. exact Hall.
Qed.

(** The requests [prepare_bitget] wants to send for the settings read. *)
Lemma prepare_bitget_sends_in_order (g : Gateways) (tr : list Request)
  details d available margin_mode position_mode long_lever short_lever :
  get_account_details g tr "ETHPERP" = Returns details ->
  data details = Some d ->
  isolatedMaxAvailable d = Some available ->
  marginMode d = Some margin_mode ->
  posMode d = Some position_mode ->
  isolatedLongLever d = Some long_lever ->
  isolatedShortLever d = Some short_lever ->
  Preparation.prepare_bitget g tr
  = send_in_order g (tr ++ [GetAccountDetails "ETHPERP"])
      ((if differs_from position_mode "one_way_mode" then [SetPositionMode] else [])
       ++ (if differs_from margin_mode "isolated" then [SetMarginMode "ETHPERP"] else [])
       ++ (if differs_from_1 long_lever || differs_from_1 short_lever
           then [SetLeverage "ETHPERP" 1] else []))
      available.
Proof.
  intros HR Hd Hb Hmm Hpm Hll Hsl.
  unfold Preparation.prepare_bitget, pbind, request, plift, pret.
  rewrite HR, Hd. cbn [item]. rewrite Hb, Hmm, Hpm, Hll, Hsl. cbn [item].
  destruct (differs_from position_mode "one_way_mode");
    destruct (differs_from margin_mode "isolated");
    destruct (differs_from_1 long_lever || differs_from_1 short_lever);
    cbn [app send_in_order setting_answer];
    repeat match goal with
           | |- context [set_position_mode g ?t] =>
               destruct (set_position_mode g t) as [| ? | []]
           | |- context [set_margin_mode g ?t ?s] =>
               destruct (set_margin_mode g t s) as [| ? | []]
           | |- context [set_leverage g ?t ?s ?l] =>
               destruct (set_leverage g t s l) as [| ? | []]
           end;
    rewrite <- ?app_assoc; reflexivity.
Qed.

(** [prepare_bitget] changes nothing unless the account details were read
    with all five keys.  Then it sends the requests for the settings that
    differ, in the order position mode, margin mode, leverage, each one once
    the one before it returned: either all of them are sent and return, and
    it returns the available balance; or it stops at the first request that
    does not return, having sent nothing after it, and raises what that
    request raised. *)
Theorem prepare_bitget_settings_stop_at_first_refusal (g : Gateways) (tr : list Request) :
  let run := Preparation.prepare_bitget g tr in
  let read := tr ++ [GetAccountDetails "ETHPERP"] in
  (forall details d available margin_mode position_mode long_lever short_lever,
      get_account_details g tr "ETHPERP" = Returns details ->
      data details = Some d ->
      isolatedMaxAvailable d = Some available ->
      marginMode d = Some margin_mode ->
      posMode d = Some position_mode ->
      isolatedLongLever d = Some long_lever ->
      isolatedShortLever d = Some short_lever ->
      let wanted :=
        (if differs_from position_mode "one_way_mode" then [SetPositionMode] else [])
        ++ (if differs_from margin_mode "isolated" then [SetMarginMode "ETHPERP"] else [])
        ++ (if differs_from_1 long_lever || differs_from_1 short_lever
            then [SetLeverage "ETHPERP" 1] else []) in
      (fst run = read ++ wanted /\ snd run = Returns available /\
       forall sent r rest, wanted = sent ++ r :: rest ->
                           setting_answer g (read ++ sent) r = Returns tt)
      \/
      (exists sent failed rest,
          wanted = sent ++ failed :: rest /\
          fst run = read ++ sent ++ [failed] /\
          (forall before r after, sent = before ++ r :: after ->
                                  setting_answer g (read ++ before) r = Returns tt) /\
          setting_answer g (read ++ sent) failed <> Returns tt /\
          (forall balance, snd run <> Returns balance) /\
          (forall e, setting_answer g (read ++ sent) failed = Raises e ->
                     snd run = Raises e))) /\
  ((~ exists details d available margin_mode position_mode long_lever short_lever,
        get_account_details g tr "ETHPERP" = Returns details
        /\ data details = Some d
        /\ isolatedMaxAvailable d = Some available
        /\ marginMode d = Some margin_mode
        /\ posMode d = Some position_mode
        /\ isolatedLongLever d = Some long_lever
        /\ isolatedShortLever d = Some short_lever) ->
   fst run = read /\ forall balance, snd run <> Returns balance).
Proof.
  cbv zeta. split.
  - intros details d available margin_mode position_mode long_lever short_lever
           HR Hd Hb Hmm Hpm Hll Hsl.
    rewrite (prepare_bitget_sends_in_order g tr details d available margin_mode
               position_mode long_lever short_lever HR Hd Hb Hmm Hpm Hll Hsl).
    apply send_in_order_run.
  - intros Hno.
    unfold Preparation.prepare_bitget, pbind, request, plift, pret.
    destruct (get_account_details g tr "ETHPERP") as [| e | details] eqn:HR;
      cbn [fst snd]; try (split; [reflexivity | discriminate]).
    destruct (data details) as [d |] eqn:Hd; cbn [item fst snd];
      try (split; [reflexivity | discriminate]).
    destruct (isolatedMaxAvailable d) as [b |] eqn:Hb; cbn [item fst snd];
      try (split; [reflexivity | discriminate]).
    destruct (marginMode d) as [mm |] eqn:Hmm; cbn [item fst snd];
      try (split; [reflexivity | discriminate]).
    destruct (posMode d) as [pm |] eqn:Hpm; cbn [item fst snd];
      try (split; [reflexivity | discriminate]).
    destruct (isolatedLongLever d) as [ll |] eqn:Hll; cbn [item fst snd];
      try (split; [reflexivity | discriminate]).
    destruct (isolatedShortLever d) as [sl |] eqn:Hsl; cbn [item fst snd];
      try (split; [reflexivity | discriminate]).
    exfalso. apply Hno. exists details, d, b, mm, pm, ll, sl.
    repeat split; assumption.
Qed.

(** Bitget: a leverage reported as a string is set again on every run. *)
Theorem string_leverage_is_set_on_every_run
  (g : Gateways) (tr : list Request) (details : AccountDetails) (d : AccountData)
  (reported : string) (balance : Decimal) :
  get_account_details g tr "ETHPERP" = Returns details ->
  data details = Some d ->
  isolatedLongLever d = Some (JString reported)
  \/ isolatedShortLever d = Some (JString reported) ->
  snd (Preparation.prepare_bitget g tr) = Returns balance ->
  exists before,
    fst (Preparation.prepare_bitget g tr) = before ++ [SetLeverage "ETHPERP" 1].
Proof.
  intros HR Hd Hlever. unfold Preparation.prepare_bitget, pbind, request, plift, pret.
  rewrite HR. cbn [fst snd]. rewrite Hd. cbn [item].
  destruct (isolatedMaxAvailable d) as [b|]; cbn [item fst snd]; [|discriminate].
  destruct (marginMode d) as [mm|]; cbn [item fst snd]; [|discriminate].
  destruct (posMode d) as [pm|]; cbn [item fst snd]; [|discriminate].
  destruct (isolatedLongLever d) as [ll|] eqn:Hll; cbn [item fst snd]; [|discriminate].
  destruct (isolatedShortLever d) as [sl|] eqn:Hsl; cbn [item fst snd]; [|discriminate].
  assert (D3 : differs_from_1 ll || differs_from_1 sl = true).
  { destruct Hlever as [H|H]; inversion H; subst; cbn; auto using orb_true_r. }
  rewrite D3.
  destruct (differs_from pm "one_way_mode");
    [destruct (set_position_mode g _) as [|e1|[]]|]; cbn [fst snd]; try discriminate;
    (destruct (differs_from mm "isolated");
     [destruct (set_margin_mode g _ _) as [|e2|[]]|]; cbn [fst snd]; try discriminate);
    (destruct (set_leverage g _ _ _) as [|e3|[]]; cbn [fst snd]; try discriminate);
    intros _; eexists; reflexivity.
Qed.

Lemma prepare_paradex_obedient lever initial paradex_collateral bitget_available tr :
  let s := settings_after lever initial tr in
  Preparation.prepare_paradex (obedient lever initial paradex_collateral bitget_available) tr
  = (tr ++ [GetAccountInfo; GetMarginConfiguration "ETH-USD-PERP"]
        ++ (if differs_from_1 (paradex_leverage s)
               || differs_from (paradex_margin_type s) "ISOLATED"
            then [SetMarginConfiguration "ETH-USD-PERP" 1 "ISOLATED"] else []),
     Returns paradex_collateral).
Proof.
  cbv zeta.
  unfold Preparation.prepare_paradex, pbind, request, plift, pret, obedient, margin_differs.
  cbn [get_account_info get_margin_configuration set_margin_configuration
       free_collateral configs leverage margin_type item first_item obind fst snd].
  rewrite settings_after_app. cbn [fold_left apply_request].
  destruct (differs_from_1 (paradex_leverage _)); cbn [orb];
    [|destruct (differs_from (paradex_margin_type _) "ISOLATED")];
    rewrite <- ?app_assoc; reflexivity.
Qed.

Lemma prepare_bitget_obedient lever initial paradex_collateral bitget_available tr :
  let s := settings_after lever initial tr in
  Preparation.prepare_bitget (obedient lever initial paradex_collateral bitget_available) tr
  = (tr ++ [GetAccountDetails "ETHPERP"]
        ++ (if differs_from (bitget_position_mode s) "one_way_mode"
            then [SetPositionMode] else [])
        ++ (if differs_from (bitget_margin_mode s) "isolated"
            then [SetMarginMode "ETHPERP"] else [])
        ++ (if differs_from_1 (bitget_long_lever s) || differs_from_1 (bitget_short_lever s)
            then [SetLeverage "ETHPERP" 1] else []),
     Returns bitget_available).
Proof.
  cbv zeta.
  unfold Preparation.prepare_bitget, pbind, request, plift, pret, obedient.
  cbn [get_account_details set_position_mode set_margin_mode set_leverage
       data isolatedMaxAvailable marginMode posMode isolatedLongLever isolatedShortLever
       item fst snd].
  destruct (differs_from (bitget_position_mode _) "one_way_mode");
    destruct (differs_from (bitget_margin_mode _) "isolated");
    destruct (differs_from_1 (bitget_long_lever _) || differs_from_1 (bitget_short_lever _));
    cbn [fst snd app]; rewrite <- ?app_assoc; reflexivity.
Qed.

(** On a venue that applies what it is asked and reports leverages as
    numbers, a first preparation leaves the settings prepared and a second
    one only reads. *)
Theorem preparation_is_idempotent_on_an_obedient_venue
  (initial : Settings) (paradex_collateral bitget_available : Decimal)
  (tr : list Request) :
  let lever := fun l => JNumber (inject_Z l) in
  let g := obedient lever initial paradex_collateral bitget_available in
  let first := Preparation.prepare_paradex g tr in
  let second := Preparation.prepare_bitget g (fst first) in
  let third := Preparation.prepare_paradex g (fst second) in
  let fourth := Preparation.prepare_bitget g (fst third) in
  snd first = Returns paradex_collateral
  /\ snd second = Returns bitget_available
  /\ prepared (settings_after lever initial (fst second)) = true
  /\ snd third = Returns paradex_collateral
  /\ snd fourth = Returns bitget_available
  /\ fst fourth
     = fst second ++ [GetAccountInfo; GetMarginConfiguration "ETH-USD-PERP";
                      GetAccountDetails "ETHPERP"].
Proof.
  cbv zeta.
  set (lever := fun l => JNumber (inject_Z l)).
  rewrite (prepare_paradex_obedient lever initial _ _ tr). cbn [fst snd].
  rewrite (prepare_bitget_obedient lever initial). cbn [fst snd].
  match goal with
  | |- context [prepared (settings_after lever initial ?t)] => set (t2 := t)
  end.
  assert (Hprepared : prepared (settings_after lever initial t2) = true).
  { subst t2. rewrite !settings_after_app.
    set (s := settings_after lever initial tr).
    unfold prepared.
    destruct (differs_from_1 (paradex_leverage s)) eqn:D1;
      destruct (differs_from (paradex_margin_type s) "ISOLATED") eqn:D2;
      cbn [orb fold_left apply_request app paradex_leverage paradex_margin_type
           bitget_margin_mode bitget_position_mode bitget_long_lever bitget_short_lever];
      rewrite ?D1, ?D2;
      destruct (differs_from (bitget_position_mode s) "one_way_mode") eqn:D3;
      destruct (differs_from (bitget_margin_mode s) "isolated") eqn:D4;
      destruct (differs_from_1 (bitget_long_lever s)) eqn:D5;
      destruct (differs_from_1 (bitget_short_lever s)) eqn:D6;
      cbn [orb fold_left apply_request app paradex_leverage paradex_margin_type
           bitget_margin_mode bitget_position_mode bitget_long_lever bitget_short_lever];
      rewrite ?D1, ?D2, ?D3, ?D4, ?D5, ?D6; reflexivity. }
  rewrite (prepare_paradex_obedient lever initial _ _ t2). cbn [fst snd].
  rewrite (prepare_bitget_obedient lever initial). cbn [fst snd].
  rewrite !(settings_after_app lever initial t2). cbn [fold_left apply_request].
  pose proof Hprepared as Hp. unfold prepared in Hp.
  repeat (apply andb_prop in Hp; destruct Hp as [Hp ?]).
  repeat match goal with H : negb _ = true |- _ => apply negb_true_iff in H end.
  repeat (progress (cbn [orb app fold_left apply_request];
                    repeat match goal with
                           | H : differs_from _ _ = false |- _ => rewrite H
                           | H : differs_from_1 _ = false |- _ => rewrite H
                           end)).
  rewrite <- !app_assoc. cbn [app].
  repeat split; try reflexivity. exact Hprepared.
Qed.

End PreparationFacts.

(** ** The Paradex session *)

Section SessionFacts.

Import Session.

Ltac session_unfold :=
  unfold _make_request, _check_token_expiry, get_jwt_token, get_config, make_request,
    is_token_expired, send, io_bind, io_ret, io_raise, io_lift, self, set_client, item
    in *.

Lemma create_headers_run (c : Client) (tr : list Request) (h : Headers) :
  snd (_create_headers (c, tr)) = Returns h ->
  _create_headers (c, tr) = ((c, tr), Returns h).
Proof.
  unfold _create_headers, io_bind, self, io_ret. cbn [fst snd].
  destruct (jwt_token c) as [t|]; [destruct (nonempty t)|]; cbn [snd]; congruence.
Qed.

(** An expired token is refreshed, but the request that met it is not sent
    again: it is reported as failed. *)
Theorem expired_token_is_refreshed_but_request_not_retried
  (n : Network) (c : Client) (tr : list Request) (method path : string)
  (data : option JsonObject) (h : Headers) (address key : string)
  (response reply : Response) (d d' : JsonObject) (message chain signature : string) :
  snd (_create_headers (c, tr)) = Returns h ->
  let original := {| method := method; path := path; headers := h; data := data |} in
  session_request n tr original = Returns response ->
  status response = 401%Z ->
  json response = Returns d ->
  get d "message" = Some message ->
  String.prefix "invalid bearer jwt: token is expired by" message = true ->
  account_address c = Some address -> nonempty address = true ->
  private_key c = Some key -> nonempty key = true ->
  get (config c) "starknet_chain_id" = Some chain ->
  let now := time_time n (tr ++ [original]) in
  let expiry := (now + 24 * 60 * 60)%Z in
  sign_auth_message n (config c) address key now expiry = Returns signature ->
  let auth := {| method := "POST"; path := "/auth";
                 headers := StarknetAuthentication address signature now expiry;
                 data := None |} in
  session_request n (tr ++ [original]) auth = Returns reply ->
  (200 <= status reply < 300)%Z ->
  json reply = Returns d' ->
  let token := match get d' "jwt_token" with Some t => t | None => ""%string end in
  _make_request n method path None data true (c, tr)
  = ((with_token c token, tr ++ [original; auth]), Returns (response, false))
  /\ (method = "GET"%string -> path = "/account"%string -> data = None ->
      get_account_info n (c, tr)
      = ((with_token c token, tr ++ [original; auth]),
         Raises (Exn ParadexAPIError "Failed to get account info"))).
Proof.
  intros Hh original Hsend Hstatus Hjson Hmessage Hprefix Haddress Ha Hkey Hk Hchain
         now expiry Hsign auth Hreply Hok Hjson' token.
  assert (Hconfig : is_empty (config c) = false).
  { destruct (config c); [discriminate Hchain | reflexivity]. }
  assert (Hrun : _make_request n method path None data true (c, tr)
                 = ((with_token c token, tr ++ [original; auth]),
                    Returns (response, false))).
  { apply create_headers_run in Hh. session_unfold.
    assert (Hs : ((200 <=? status reply)%Z && (status reply <? 300)%Z) = true).
    { apply andb_true_iff. split; [apply Z.leb_le | apply Z.ltb_lt]; lia. }
    rewrite Hh. cbn [fst snd]. fold original. rewrite Hsend. cbn [fst snd].
    rewrite Hjson, Hstatus. cbn [Z.eqb Pos.eqb fst snd]. rewrite Hmessage. cbn [obind].
    rewrite Hprefix. cbn [fst snd]. rewrite Haddress, Hkey, Ha, Hk. cbn [negb orb fst snd].
    rewrite Hconfig. cbn [fst snd config]. rewrite Hchain. cbn [fst snd].
    fold now. fold expiry. rewrite Hsign. cbn [fst snd]. fold auth.
    rewrite Hreply. cbn [fst snd]. rewrite Hjson'. rewrite Hs. cbn [negb fst snd].
    rewrite Hjson'. cbn [negb andb Z.leb Z.ltb Z.compare Pos.compare Pos.compare_cont fst snd].
    unfold with_token. cbn [jwt_token account_address private_key config].
    rewrite <- Haddress, <- Hkey, <- app_assoc. reflexivity. }
  split; [exact Hrun |].
  intros -> -> ->. unfold get_account_info, io_bind. rewrite Hrun.
  cbn [fst snd]. unfold io_lift. rewrite Hjson. reflexivity.
Qed.

(** An expired token without credentials: the request fails with a
    [ParadexAPIError], and nothing else is sent. *)
Theorem expired_token_without_credentials_raises
  (n : Network) (c : Client) (tr : list Request) (method path : string)
  (data : option JsonObject) (h : Headers)
  (response : Response) (d : JsonObject) (message : string) :
  snd (_create_headers (c, tr)) = Returns h ->
  let original := {| method := method; path := path; headers := h; data := data |} in
  session_request n tr original = Returns response ->
  status response = 401%Z ->
  json response = Returns d ->
  get d "message" = Some message ->
  String.prefix "invalid bearer jwt: token is expired by" message = true ->
  truthy (account_address c) && truthy (private_key c) = false ->
  _make_request n method path None data true (c, tr)
  = ((c, tr ++ [original]),
     Raises (Exn ParadexAPIError "Token expired and no credentials to refresh")).
Proof.
  intros Hh original Hsend Hstatus Hjson Hmessage Hprefix Hcred.
  apply create_headers_run in Hh. session_unfold.
  rewrite Hh. cbn [fst snd]. fold original. rewrite Hsend. cbn [fst snd].
  rewrite Hjson, Hstatus. cbn [Z.eqb Pos.eqb fst snd]. rewrite Hmessage. cbn [obind].
  rewrite Hprefix. cbn [fst snd].
  unfold truthy in Hcred.
  destruct (account_address c) as [address|]; [| reflexivity].
  destruct (private_key c) as [key|]; [| reflexivity].
  destruct (nonempty address); destruct (nonempty key); try discriminate Hcred;
    reflexivity.
Qed.

Lemma make_request_run
  (n : Network) (c : Client) (tr : list Request) (method path : string)
  (data : option JsonObject) (h : Headers)
  (check : option (Z -> JsonObject -> IO unit))
  (response : Response) (d : JsonObject) :
  snd (_create_headers (c, tr)) = Returns h ->
  let original := {| method := method; path := path; headers := h; data := data |} in
  session_request n tr original = Returns response ->
  json response = Returns d
  \/ (d = [] /\ exists e, json response = Raises e
                          /\ isinstance e (OtherException "ContentTypeError") = true) ->
  make_request n check method path None data (c, tr)
  = io_bind (match check with
             | Some check_token_expiry => check_token_expiry (status response) d
             | None => io_ret tt
             end)
            (fun _ => io_ret (response,
                              (200 <=? status response)%Z && (status response <? 300)%Z))
            (c, tr ++ [original]).
Proof.
  intros Hh original Hsend Hbody.
  apply create_headers_run in Hh.
  unfold make_request, io_bind.
  rewrite Hh. unfold send. cbn [fst snd]. fold original. rewrite Hsend.
  assert (Hdata :
            (match json response with
             | Returns d => io_ret d
             | Raises e =>
                 if isinstance e (OtherException "ContentTypeError")
                 then io_ret []
                 else io_raise e
             | OutOfFuel => io_lift OutOfFuel
             end) (c, tr ++ [original]) = ((c, tr ++ [original]), Returns d)).
  { destruct Hbody as [-> | (-> & e & -> & ->)]; reflexivity. }
  rewrite Hdata.
  destruct (match check with
            | Some check_token_expiry => check_token_expiry (status response) d
            | None => io_ret tt
            end (c, tr ++ [original])) as [s' [| e | []]]; try reflexivity.
  unfold io_ret.
  destruct ((200 <=? status response)%Z && (status response <? 300)%Z); reflexivity.
Qed.

(** Without a refresh, a request is sent once and the client is left as it
    is: the answer is a success exactly for a status from 200 to 299; but a
    401 whose body has no message raises a [KeyError]. *)
Theorem request_without_refresh
  (n : Network) (c : Client) (tr : list Request) (method path : string)
  (data : option JsonObject) (h : Headers) (check_jwt : bool)
  (response : Response) (d : JsonObject) :
  snd (_create_headers (c, tr)) = Returns h ->
  let original := {| method := method; path := path; headers := h; data := data |} in
  session_request n tr original = Returns response ->
  json response = Returns d
  \/ (d = [] /\ exists e, json response = Raises e
                          /\ isinstance e (OtherException "ContentTypeError") = true) ->
  let result := _make_request n method path None data check_jwt (c, tr) in
  (check_jwt = false \/ status response <> 401%Z ->
   result = ((c, tr ++ [original]),
             Returns (response,
                      (200 <=? status response)%Z && (status response <? 300)%Z)))
  /\ (check_jwt = true -> status response = 401%Z -> get d "message" = None ->
      result = ((c, tr ++ [original]), Raises (Exn KeyError "'message'"))).
Proof.
  intros Hh original Hsend Hbody result. subst result.
  unfold _make_request.
  rewrite (make_request_run n c tr method path data h _ response d Hh Hsend Hbody).
  fold original. split.
  - intros [-> | Hs]; [reflexivity |].
    destruct check_jwt; [| reflexivity].
    unfold io_bind, _check_token_expiry, is_token_expired, io_bind, io_lift, io_ret.
    destruct (status response =? 401)%Z eqn:E; [| reflexivity].
    apply Z.eqb_eq in E. contradiction.
  - intros -> Hs Hm.
    unfold io_bind, _check_token_expiry, is_token_expired, io_bind, io_lift, item.
    rewrite Hs. cbn [Z.eqb Pos.eqb]. rewrite Hm. reflexivity.
Qed.

End SessionFacts.

(** * Concrete runs *)

(** C1, witness: the increments 0.01 and 0.001 of the two venues, sizes of
    at most three decimal places. *)
Lemma common_size_search_result_witness :
  (0 < (1 # 100) /\ 0 < (1 # 1000) /\
   decimal_places 3 (1 # 100) /\ decimal_places 3 (1 # 1000) /\
   decimal_places 3 (2 # 100) /\ decimal_places 3 (2 # 1000) /\
   decimal_places 3 1 /\
   - digits_bound 3 < pymax (2 # 100) (2 # 1000) - pymin (1 # 100) (1 # 1000) /\
   pymin 1 1 + pymin (1 # 100) (1 # 1000) < digits_bound 3) /\
  exists fuel r,
    _find_common_size fuel (2 # 100) (2 # 100) (1 # 100) (1 # 1000)
                      (2 # 100) (2 # 1000) 1 1 = Returns r.
Proof.
  assert (H1 : 0 < (1 # 100)) by reflexivity.
  assert (H2 : 0 < (1 # 1000)) by reflexivity.
  assert (P1 : decimal_places 3 (1 # 100)) by (exists 10%Z; reflexivity).
  assert (P2 : decimal_places 3 (1 # 1000)) by (exists 1%Z; reflexivity).
  assert (P3 : decimal_places 3 (2 # 100)) by (exists 20%Z; reflexivity).
  assert (P4 : decimal_places 3 (2 # 1000)) by (exists 2%Z; reflexivity).
  assert (P5 : decimal_places 3 1) by (exists 1000%Z; reflexivity).
  assert (L : - digits_bound 3
              < pymax (2 # 100) (2 # 1000) - pymin (1 # 100) (1 # 1000))
    by (vm_compute; reflexivity).
  assert (U : pymin 1 1 + pymin (1 # 100) (1 # 1000) < digits_bound 3)
    by (vm_compute; reflexivity).
  split; [repeat split; assumption |].
  exact (proj1 (common_size_search_result (2 # 100) (2 # 100) (1 # 100) (1 # 1000)
                  (2 # 100) (2 # 1000) 1 1 3 H1 H2 P1 P2 P3 P4 P5 P5 L U)).
Defined.

(** C3, counterexample: Bitget rejects leg B and Paradex refuses the cancel;
    the error that surfaces is a [ParadexError]. *)
Lemma compensation_failure_is_paradex_error :
  let v := scripted_venues cancel_refused bitget_rejects eth_market in
  snd (leg_a_attempt v Buy 1 "0xacc" "0xkey") = Returns "A1"%string /\
  snd (leg_b_attempt v Buy 1 "0xacc" "0xkey" "sell" 1)
  = Raises (Exn OrderCancelledError "Order was cancelled") /\
  snd (compensation_attempt v Buy 1 "0xacc" "0xkey" "sell" 1 "A1")
  = Raises (Exn ParadexAPIError "Failed to cancel order") /\
  snd (attempt v Buy "long" 1 "0xacc" "0xkey" "sell" "short" 1)
  = Raises (Exn ParadexError "Paradex order failed: Failed to cancel order") /\
  isinstance (Exn ParadexError "Paradex order failed: Failed to cancel order")
             HedgePositionMismatchError = false.
Proof. cbv zeta. repeat split; vm_compute; reflexivity. Qed.

(** C3, witness: Bitget is unreachable and Paradex refuses the cancel. *)
Lemma compensation_failure_surfaces_witness :
  let v := scripted_venues cancel_refused bitget_unreachable eth_market in
  let failure := Exn ParadexAPIError "Failed to cancel order" in
  (snd (leg_a_attempt v Sell 1 "0xacc" "0xkey") = Returns "A1"%string /\
   snd (leg_b_attempt v Sell 1 "0xacc" "0xkey" "buy" 1)
   = Raises (Exn BitgetAPIError "An error occurred while interacting with Bitget API") /\
   snd (compensation_attempt v Sell 1 "0xacc" "0xkey" "buy" 1 "A1") = Raises failure) /\
  snd (attempt v Sell "short" 1 "0xacc" "0xkey" "buy" "long" 1)
  = Raises (outer_handler failure).
Proof.
  cbv zeta.
  assert (H1 : snd (leg_a_attempt
                      (scripted_venues cancel_refused bitget_unreachable eth_market)
                      Sell 1 "0xacc" "0xkey") = Returns "A1"%string)
    by (vm_compute; reflexivity).
  assert (H2 : snd (leg_b_attempt
                      (scripted_venues cancel_refused bitget_unreachable eth_market)
                      Sell 1 "0xacc" "0xkey" "buy" 1)
               = Raises (Exn BitgetAPIError
                             "An error occurred while interacting with Bitget API"))
    by (vm_compute; reflexivity).
  assert (H3 : snd (compensation_attempt
                      (scripted_venues cancel_refused bitget_unreachable eth_market)
                      Sell 1 "0xacc" "0xkey" "buy" 1 "A1")
               = Raises (Exn ParadexAPIError "Failed to cancel order"))
    by (vm_compute; reflexivity).
  split; [repeat split; assumption |].
  exact (proj1 (compensation_failure_surfaces _ _ "short" _ _ _ _ "long" _ _ _ _
                  H1 H2 H3)).
Defined.

(** C4, counterexample: Bitget rejects leg B, the cancel finds the order of
    leg A closed, the reduce-only order goes through; the error that
    surfaces is the [OrderCancelledError], not a [BitgetError]. *)
Lemma cancelled_leg_b_is_not_bitget_error :
  let v := scripted_venues cancel_closed bitget_rejects eth_market in
  let cancelled := Exn OrderCancelledError "Order was cancelled" in
  snd (leg_a_attempt v Buy 1 "0xacc" "0xkey") = Returns "A1"%string /\
  snd (leg_b_attempt v Buy 1 "0xacc" "0xkey" "sell" 1) = Raises cancelled /\
  snd (compensation_attempt v Buy 1 "0xacc" "0xkey" "sell" 1 "A1") = Returns tt /\
  count is_flatten (fst (attempt v Buy "long" 1 "0xacc" "0xkey" "sell" "short" 1))
  = 1%nat /\
  snd (attempt v Buy "long" 1 "0xacc" "0xkey" "sell" "short" 1) = Raises cancelled /\
  isinstance cancelled BitgetError = false.
Proof. cbv zeta. repeat split; vm_compute; reflexivity. Qed.

(** C4, witness: Bitget rejects leg B and the cancel succeeds. *)
Lemma cancelled_leg_b_is_reraised_witness :
  let v := scripted_venues cancel_done bitget_rejects eth_market in
  let cancelled := Exn OrderCancelledError "Order was cancelled" in
  (snd (leg_a_attempt v Buy 1 "0xacc" "0xkey") = Returns "A1"%string /\
   snd (leg_b_attempt v Buy 1 "0xacc" "0xkey" "sell" 1) = Raises cancelled /\
   isinstance cancelled OrderCancelledError = true /\
   snd (compensation_attempt v Buy 1 "0xacc" "0xkey" "sell" 1 "A1") = Returns tt) /\
  snd (attempt v Buy "long" 1 "0xacc" "0xkey" "sell" "short" 1) = Raises cancelled.
Proof.
  cbv zeta.
  assert (H1 : snd (leg_a_attempt
                      (scripted_venues cancel_done bitget_rejects eth_market)
                      Buy 1 "0xacc" "0xkey") = Returns "A1"%string)
    by (vm_compute; reflexivity).
  assert (H2 : snd (leg_b_attempt
                      (scripted_venues cancel_done bitget_rejects eth_market)
                      Buy 1 "0xacc" "0xkey" "sell" 1)
               = Raises (Exn OrderCancelledError "Order was cancelled"))
    by (vm_compute; reflexivity).
  assert (H3 : isinstance (Exn OrderCancelledError "Order was cancelled")
                          OrderCancelledError = true) by reflexivity.
  assert (H4 : snd (compensation_attempt
                      (scripted_venues cancel_done bitget_rejects eth_market)
                      Buy 1 "0xacc" "0xkey" "sell" 1 "A1") = Returns tt)
    by (vm_compute; reflexivity).
  split; [repeat split; assumption |].
  exact (cancelled_leg_b_is_reraised _ _ "long" _ _ _ _ "short" _ _ _ H1 H2 H3 H4).
Defined.

(** The other leg-B failures, witness: Bitget is unreachable and the cancel
    succeeds. *)
Lemma other_leg_b_failure_is_wrapped_twice_witness :
  let v := scripted_venues cancel_done bitget_unreachable eth_market in
  let unreachable :=
    Exn BitgetAPIError "An error occurred while interacting with Bitget API" in
  (snd (leg_a_attempt v Buy 1 "0xacc" "0xkey") = Returns "A1"%string /\
   snd (leg_b_attempt v Buy 1 "0xacc" "0xkey" "sell" 1) = Raises unreachable /\
   isinstance unreachable OrderCancelledError = false /\
   snd (compensation_attempt v Buy 1 "0xacc" "0xkey" "sell" 1 "A1") = Returns tt) /\
  snd (attempt v Buy "long" 1 "0xacc" "0xkey" "sell" "short" 1)
  = Raises (Exn ParadexError
              ("Paradex order failed: " ++ "Bitget order failed: "
               ++ str_exn unreachable)).
Proof.
  cbv zeta.
  assert (H1 : snd (leg_a_attempt
                      (scripted_venues cancel_done bitget_unreachable eth_market)
                      Buy 1 "0xacc" "0xkey") = Returns "A1"%string)
    by (vm_compute; reflexivity).
  assert (H2 : snd (leg_b_attempt
                      (scripted_venues cancel_done bitget_unreachable eth_market)
                      Buy 1 "0xacc" "0xkey" "sell" 1)
               = Raises (Exn BitgetAPIError
                             "An error occurred while interacting with Bitget API"))
    by (vm_compute; reflexivity).
  assert (H3 : isinstance
                 (Exn BitgetAPIError
                      "An error occurred while interacting with Bitget API")
                 OrderCancelledError = false) by reflexivity.
  assert (H4 : snd (compensation_attempt
                      (scripted_venues cancel_done bitget_unreachable eth_market)
                      Buy 1 "0xacc" "0xkey" "sell" 1 "A1") = Returns tt)
    by (vm_compute; reflexivity).
  split; [repeat split; assumption |].
  exact (other_leg_b_failure_is_wrapped_twice _ _ "long" _ _ _ _ "short" _ _ _
           H1 H2 H3 H4).
Defined.

(** C5, witness: the example of the two venues, where the search finds 0.02
    at once and both legs trade it. *)
Lemma leg_sizes_common_or_best_effort_witness :
  _find_common_size 4 (2 # 100) (2 # 100) (1 # 100) (1 # 1000)
                    (2 # 100) (2 # 1000) 1 1 = Returns (Some (2 # 100)) /\
  choose_leg_sizes 4 (2 # 100) (2 # 100) (1 # 100) (1 # 1000)
                   (2 # 100) (2 # 1000) 100 9500 1 1
  = Returns (2 # 100, 2 # 100).
Proof.
  assert (H : _find_common_size 4 (2 # 100) (2 # 100) (1 # 100) (1 # 1000)
                                (2 # 100) (2 # 1000) 1 1 = Returns (Some (2 # 100)))
    by (vm_compute; reflexivity).
  split; [exact H |].
  apply (proj1 (leg_sizes_common_or_best_effort 4 (2 # 100) (2 # 100) (1 # 100)
                  (1 # 1000) (2 # 100) (2 # 1000) 100 9500 1 1 _ H)
               (2 # 100) eq_refl).
  intros E. discriminate E.
Defined.


(** C7, counterexample: a maximum of 1 below a minimum of 2 raises a
    [ValueError], and so does the whole attempt on a market whose largest
    order (0.01) is below the smallest tradable size (0.02). *)
Lemma size_constraints_raise_value_error :
  let e := Exn ValueError "Paradex max order size is less than min order size" in
  1 < 2 /\
  _validate_size_constraints 2 1 1 2 = Raises e /\
  run (execute_hedge_strategy
         (scripted_venues cancel_done bitget_rejects capped_market) tails 100
         "0xacc" "0xkey") = ([], Raises e) /\
  isinstance e OrderSizeError = false.
Proof. cbv zeta. repeat split; vm_compute; reflexivity. Qed.

(** C7, witness: the capped market. *)
Lemma size_constraints_fail_fast_witness :
  let v := scripted_venues cancel_done bitget_rejects capped_market in
  exists c,
    read_constraints v tails = Returns c /\
    max_paradex_size c < min_paradex_size c /\
    exists e, run (execute_hedge_strategy v tails 100 "0xacc" "0xkey")
              = ([], Raises e) /\ exn_kind e = ValueError.
Proof.
  cbv zeta.
  destruct (read_constraints
              (scripted_venues cancel_done bitget_rejects capped_market) tails)
    as [| e | c] eqn:Hc.
  - vm_compute in Hc. discriminate Hc.
  - vm_compute in Hc. discriminate Hc.
  - assert (Hlt : max_paradex_size c < min_paradex_size c).
    { vm_compute in Hc. injection Hc as <-. reflexivity. }
    exists c. split; [reflexivity |]. split; [exact Hlt |].
    exact (proj2 size_constraints_fail_fast
                 (scripted_venues cancel_done bitget_rejects capped_market)
                 tails 100%nat "0xacc"%string "0xkey"%string c Hc (or_introl Hlt)).
Defined.

(** [place_orders] raises a [ParadexError], witness: Bitget is unreachable
    and the cancel succeeds. *)
Lemma place_orders_raises_cancelled_or_paradex_error_witness :
  let v := scripted_venues cancel_done bitget_unreachable eth_market in
  let e :=
    Exn ParadexError
        ("Paradex order failed: " ++ "Bitget order failed: "
         ++ "An error occurred while interacting with Bitget API") in
  snd (attempt v Buy "long" 1 "0xacc" "0xkey" "sell" "short" 1) = Raises e /\
  (exn_kind e = OrderCancelledError \/ exn_kind e = ParadexError) /\
  isinstance e ExchangeError = true /\
  isinstance e BitgetError = false /\
  isinstance e HedgePositionMismatchError = false.
Proof.
  cbv zeta.
  assert (H : snd (attempt (scripted_venues cancel_done bitget_unreachable eth_market)
                           Buy "long" 1 "0xacc" "0xkey" "sell" "short" 1)
              = Raises (Exn ParadexError
                            ("Paradex order failed: " ++ "Bitget order failed: "
                             ++ "An error occurred while interacting with Bitget API")))
    by (vm_compute; reflexivity).
  split; [exact H |].
  exact (place_orders_raises_cancelled_or_paradex_error _ _ _ _ _ _ _ _ _ _ H).
Defined.

(** Which common size is chosen, witness: the increments 0.6 and 1.2 from a
    minimum size of 10^27, where each addition of the step is rounded to 28
    digits: the candidates are 10^27, 10^27 + 1 and 10^27 + 2, and the last
    one is returned. *)
Lemma common_size_is_first_on_its_scan_witness :
  let big := inject_Z (10 ^ 27) in
  let v := big + 2 in
  let ia := 6 # 10 in
  let ib := 12 # 10 in
  _find_common_size 20 big big ia ib big big (big + 10) (big + 10)
  = Returns (Some v) /\
  up_candidate (pymax big big) (pymin ia ib) 2 = v /\
  let upper_limit := pymin (big + 10) (big + 10) in
  let min_size := pymax big big in
  let step := pymin ia ib in
  let target := pymax big big in
  let qualifies_up (c : Decimal) := is_common_multiple c ia ib /\ target <= c in
  (exists k : nat,
      v = up_candidate min_size step k /\
      v <= upper_limit /\ qualifies_up v /\
      forall j : nat, (j < k)%nat ->
        up_candidate min_size step j <= upper_limit /\
        ~ qualifies_up (up_candidate min_size step j))
  \/
  ((exists n : nat,
       upper_limit < up_candidate min_size step n /\
       forall j : nat, (j < n)%nat ->
         up_candidate min_size step j <= upper_limit /\
         ~ qualifies_up (up_candidate min_size step j)) /\
   exists k : nat,
     v = down_candidate upper_limit step k /\
     min_size <= v /\ is_common_multiple v ia ib /\
     forall j : nat, (j < k)%nat ->
       min_size <= down_candidate upper_limit step j /\
       ~ is_common_multiple (down_candidate upper_limit step j) ia ib).
Proof.
  cbv zeta.
  assert (H : _find_common_size 20 (inject_Z (10 ^ 27)) (inject_Z (10 ^ 27))
                (6 # 10) (12 # 10) (inject_Z (10 ^ 27)) (inject_Z (10 ^ 27))
                (inject_Z (10 ^ 27) + 10) (inject_Z (10 ^ 27) + 10)
              = Returns (Some (inject_Z (10 ^ 27) + 2)))
    by (vm_compute; reflexivity).
  split; [exact H |]. split; [vm_compute; reflexivity |].
  exact (common_size_is_first_on_its_scan 20 _ _ _ _ _ _ _ _ _ H).
Defined.

(** A zero multiplier, witness: an increment of 0.01 and a smallest size of
    0.02, a multiple of it. *)
Lemma zero_multiplier_raises_or_never_returns_witness :
  0 == 0 /\
  (forall fuel v,
      _find_common_size fuel (2 # 100) (2 # 100) (1 # 100) 0 (2 # 100) 0 1 1
      <> Returns (Some v)) /\
  (forall fuel e,
      _find_common_size fuel (2 # 100) (2 # 100) (1 # 100) 0 (2 # 100) 0 1 1
      = Raises e ->
      exn_kind e = InvalidOperation) /\
  (pymax (2 # 100) 0 <= pymin 1 1 ->
   is_multiple (pymax (2 # 100) 0) (1 # 100) ->
   forall fuel,
     exists e,
       _find_common_size (S fuel) (2 # 100) (2 # 100) (1 # 100) 0 (2 # 100) 0 1 1
       = Raises e /\
       exn_kind e = InvalidOperation).
Proof.
  assert (H : 0 == 0) by reflexivity.
  split; [exact H |].
  exact (zero_multiplier_raises_or_never_returns (2 # 100) (2 # 100) (1 # 100) 0
           (2 # 100) 0 1 1 H).
Defined.

Section PreparationRuns.

Import Preparation.

(** A leverage reported as a string, witness: an account that is prepared,
    on a venue that reports the leverage 1 as the string 1. *)
Lemma string_leverage_is_set_on_every_run_witness :
  let as_string := fun _ : Z => JString "1" in
  let initial :=
    {| paradex_leverage := JNumber 1; paradex_margin_type := JString "ISOLATED";
       bitget_margin_mode := JString "isolated";
       bitget_position_mode := JString "one_way_mode";
       bitget_long_lever := JString "1"; bitget_short_lever := JString "1" |} in
  let g := obedient as_string initial 1000 1000 in
  let d :=
    {| isolatedMaxAvailable := Some 1000; marginMode := Some (JString "isolated");
       posMode := Some (JString "one_way_mode");
       isolatedLongLever := Some (JString "1");
       isolatedShortLever := Some (JString "1") |} in
  (get_account_details g [] "ETHPERP" = Returns {| data := Some d |} /\
   data {| data := Some d |} = Some d /\
   (isolatedLongLever d = Some (JString "1")
    \/ isolatedShortLever d = Some (JString "1")) /\
   snd (Preparation.prepare_bitget g []) = Returns 1000) /\
  exists before,
    fst (Preparation.prepare_bitget g []) = before ++ [SetLeverage "ETHPERP" 1].
Proof.
  cbv zeta.
  set (g := obedient _ _ _ _).
  set (d := {| isolatedMaxAvailable := Some 1000; marginMode := _; posMode := _;
               isolatedLongLever := _; isolatedShortLever := _ |}).
  assert (H1 : get_account_details g [] "ETHPERP" = Returns {| data := Some d |})
    by reflexivity.
  assert (H2 : data {| data := Some d |} = Some d) by reflexivity.
  assert (H3 : isolatedLongLever d = Some (JString "1")
               \/ isolatedShortLever d = Some (JString "1")) by (left; reflexivity).
  assert (H4 : snd (Preparation.prepare_bitget g []) = Returns 1000)
    by (vm_compute; reflexivity).
  split; [repeat split; assumption |].
  exact (string_leverage_is_set_on_every_run g [] _ d "1" 1000 H1 H2 H3 H4).
Defined.

End PreparationRuns.

Section SessionRuns.

Import Session.

(** An expired token is refreshed, witness: a client with credentials asks
    for its account. *)
Lemma expired_token_is_refreshed_but_request_not_retried_witness :
  let n := expired_then_fresh in
  let c := logged_in in
  let h := Authorization "Bearer stale" in
  let original := {| method := "GET"; path := "/account"; headers := h; data := None |} in
  let message := "invalid bearer jwt: token is expired by 5s"%string in
  let response := {| status := 401; json := Returns [("message", message)] |}%string in
  let reply := {| status := 200; json := Returns [("jwt_token", "fresh")] |}%string in
  let auth := {| method := "POST"; path := "/auth";
                 headers := StarknetAuthentication "0xacc" "0xsig" 1700000000
                                                   (1700000000 + 24 * 60 * 60);
                 data := None |} in
  (snd (_create_headers (c, [])) = Returns h /\
   session_request n [] original = Returns response /\
   status response = 401%Z /\
   json response = Returns [("message", message)]%string /\
   get [("message", message)]%string "message" = Some message /\
   String.prefix "invalid bearer jwt: token is expired by" message = true /\
   account_address c = Some "0xacc"%string /\ nonempty "0xacc" = true /\
   private_key c = Some "0xkey"%string /\ nonempty "0xkey" = true /\
   get (config c) "starknet_chain_id" = Some "SN_MAIN"%string /\
   sign_auth_message n (config c) "0xacc" "0xkey" 1700000000
                     (1700000000 + 24 * 60 * 60) = Returns "0xsig"%string /\
   session_request n ([] ++ [original]) auth = Returns reply /\
   (200 <= status reply < 300)%Z /\
   json reply = Returns [("jwt_token", "fresh")]%string) /\
  _make_request n "GET" "/account" None None true (c, [])
  = ((with_token c "fresh", [] ++ [original; auth]), Returns (response, false)) /\
  get_account_info n (c, [])
  = ((with_token c "fresh", [] ++ [original; auth]),
     Raises (Exn ParadexAPIError "Failed to get account info")).
Proof.
  cbv zeta.
  assert (Hok : (200 <= 200 < 300)%Z) by lia.
  pose proof (expired_token_is_refreshed_but_request_not_retried
                expired_then_fresh logged_in [] "GET" "/account" None
                (Authorization "Bearer stale") "0xacc" "0xkey"
                {| status := 401;
                   json := Returns [("message",
                                     "invalid bearer jwt: token is expired by 5s")] |}%string
                {| status := 200; json := Returns [("jwt_token", "fresh")] |}%string
                [("message", "invalid bearer jwt: token is expired by 5s")]%string
                [("jwt_token", "fresh")]%string
                "invalid bearer jwt: token is expired by 5s" "SN_MAIN" "0xsig"
                eq_refl eq_refl eq_refl eq_refl eq_refl eq_refl eq_refl eq_refl eq_refl
                eq_refl eq_refl eq_refl eq_refl
                Hok eq_refl)
    as [R1 R2].
  split.
  - repeat split; try reflexivity; discriminate.
  - split; [exact R1 | exact (R2 eq_refl eq_refl eq_refl)].
Defined.

(** An expired token without credentials, witness: a client that was only
    given a token. *)
Lemma expired_token_without_credentials_raises_witness :
  let n := expired_then_fresh in
  let c := token_only in
  let h := Authorization "Bearer stale" in
  let original := {| method := "GET"; path := "/account"; headers := h; data := None |} in
  let message := "invalid bearer jwt: token is expired by 5s"%string in
  let response := {| status := 401; json := Returns [("message", message)] |}%string in
  (snd (_create_headers (c, [])) = Returns h /\
   session_request n [] original = Returns response /\
   status response = 401%Z /\
   json response = Returns [("message", message)]%string /\
   get [("message", message)]%string "message" = Some message /\
   String.prefix "invalid bearer jwt: token is expired by" message = true /\
   truthy (account_address c) && truthy (private_key c) = false) /\
  _make_request n "GET" "/account" None None true (c, [])
  = ((c, [] ++ [original]),
     Raises (Exn ParadexAPIError "Token expired and no credentials to refresh")).
Proof.
  cbv zeta. split.
  - repeat split; reflexivity.
  - exact (expired_token_without_credentials_raises
             expired_then_fresh token_only [] "GET" "/account" None
             (Authorization "Bearer stale")
             {| status := 401;
                json := Returns [("message",
                                  "invalid bearer jwt: token is expired by 5s")] |}%string
             [("message", "invalid bearer jwt: token is expired by 5s")]%string
             "invalid bearer jwt: token is expired by 5s"
             eq_refl eq_refl eq_refl eq_refl eq_refl eq_refl eq_refl).
Defined.

(** A 401 that is not JSON, witness: the request raises a [KeyError]. *)
Lemma request_without_refresh_witness :
  let n := unauthorized_page in
  let c := logged_in in
  let h := Authorization "Bearer stale" in
  let original := {| method := "GET"; path := "/account"; headers := h; data := None |} in
  let e := Exn (OtherException "ContentTypeError")
               "Attempt to decode JSON with unexpected mimetype" in
  let response := {| status := 401; json := Raises e |} in
  (snd (_create_headers (c, [])) = Returns h /\
   session_request n [] original = Returns response /\
   json response = Raises e /\
   isinstance e (OtherException "ContentTypeError") = true /\
   status response = 401%Z /\
   get [] "message" = None) /\
  _make_request n "GET" "/account" None None true (c, [])
  = ((c, [] ++ [original]), Raises (Exn KeyError "'message'")).
Proof.
  cbv zeta. split.
  - repeat split; reflexivity.
  - exact (proj2 (request_without_refresh
                    unauthorized_page logged_in [] "GET" "/account" None
                    (Authorization "Bearer stale") true
                    {| status := 401;
                       json := Raises (Exn (OtherException "ContentTypeError")
                                           "Attempt to decode JSON with unexpected mimetype") |}
                    [] eq_refl eq_refl
                    (or_intror (conj eq_refl
                                     (ex_intro _ _ (conj eq_refl eq_refl)))))
                 eq_refl eq_refl eq_refl).
Defined.

End SessionRuns.
